(** * Sensor link and measurement session engine

    A shallow embedding of [src/utils/BLEManager.ts] (the link, the frame
    handler and the simulator) and of the session logic of the sole screen
    component ([startMeasurement], [stopMeasurement], [completeTest],
    [calculateAverages]), followed by the properties of the specification
    that are settled against it.

    Conventions.
    - A JavaScript string is the list of its UTF-16 code units ([jsstring]).
    - A JavaScript number that the code only ever uses as an integer is a [Z];
      [parseInt] returns [option Z], [None] standing for [NaN].
    - The observer callbacks [onDataReceived], [onRawDataReceived] and
      [onConnectionChange] are modelled by the list of events a method
      emits, in order; the screen component folds them into its state.
    - [sendStopCommand] is called without being awaited and reports
      after its [await]: its report is kept apart from the events of the
      call and reaches the screen when the write settles. *)

From Stdlib Require Import String Ascii.
From Stdlib Require Import ZArith NArith List Bool Lia.
Import ListNotations.

Local Open Scope Z_scope.

(* ================================================================== *)
(** ** JavaScript strings *)

Module JS.

Definition jsstring := list N.

(** A literal of the source, all of whose characters are ASCII. *)
Definition js (s : string) : jsstring :=
  map N_of_ascii (list_ascii_of_string s).

Definition comma : N := 44%N.

(** ECMAScript LineTerminator: LF, CR, LS, PS. *)
Definition isLineTerminator (c : N) : bool :=
  (N.eqb c 10 || N.eqb c 13 || N.eqb c 8232 || N.eqb c 8233)%N.

(** ECMAScript WhiteSpace and LineTerminator, the set that [trim] and
    [parseInt] strip: TAB, VT, FF, SP, NBSP, ZWNBSP, the Zs category and
    the line terminators. *)
Definition isWhiteSpace (c : N) : bool :=
  (N.eqb c 9 || N.eqb c 11 || N.eqb c 12 || N.eqb c 32 || N.eqb c 160
   || N.eqb c 5760 || (N.leb 8192 c && N.leb c 8202)
   || N.eqb c 8239 || N.eqb c 8287 || N.eqb c 12288 || N.eqb c 65279
   || isLineTerminator c)%N.

Fixpoint trimStart (s : jsstring) : jsstring :=
  match s with
  | [] => []
  | c :: s' => if isWhiteSpace c then trimStart s' else s
  end.

Fixpoint trimEnd (s : jsstring) : jsstring :=
  match s with
  | [] => []
  | c :: s' =>
      match trimEnd s' with
      | [] => if isWhiteSpace c then [] else [c]
      | r => c :: r
      end
  end.

(** [String.prototype.trim]. *)
Definition trim (s : jsstring) : jsstring := trimEnd (trimStart s).

Fixpoint startsWith (p s : jsstring) : bool :=
  match p, s with
  | [], _ => true
  | _ :: _, [] => false
  | a :: p', b :: s' => N.eqb a b && startsWith p' s'
  end.

(** [String.prototype.includes]. *)
Fixpoint includes (p s : jsstring) : bool :=
  startsWith p s ||
  match s with
  | [] => false
  | _ :: s' => includes p s'
  end.

(** [String.prototype.split(',')]; the empty string splits into [[""]]. *)
Fixpoint split_comma (s : jsstring) : list jsstring :=
  match s with
  | [] => [[]]
  | c :: s' =>
      if N.eqb c comma then [] :: split_comma s'
      else match split_comma s' with
           | [] => [[c]]
           | e :: es => (c :: e) :: es
           end
  end.

(** [Array.prototype.join(sep)] on an array of strings. *)
Fixpoint join (sep : jsstring) (l : list jsstring) : jsstring :=
  match l with
  | [] => []
  | [e] => e
  | e :: l' => e ++ sep ++ join sep l'
  end.

Definition join_comma : list jsstring -> jsstring := join [comma].

Definition isDigit (c : N) : bool := (N.leb 48 c && N.leb c 57)%N.

(** The longest prefix of decimal digits, read as a number, and whether
    at least one digit was read. *)
Fixpoint digitsValue (acc : Z) (seen : bool) (s : jsstring) : option Z :=
  match s with
  | [] => if seen then Some acc else None
  | c :: s' =>
      if isDigit c then digitsValue (10 * acc + (Z.of_N c - 48)) true s'
      else if seen then Some acc else None
  end.

(** [parseInt(s, 10)]: leading white space is skipped, one sign is read,
    then the longest run of decimal digits; no digit gives [NaN] ([None]).
    Beyond twenty digits an engine may round the value; every use in the
    source clamps the result to [0, 255], which the rounding cannot
    change. *)
Definition parseInt (s : jsstring) : option Z :=
  match trimStart s with
  | [] => None
  | c :: s' =>
      if N.eqb c 45 then option_map Z.opp (digitsValue 0 false s')
      else if N.eqb c 43 then digitsValue 0 false s'
      else digitsValue 0 false (c :: s')
  end.

Fixpoint digitsOf (fuel : nat) (n : N) (acc : jsstring) : jsstring :=
  let acc' := (48 + n mod 10)%N :: acc in
  match fuel with
  | O => acc'
  | S f => if N.eqb (n / 10) 0 then acc' else digitsOf f (n / 10)%N acc'
  end.

(** [Number.prototype.toString] on an integer (below 1e21 in absolute
    value, where JavaScript still prints all digits). *)
Definition numberToString (z : Z) : jsstring :=
  let n := Z.to_N (Z.abs z) in
  let d := digitsOf (N.to_nat (N.log2 n)) n [] in
  if z <? 0 then 45%N :: d else d.

(** [Math.max(0, Math.min(255, num))]. *)
Definition clamp255 (num : Z) : Z := Z.max 0 (Z.min 255 num).

(** *** UTF-8, as [TextDecoder] and [TextEncoder] implement it *)

(** A code point as UTF-16 code units. *)
Definition utf16 (cp : N) : jsstring :=
  (if cp <? 65536 then [cp]
   else [55296 + (cp - 65536) / 1024; 56320 + (cp - 65536) mod 1024])%N.

Definition replacement : N := 65533%N.

(** The decoder's state inside a multi-byte sequence: the code point so
    far, the continuation bytes still needed, and the bounds of the next
    continuation byte. *)
Record Utf8State := {
  u_cp : N; u_needed : nat; u_lower : N; u_upper : N
}.

(** A byte met outside a sequence: code units to emit and, for a lead
    byte, the state entered. *)
Definition utf8Lead (b : N) : jsstring * option Utf8State :=
  (if b <=? 127 then ([b], None)
   else if (194 <=? b) && (b <=? 223) then
     ([], Some {| u_cp := N.land b 31; u_needed := 1;
                  u_lower := 128; u_upper := 191 |})
   else if (224 <=? b) && (b <=? 239) then
     ([], Some {| u_cp := N.land b 15; u_needed := 2;
                  u_lower := if b =? 224 then 160 else 128;
                  u_upper := if b =? 237 then 159 else 191 |})
   else if (240 <=? b) && (b <=? 244) then
     ([], Some {| u_cp := N.land b 7; u_needed := 3;
                  u_lower := if b =? 240 then 144 else 128;
                  u_upper := if b =? 244 then 143 else 191 |})
   else ([replacement], None))%N.

Fixpoint utf8Decode (st : option Utf8State) (bytes : list N) : jsstring :=
  match bytes with
  | [] => match st with None => [] | Some _ => [replacement] end
  | b :: rest =>
      match st with
      | None =>
          let '(out, st') := utf8Lead b in out ++ utf8Decode st' rest
      | Some s =>
          if (N.leb (u_lower s) b && N.leb b (u_upper s))%N then
            let cp := (u_cp s * 64 + N.land b 63)%N in
            match u_needed s with
            | S (S k) =>
                utf8Decode (Some {| u_cp := cp; u_needed := S k;
                                    u_lower := 128; u_upper := 191 |}) rest
            | _ => utf16 cp ++ utf8Decode None rest
            end
          else
            let '(out, st') := utf8Lead b in
            replacement :: out ++ utf8Decode st' rest
      end
  end.

(** [new TextDecoder().decode(value)]: UTF-8, errors replaced by U+FFFD,
    a leading byte order mark dropped. *)
Definition TextDecoder_decode (bytes : list N) : jsstring :=
  match utf8Decode None bytes with
  | 65279%N :: s => s
  | s => s
  end.

(** [new TextEncoder().encode(s)]: UTF-8, a surrogate pair encoded as
    one code point, a lone surrogate as U+FFFD. *)
Fixpoint TextEncoder_encode (s : jsstring) : list N :=
  match s with
  | [] => []
  | c :: s' =>
      (if c <=? 127 then c :: TextEncoder_encode s'
       else if c <=? 2047 then
         192 + c / 64 :: 128 + c mod 64 :: TextEncoder_encode s'
       else if (55296 <=? c) && (c <=? 56319) then
         match s' with
         | c2 :: s'' =>
             if (56320 <=? c2) && (c2 <=? 57343) then
               let cp := 65536 + (c - 55296) * 1024 + (c2 - 56320) in
               240 + cp / 262144 :: 128 + (cp / 4096) mod 64
               :: 128 + (cp / 64) mod 64 :: 128 + cp mod 64
               :: TextEncoder_encode s''
             else 239 :: 191 :: 189 :: TextEncoder_encode s'
         | [] => [239; 191; 189]
         end
       else if (56320 <=? c) && (c <=? 57343) then
         239 :: 191 :: 189 :: TextEncoder_encode s'
       else
         224 + c / 4096 :: 128 + (c / 64) mod 64 :: 128 + c mod 64
         :: TextEncoder_encode s')%N
  end.

End JS.

Import JS.

(* ================================================================== *)
(** ** The link manager ([src/utils/BLEManager.ts]) *)

Module BLE.

(** What the manager reads of a [BluetoothDevice]: [name] may be absent,
    [gatt] is [false] for the [null] of the mock devices. *)
Record BluetoothDevice := {
  id : jsstring;
  name : option jsstring;
  gatt : bool
}.

Record GATTServer := { connected : bool }.

(** A value caught by a [catch]: an [Error] (or [DOMException]) with its
    [name] and [message], or something that is not an [Error]. *)
Inductive Thrown :=
| ErrorObj (ename message : jsstring)
| NonError (text : jsstring).

Definition isError (e : Thrown) : bool :=
  match e with ErrorObj _ _ => true | NonError _ => false end.

(** [e instanceof Error && e.message.includes(p)]. *)
Definition messageIncludes (p : jsstring) (e : Thrown) : bool :=
  match e with
  | ErrorObj _ m => includes p m
  | NonError _ => false
  end.

(** The text of [`${error}`]. *)
Definition thrownText (e : Thrown) : jsstring :=
  match e with
  | ErrorObj [] m => m
  | ErrorObj n [] => n
  | ErrorObj n m => n ++ js ": " ++ m
  | NonError t => t
  end.

Definition newError (m : jsstring) : Thrown := ErrorObj (js "Error") m.

Inductive Promise (A : Type) :=
| Resolved (a : A)
| Rejected (e : Thrown).
Arguments Resolved {A} a.
Arguments Rejected {A} e.

(** The private fields of the class.  [subscribed] records that line 102
    added the ['characteristicvaluechanged'] listener; the object fields
    [service] and [characteristic] are only tested for [null]. *)
Record BLEManager := {
  device : option BluetoothDevice;
  server : option GATTServer;
  service : bool;
  characteristic : bool;
  isCollecting : bool;
  collectionInterval : bool;
  subscribed : bool
}.

Definition initial : BLEManager :=
  {| device := None; server := None; service := false;
     characteristic := false; isCollecting := false;
     collectionInterval := false; subscribed := false |}.

(** The three observer callbacks, as the events a method emits. *)
Inductive Event :=
| onDataReceived (data : list Z)
| onConnectionChange (isConnected : bool)
| onRawDataReceived (rawData : jsstring).

Definition SERVICE_UUID : jsstring :=
  js "12345678-1234-1234-1234-1234567890ab".
Definition CHARACTERISTIC_UUID : jsstring :=
  js "abcd1234-5678-90ab-cdef-1234567890ab".

(** *** Discovery *)

Inductive Request :=
| Granted (d : BluetoothDevice)
| Refused (e : Thrown).

(** What the platform answers to one scan: whether [navigator.bluetooth]
    exists, and the outcome of the filtered and of the accept-all
    [requestDevice] call. *)
Record Platform := {
  bluetooth : bool;
  filtered : Request;
  acceptAll : Request
}.

Definition getMockDevices : list BluetoothDevice :=
  [ {| id := js "demo-esp32-left"; name := Some (js "ESP32-FootSensor-L");
       gatt := false |};
    {| id := js "demo-esp32-right"; name := Some (js "ESP32-FootSensor-R");
       gatt := false |} ].

Definition unsupportedMessage : jsstring :=
  js "Web Bluetooth is not supported in this browser. Please use Chrome, Edge, or Opera.".

Definition scanForDevices (p : Platform) : Promise (list BluetoothDevice) :=
  let first :=
    if negb (bluetooth p) then Refused (newError unsupportedMessage)
    else filtered p in
  match first with
  | Granted d => Resolved [d]
  | Refused error =>
      if messageIncludes (js "User cancelled") error then
        Rejected (newError (js "Device selection cancelled by user"))
      else
        (* navigator.bluetooth.requestDevice on an absent
           navigator.bluetooth throws a TypeError, caught below *)
        let second :=
          if negb (bluetooth p) then
            Refused (ErrorObj (js "TypeError") (js "navigator.bluetooth is undefined"))
          else acceptAll p in
        match second with
        | Granted d => Resolved [d]
        | Refused _ => Resolved getMockDevices
        end
  end.

(** *** Connection *)

Inductive GattStage :=
| AtConnect | AtGetPrimaryService | AtGetCharacteristic | AtStartNotifications.

(** How the four awaited GATT calls of [connect] end on a real device. *)
Inductive GattOutcome :=
| GattOk
| GattFails (stage : GattStage) (e : Thrown).

Definition isDemoId (i : jsstring) : bool := startsWith (js "demo-") i.

(** [this.device?.id?.startsWith('demo-')] as a condition. *)
Definition deviceIsDemo (m : BLEManager) : bool :=
  match device m with
  | Some d => isDemoId (id d)
  | None => false
  end.

Definition demoModeActivated : jsstring :=
  utf16 127917 ++ js " Demo mode activated - simulated ESP32 data".

Definition simulateConnection (m : BLEManager) : BLEManager * list Event :=
  ({| device := Some {| id := js "demo-device";
                        name := Some (js "Demo ESP32 Sensor");
                        gatt := false |};
      server := server m; service := service m;
      characteristic := characteristic m; isCollecting := isCollecting m;
      collectionInterval := collectionInterval m;
      subscribed := subscribed m |},
   [onConnectionChange true; onRawDataReceived demoModeActivated]).

(** The manager when the [try] block of [connect] is left at [stage]:
    the fields assigned before that call have their new values. *)
Definition reached (m : BLEManager) (d : BluetoothDevice) (n : nat)
  : BLEManager :=
  {| device := Some d;
     server := if (1 <=? n)%nat then Some {| connected := true |}
               else server m;
     service := if (2 <=? n)%nat then true else service m;
     characteristic := if (3 <=? n)%nat then true else characteristic m;
     isCollecting := isCollecting m;
     collectionInterval := collectionInterval m;
     subscribed := if (4 <=? n)%nat then true else subscribed m |}.

Definition stageIndex (s : GattStage) : nat :=
  match s with
  | AtConnect => 0
  | AtGetPrimaryService => 1
  | AtGetCharacteristic => 2
  | AtStartNotifications => 3
  end.

Definition connectionEstablished : jsstring :=
  [9989%N] ++ js " ESP32 BLE connection established".
Definition usingDemoMode : jsstring :=
  [9888%N; 65039%N] ++ js " Using demo mode - ESP32 connection failed".

Definition notPermittedMessage : jsstring :=
  js "Device connection failed. Make sure the ESP32 is advertising and not connected to another device.".
Definition serviceNotFoundMessage : jsstring :=
  js "ESP32 service not found. Please check that your ESP32 is running the correct firmware with service UUID: "
  ++ SERVICE_UUID.
Definition characteristicNotFoundMessage : jsstring :=
  js "ESP32 characteristic not found. Please verify the characteristic UUID: "
  ++ CHARACTERISTIC_UUID.

(** The [catch] block of [connect] (lines 121-139). *)
Definition connectCatch (m : BLEManager) (error : Thrown)
  : BLEManager * list Event * Promise unit :=
  if messageIncludes (js "GATT operation not permitted") error then
    (m, [], Rejected (newError notPermittedMessage))
  else if messageIncludes (js "Service not found") error then
    (m, [], Rejected (newError serviceNotFoundMessage))
  else if messageIncludes (js "Characteristic not found") error then
    (m, [], Rejected (newError characteristicNotFoundMessage))
  else
    let '(m', evs) := simulateConnection m in
    (m', evs ++ [onRawDataReceived usingDemoMode], Resolved tt).

Definition connect (m : BLEManager) (d : BluetoothDevice) (o : GattOutcome)
  : BLEManager * list Event * Promise unit :=
  if gatt d && negb (isDemoId (id d)) then
    match o with
    | GattOk =>
        (reached m d 4,
         [onRawDataReceived connectionEstablished; onConnectionChange true],
         Resolved tt)
    | GattFails stage error => connectCatch (reached m d (stageIndex stage)) error
    end
  else
    let '(m', evs) := simulateConnection (reached m d 0) in
    (m', evs ++ [onConnectionChange true], Resolved tt).

Definition isConnected (m : BLEManager) : bool :=
  if deviceIsDemo m then true
  else match server m with
       | Some s => connected s
       | None => false
       end.

(** [v || 'fallback'] on an optional string. *)
Definition orElse (v : option jsstring) (fallback : jsstring) : jsstring :=
  match v with
  | Some (c :: s) => c :: s
  | _ => fallback
  end.

Definition getDeviceInfo (m : BLEManager)
  : option (jsstring * jsstring * bool) :=
  match device m with
  | None => None
  | Some d => Some (orElse (name d) (js "Unknown Device"), id d, isConnected m)
  end.

(** *** The frame handler *)

(** [.+] at the end of the pattern: the longest run of characters that
    are not line terminators. *)
Fixpoint dotPlus (s : jsstring) : jsstring :=
  match s with
  | [] => []
  | c :: s' => if isLineTerminator c then [] else c :: dotPlus s'
  end.

Definition nonEmpty (s : jsstring) : option jsstring :=
  match s with [] => None | _ => Some s end.

Definition tagLeft : jsstring := js "PRESSURE_LEFT:".
Definition tagRight : jsstring := js "PRESSURE_RIGHT:".

(** [/PRESSURE_(?:LEFT|RIGHT):(.+)/] anchored at the head of [s]: the
    capture group when it matches there. *)
Definition matchHere (s : jsstring) : option jsstring :=
  if startsWith tagLeft s then nonEmpty (dotPlus (skipn (length tagLeft) s))
  else if startsWith tagRight s then
    nonEmpty (dotPlus (skipn (length tagRight) s))
  else None.

(** [dataString.match(/PRESSURE_(?:LEFT|RIGHT):(.+)/)]: group 1 of the
    leftmost match. *)
Fixpoint regexMatch (s : jsstring) : option jsstring :=
  match matchHere s with
  | Some g => Some g
  | None => match s with
            | [] => None
            | _ :: s' => regexMatch s'
            end
  end.

(** The callback of both [map] calls (lines 174-179 and 196-201). *)
Definition pressureValue (val : jsstring) : Z :=
  match parseInt (trim val) with
  | None => 0
  | Some num => clamp255 num
  end.

(** [while (pressureValues.length < 8) pressureValues.push(0)]. *)
Definition pad8 (pressureValues : list Z) : list Z :=
  pressureValues ++ repeat 0 (8 - length pressureValues).

(** Lines 167-191: the tagged text format. *)
Definition taggedValues (dataString : jsstring) : option (list Z) :=
  if includes tagLeft dataString || includes tagRight dataString then
    match regexMatch dataString with
    | Some group1 =>
        Some (pad8 (firstn 8 (map pressureValue (split_comma (trim group1)))))
    | None => None
    end
  else None.

(** Lines 193-213: comma-separated values without prefix. *)
Definition csvValues (dataString : jsstring) : option (list Z) :=
  if includes [comma] dataString then
    let pressureValues :=
      firstn 8 (map pressureValue (split_comma (trim dataString))) in
    if (4 <=? length pressureValues)%nat then Some (pad8 pressureValues)
    else None
  else None.

(** Lines 215-222: eight raw bytes.  [value] is the view's bytes; the
    view is taken to span its whole buffer, as the values of a
    notification do. *)
Definition rawByteValues (value : list N) : option (list Z) :=
  if (length value =? 8)%nat then Some (map Z.of_N value) else None.

(** The three decodings in the order the handler tries them; [None] is
    the unrecognized format. *)
Definition decodeFrame (dataString : jsstring) (value : list N)
  : option (list Z) :=
  match taggedValues dataString with
  | Some v => Some v
  | None =>
      match csvValues dataString with
      | Some v => Some v
      | None => rawByteValues value
      end
  end.

Definition unrecognizedFormat (dataString : jsstring) : jsstring :=
  [10060%N] ++ js " Unrecognized data format: " ++ dataString.

(** [value] is the [DataView] of the notification, [None] when
    [target.value] is absent.  Nothing in the [try] block throws, so the
    [catch] of lines 228-231 is not reached. *)
Definition handleCharacteristicValueChanged
  (m : BLEManager) (value : option (list N)) : list Event :=
  match value with
  | Some bytes =>
      if isCollecting m then
        let dataString := TextDecoder_decode bytes in
        onRawDataReceived dataString ::
        match decodeFrame dataString bytes with
        | Some pressureValues => [onDataReceived pressureValues]
        | None => [onRawDataReceived (unrecognizedFormat dataString)]
        end
      else []
  | None => []
  end.

(** *** Data collection and the simulator *)

Definition setCollecting (b : bool) (m : BLEManager) : BLEManager :=
  {| device := device m; server := server m; service := service m;
     characteristic := characteristic m; isCollecting := b;
     collectionInterval := collectionInterval m;
     subscribed := subscribed m |}.

Definition setInterval (b : bool) (m : BLEManager) : BLEManager :=
  {| device := device m; server := server m; service := service m;
     characteristic := characteristic m; isCollecting := isCollecting m;
     collectionInterval := b; subscribed := subscribed m |}.

(** How a [writeValue] on the characteristic ends. *)
Inductive WriteOutcome :=
| WriteOk
| WriteFails (e : Thrown).

Definition sendCommand (sent failed : jsstring) (m : BLEManager)
  (w : WriteOutcome) : list Event :=
  if characteristic m then
    match w with
    | WriteOk => [onRawDataReceived sent]
    | WriteFails error => [onRawDataReceived (failed ++ thrownText error)]
    end
  else [].

Definition sendStartCommand : BLEManager -> WriteOutcome -> list Event :=
  sendCommand (utf16 128225 ++ js " Sent START command to ESP32")
              ([10060%N] ++ js " Error sending start command: ").

Definition sendStopCommand : BLEManager -> WriteOutcome -> list Event :=
  sendCommand (utf16 128225 ++ js " Sent STOP command to ESP32")
              ([10060%N] ++ js " Error sending stop command: ").

Definition simulateDataCollection (m : BLEManager)
  : BLEManager * list Event :=
  (setInterval true m,
   [onRawDataReceived (utf16 127917 ++ js " Simulating ESP32 pressure data...")]).

Definition startingCollection : jsstring :=
  utf16 128640 ++ js " Starting data collection...".
Definition stoppingCollection : jsstring :=
  utf16 128721 ++ js " Stopping data collection...".

Definition startDataCollection (m : BLEManager) (w : WriteOutcome)
  : BLEManager * list Event :=
  let m1 := setCollecting true m in
  if negb (characteristic m1) || deviceIsDemo m1 then
    let '(m2, evs) := simulateDataCollection m1 in
    (m2, onRawDataReceived startingCollection :: evs)
  else
    (m1, onRawDataReceived startingCollection :: sendStartCommand m1 w).

Definition baseValues : list Z := [50; 100; 150; 200; 250; 255; 128; 64].

(** Line 275-277.  [noise i] is the value of
    [Math.floor(Math.random() * 40 - 20)] for the element of index [i],
    an integer from -20 to 19. *)
Definition simulatedData (noise : nat -> Z) : list Z :=
  map (fun '(i, base) => clamp255 (base + noise i))
      (combine (seq 0 8) baseValues).

(** [`PRESSURE_LEFT:${simulatedData.join(',')}`]. *)
Definition frameString (data : list Z) : jsstring :=
  tagLeft ++ join_comma (map numberToString data).

(** The body of the interval callback of [simulateDataCollection]. *)
Definition simulatorTick (m : BLEManager) (noise : nat -> Z) : list Event :=
  if negb (isCollecting m) then []
  else
    let data := simulatedData noise in
    [onRawDataReceived (frameString data); onDataReceived data].

(** [stopDataCollection] (lines 286-300) calls [sendStopCommand()]
    without awaiting it, and [sendStopCommand] reports after its
    [await]: the result is the manager, the events of the call itself,
    and the events of the write, which come when the write settles,
    after whatever the caller does next. *)
Definition stopDataCollection (m : BLEManager) (w : WriteOutcome)
  : BLEManager * (list Event * list Event) :=
  let m1 := setInterval false (setCollecting false m) in
  (m1,
   ([onRawDataReceived stoppingCollection],
    if characteristic m1 && negb (deviceIsDemo m1)
    then sendStopCommand m1 w else [])).

(** [disconnect] (lines 316-339) awaits [stopNotifications()] only, and
    only when there is a characteristic, as there is whenever a STOP has
    been written.  [settled] tells whether the write of the STOP has
    settled by the time [stopNotifications()] has: its report then comes
    before [onConnectionChange(false)], and otherwise it is still to
    come when [disconnect] ends. *)
Definition disconnect (m : BLEManager) (w : WriteOutcome) (settled : bool)
  : BLEManager * (list Event * list Event) :=
  let '(m1, (evs, later)) := stopDataCollection m w in
  let m2 :=
    {| device := None; server := None; service := false;
       characteristic := false; isCollecting := isCollecting m1;
       collectionInterval := collectionInterval m1; subscribed := false |} in
  let first :=
    onRawDataReceived (utf16 128268 ++ js " Disconnecting from ESP32...")
    :: evs in
  if settled
  then (m2, (first ++ later ++ [onConnectionChange false], []))
  else (m2, (first ++ [onConnectionChange false], later)).

(** The ['gattserverdisconnected'] listener of line 105, after the
    platform has cleared [server.connected]. *)
Definition gattserverdisconnected (m : BLEManager)
  : BLEManager * list Event :=
  ({| device := device m;
      server := match server m with
                | Some _ => Some {| connected := false |}
                | None => None
                end;
      service := service m; characteristic := characteristic m;
      isCollecting := isCollecting m;
      collectionInterval := collectionInterval m;
      subscribed := subscribed m |},
   [onConnectionChange false;
    onRawDataReceived ([10060%N] ++ js " ESP32 BLE disconnected")]).

End BLE.

Import BLE.

(* ================================================================== *)
(** ** The sole screen component (right sole) *)

Module Screen.

Record PressureData := {
  timestamp : jsstring;
  values : list Z
}.

(** The [useState] cells of the component that the session logic reads
    or writes; [maxPressurePoint] is the pair (index, value).  The free
    text [doctorNotes] is not touched by it and is left out. *)
Record State := {
  bleConnected : bool;
  availableDevices : list BluetoothDevice;
  selectedDevice : option BluetoothDevice;
  isRecording : bool;
  timeRemaining : Z;
  pressureData : list PressureData;
  currentPressures : list Z;
  averagePressures : list Z;
  consoleLog : list jsstring;
  testCompleted : bool;
  maxPressurePoint : Z * Z;
  averagePressure : Z;
  isScanning : bool;
  connectionError : jsstring
}.

(** One setter per cell, as [useState] returns them. *)
Definition setBleConnected (v : bool) (s : State) : State :=
  {| bleConnected := v;
     availableDevices := availableDevices s;
     selectedDevice := selectedDevice s;
     isRecording := isRecording s;
     timeRemaining := timeRemaining s;
     pressureData := pressureData s;
     currentPressures := currentPressures s;
     averagePressures := averagePressures s;
     consoleLog := consoleLog s;
     testCompleted := testCompleted s;
     maxPressurePoint := maxPressurePoint s;
     averagePressure := averagePressure s;
     isScanning := isScanning s;
     connectionError := connectionError s |}.

Definition setAvailableDevices (v : list BluetoothDevice) (s : State) : State :=
  {| bleConnected := bleConnected s;
     availableDevices := v;
     selectedDevice := selectedDevice s;
     isRecording := isRecording s;
     timeRemaining := timeRemaining s;
     pressureData := pressureData s;
     currentPressures := currentPressures s;
     averagePressures := averagePressures s;
     consoleLog := consoleLog s;
     testCompleted := testCompleted s;
     maxPressurePoint := maxPressurePoint s;
     averagePressure := averagePressure s;
     isScanning := isScanning s;
     connectionError := connectionError s |}.

Definition setSelectedDevice (v : option BluetoothDevice) (s : State) : State :=
  {| bleConnected := bleConnected s;
     availableDevices := availableDevices s;
     selectedDevice := v;
     isRecording := isRecording s;
     timeRemaining := timeRemaining s;
     pressureData := pressureData s;
     currentPressures := currentPressures s;
     averagePressures := averagePressures s;
     consoleLog := consoleLog s;
     testCompleted := testCompleted s;
     maxPressurePoint := maxPressurePoint s;
     averagePressure := averagePressure s;
     isScanning := isScanning s;
     connectionError := connectionError s |}.

Definition setIsRecording (v : bool) (s : State) : State :=
  {| bleConnected := bleConnected s;
     availableDevices := availableDevices s;
     selectedDevice := selectedDevice s;
     isRecording := v;
     timeRemaining := timeRemaining s;
     pressureData := pressureData s;
     currentPressures := currentPressures s;
     averagePressures := averagePressures s;
     consoleLog := consoleLog s;
     testCompleted := testCompleted s;
     maxPressurePoint := maxPressurePoint s;
     averagePressure := averagePressure s;
     isScanning := isScanning s;
     connectionError := connectionError s |}.

Definition setTimeRemaining (v : Z) (s : State) : State :=
  {| bleConnected := bleConnected s;
     availableDevices := availableDevices s;
     selectedDevice := selectedDevice s;
     isRecording := isRecording s;
     timeRemaining := v;
     pressureData := pressureData s;
     currentPressures := currentPressures s;
     averagePressures := averagePressures s;
     consoleLog := consoleLog s;
     testCompleted := testCompleted s;
     maxPressurePoint := maxPressurePoint s;
     averagePressure := averagePressure s;
     isScanning := isScanning s;
     connectionError := connectionError s |}.

Definition setPressureData (v : list PressureData) (s : State) : State :=
  {| bleConnected := bleConnected s;
     availableDevices := availableDevices s;
     selectedDevice := selectedDevice s;
     isRecording := isRecording s;
     timeRemaining := timeRemaining s;
     pressureData := v;
     currentPressures := currentPressures s;
     averagePressures := averagePressures s;
     consoleLog := consoleLog s;
     testCompleted := testCompleted s;
     maxPressurePoint := maxPressurePoint s;
     averagePressure := averagePressure s;
     isScanning := isScanning s;
     connectionError := connectionError s |}.

Definition setCurrentPressures (v : list Z) (s : State) : State :=
  {| bleConnected := bleConnected s;
     availableDevices := availableDevices s;
     selectedDevice := selectedDevice s;
     isRecording := isRecording s;
     timeRemaining := timeRemaining s;
     pressureData := pressureData s;
     currentPressures := v;
     averagePressures := averagePressures s;
     consoleLog := consoleLog s;
     testCompleted := testCompleted s;
     maxPressurePoint := maxPressurePoint s;
     averagePressure := averagePressure s;
     isScanning := isScanning s;
     connectionError := connectionError s |}.

Definition setAveragePressures (v : list Z) (s : State) : State :=
  {| bleConnected := bleConnected s;
     availableDevices := availableDevices s;
     selectedDevice := selectedDevice s;
     isRecording := isRecording s;
     timeRemaining := timeRemaining s;
     pressureData := pressureData s;
     currentPressures := currentPressures s;
     averagePressures := v;
     consoleLog := consoleLog s;
     testCompleted := testCompleted s;
     maxPressurePoint := maxPressurePoint s;
     averagePressure := averagePressure s;
     isScanning := isScanning s;
     connectionError := connectionError s |}.

Definition setConsoleLog (v : list jsstring) (s : State) : State :=
  {| bleConnected := bleConnected s;
     availableDevices := availableDevices s;
     selectedDevice := selectedDevice s;
     isRecording := isRecording s;
     timeRemaining := timeRemaining s;
     pressureData := pressureData s;
     currentPressures := currentPressures s;
     averagePressures := averagePressures s;
     consoleLog := v;
     testCompleted := testCompleted s;
     maxPressurePoint := maxPressurePoint s;
     averagePressure := averagePressure s;
     isScanning := isScanning s;
     connectionError := connectionError s |}.

Definition setTestCompleted (v : bool) (s : State) : State :=
  {| bleConnected := bleConnected s;
     availableDevices := availableDevices s;
     selectedDevice := selectedDevice s;
     isRecording := isRecording s;
     timeRemaining := timeRemaining s;
     pressureData := pressureData s;
     currentPressures := currentPressures s;
     averagePressures := averagePressures s;
     consoleLog := consoleLog s;
     testCompleted := v;
     maxPressurePoint := maxPressurePoint s;
     averagePressure := averagePressure s;
     isScanning := isScanning s;
     connectionError := connectionError s |}.

Definition setMaxPressurePoint (v : Z * Z) (s : State) : State :=
  {| bleConnected := bleConnected s;
     availableDevices := availableDevices s;
     selectedDevice := selectedDevice s;
     isRecording := isRecording s;
     timeRemaining := timeRemaining s;
     pressureData := pressureData s;
     currentPressures := currentPressures s;
     averagePressures := averagePressures s;
     consoleLog := consoleLog s;
     testCompleted := testCompleted s;
     maxPressurePoint := v;
     averagePressure := averagePressure s;
     isScanning := isScanning s;
     connectionError := connectionError s |}.

Definition setAveragePressure (v : Z) (s : State) : State :=
  {| bleConnected := bleConnected s;
     availableDevices := availableDevices s;
     selectedDevice := selectedDevice s;
     isRecording := isRecording s;
     timeRemaining := timeRemaining s;
     pressureData := pressureData s;
     currentPressures := currentPressures s;
     averagePressures := averagePressures s;
     consoleLog := consoleLog s;
     testCompleted := testCompleted s;
     maxPressurePoint := maxPressurePoint s;
     averagePressure := v;
     isScanning := isScanning s;
     connectionError := connectionError s |}.

Definition setIsScanning (v : bool) (s : State) : State :=
  {| bleConnected := bleConnected s;
     availableDevices := availableDevices s;
     selectedDevice := selectedDevice s;
     isRecording := isRecording s;
     timeRemaining := timeRemaining s;
     pressureData := pressureData s;
     currentPressures := currentPressures s;
     averagePressures := averagePressures s;
     consoleLog := consoleLog s;
     testCompleted := testCompleted s;
     maxPressurePoint := maxPressurePoint s;
     averagePressure := averagePressure s;
     isScanning := v;
     connectionError := connectionError s |}.

Definition setConnectionError (v : jsstring) (s : State) : State :=
  {| bleConnected := bleConnected s;
     availableDevices := availableDevices s;
     selectedDevice := selectedDevice s;
     isRecording := isRecording s;
     timeRemaining := timeRemaining s;
     pressureData := pressureData s;
     currentPressures := currentPressures s;
     averagePressures := averagePressures s;
     consoleLog := consoleLog s;
     testCompleted := testCompleted s;
     maxPressurePoint := maxPressurePoint s;
     averagePressure := averagePressure s;
     isScanning := isScanning s;
     connectionError := v |}.

(** [setConsoleLog(prev => [...prev, entry])]. *)
Definition log (entry : jsstring) (s : State) : State :=
  setConsoleLog (consoleLog s ++ [entry]) s.

Definition zeros8 : list Z := repeat 0 8.

(** The state after the mounting effect has run. *)
Definition mounted : State :=
  {| bleConnected := false; availableDevices := []; selectedDevice := None;
     isRecording := false; timeRemaining := 20; pressureData := [];
     currentPressures := zeros8; averagePressures := zeros8;
     consoleLog :=
       [js "[INFO] Foot Pressure Heatmap System Initialized";
        js "[INFO] Ready to scan for ESP32 BLE devices";
        js "[INFO] Expected data format: PRESSURE_RIGHT:val1,val2,val3,val4,val5,val6,val7,val8"];
     testCompleted := false; maxPressurePoint := (0, 0);
     averagePressure := 0; isScanning := false; connectionError := [] |}.

(** *** The three callbacks installed on the manager *)

(** [now] is the text of [new Date().toLocaleTimeString()]. *)
Definition stamp (now : jsstring) (text : jsstring) : jsstring :=
  js "[" ++ now ++ js "] " ++ text.

Definition handleDataReceived (now : jsstring) (data : list Z) (s : State)
  : State :=
  let newData := {| timestamp := now; values := data |} in
  log (stamp now (js "PRESSURE_RIGHT: "
                  ++ join_comma (map numberToString data)))
      (setCurrentPressures data
         (setPressureData (pressureData s ++ [newData]) s)).

Definition handleRawDataReceived (now : jsstring) (rawData : jsstring)
  (s : State) : State :=
  log (stamp now rawData) s.

(** [deviceInfo] is what [bleManager.current.getDeviceInfo()] returns
    when the callback runs. *)
Definition handleConnectionChange
  (deviceInfo : option (jsstring * jsstring * bool)) (isConnected : bool)
  (s : State) : State :=
  let s1 := setBleConnected isConnected s in
  if isConnected then
    let s2 := setConnectionError [] s1 in
    match deviceInfo with
    | Some (dname, did, _) =>
        log (js "[INFO] Connected to " ++ dname ++ js " (" ++ did ++ js ")") s2
    | None => s2
    end
  else log (js "[INFO] ESP32 device disconnected") s1.

(** Delivery of one event.  Every [onConnectionChange(true)] of the
    manager is emitted after the last assignment to [this.device] of the
    emitting method, so [getDeviceInfo] is read on the manager [m] that the
    method leaves. *)
Definition deliver (now : jsstring) (m : BLEManager) (s : State) (e : Event)
  : State :=
  match e with
  | onDataReceived data => handleDataReceived now data s
  | onRawDataReceived rawData => handleRawDataReceived now rawData s
  | onConnectionChange c => handleConnectionChange (getDeviceInfo m) c s
  end.

Definition deliverAll (now : jsstring) (m : BLEManager) (evs : list Event)
  (s : State) : State :=
  fold_left (deliver now m) evs s.

(** *** Averages *)

(** [Math.round(a / b)] for integers [a] and [b > 0]: the quotient
    rounded to the nearest integer, halves upwards.  The division of the
    source is on doubles; with sums of values from 0 to 255 over fewer
    than 2^45 samples no quotient is close enough to a half for the
    rounding of the double to change the result. *)
Definition roundDiv (a b : Z) : Z := (2 * a + b) / (2 * b).

(** [data.values.forEach((value, index) => { sums[index] += value })].
    A value of index 8 or more would append a [NaN] to [sums]; the frames
    the manager delivers have eight values, and such values are dropped
    here. *)
Fixpoint addValues (sums vals : list Z) : list Z :=
  match sums, vals with
  | sum :: sums', value :: vals' => (sum + value) :: addValues sums' vals'
  | _, [] => sums
  | [], _ :: _ => []
  end.

Definition sumChannels (pd : list PressureData) : list Z :=
  fold_left (fun sums data => addValues sums (values data)) pd zeros8.

(** [Math.max(...averages)] on a list that is not empty. *)
Definition Math_max (l : list Z) : Z := fold_left Z.max (tl l) (hd 0 l).

(** [averages.indexOf(x)], counting from [i]. *)
Fixpoint indexOf (l : list Z) (x : Z) (i : Z) : Z :=
  match l with
  | [] => -1
  | y :: l' => if y =? x then i else indexOf l' x (i + 1)
  end.

Definition sumList (l : list Z) : Z := fold_left Z.add l 0.

Definition averagesOf (pd : list PressureData) : list Z :=
  map (fun sum => roundDiv sum (Z.of_nat (length pd))) (sumChannels pd).

Definition totalAverageOf (averages : list Z) : Z :=
  roundDiv (sumList averages) (Z.of_nat (length averages)).

(** [pd] is the [pressureData] of the render the function belongs to. *)
Definition calculateAverages (pd : list PressureData) (s : State) : State :=
  if (length pd =? 0)%nat then s
  else
    let averages := averagesOf pd in
    let maxValue := Math_max averages in
    let maxIndex := indexOf averages maxValue 0 in
    let totalAverage := totalAverageOf averages in
    log (js "[INFO] Averaged pressure values: "
         ++ join (js ", ") (map numberToString averages))
   (log (js "[INFO] Max pressure: P" ++ numberToString (maxIndex + 1)
         ++ js " = " ++ numberToString maxValue ++ js " kPa")
   (log (js "[INFO] Average pressure: " ++ numberToString totalAverage
         ++ js " kPa")
   (log (js "[INFO] Processed " ++ numberToString (Z.of_nat (length pd))
         ++ js " data points")
   (setAveragePressure totalAverage
   (setMaxPressurePoint (maxIndex, maxValue)
   (setAveragePressures averages s)))))).

Definition noDataWarning : jsstring :=
  js "[WARNING] No data collected during measurement".

Definition completeTest (pd : list PressureData) (s : State) : State :=
  if (0 <? length pd)%nat then
    log (js "[INFO] Measurement completed. Calculating averages...")
        (setTestCompleted true (calculateAverages pd s))
  else log noDataWarning s.

Definition getHeatmapPressureValues (s : State) : list Z :=
  if testCompleted s then averagePressures s
  else if isRecording s then currentPressures s
  else zeros8.

End Screen.

Import Screen.

(* ================================================================== *)
(** ** The running application *)

Module App.

(** The component with its two refs and the timers it has set.
    [completeTest] and [calculateAverages] read [pressureData] from the
    render that created them: the countdown callback keeps the
    [completeTest] of the render in which [startMeasurement] ran, so
    [timerRef] holds that render's [pressureData], and so does every
    100 ms timeout the countdown has set and that has not fired yet.
    [writes] holds the reports of the STOP writes that have not settled
    yet, the oldest first. *)
Record App := {
  manager : BLEManager;
  screen : State;
  timerRef : option (list PressureData);
  timeouts : list (list PressureData);
  writes : list Event
}.

Definition initial : App :=
  {| manager := BLE.initial; screen := mounted;
     timerRef := None; timeouts := []; writes := [] |}.

Definition errorMessageOr (fallback : jsstring) (e : Thrown) : jsstring :=
  match e with
  | ErrorObj _ m => m
  | NonError _ => fallback
  end.

(** The component's [scanForDevices] (lines 97-125). *)
Definition scanForDevices (now : jsstring) (p : Platform) (a : App) : App :=
  let s0 := log (js "[INFO] Scanning for ESP32 BLE devices...")
              (setConnectionError [] (setIsScanning true (screen a))) in
  let s1 :=
    match BLE.scanForDevices p with
    | Resolved devices =>
        let s := setAvailableDevices devices s0 in
        if (0 <? length devices)%nat then
          fold_left
            (fun s d => log (js "[INFO] - "
                             ++ orElse (name d) (js "Unknown Device")
                             ++ js " (" ++ id d ++ js ")") s)
            devices
            (log (js "[INFO] Found "
                  ++ numberToString (Z.of_nat (length devices))
                  ++ js " ESP32 device(s)") s)
        else log (js "[INFO] No ESP32 devices found") s
    | Rejected error =>
        let errorMessage := errorMessageOr (js "Unknown error occurred") error in
        let s := log (js "[ERROR] ESP32 scan failed: " ++ errorMessage)
                   (setConnectionError errorMessage s0) in
        if includes (js "User cancelled") errorMessage
        then log (js "[INFO] Device selection cancelled by user") s
        else s
    end in
  {| manager := manager a; screen := setIsScanning false s1;
     timerRef := timerRef a; timeouts := timeouts a; writes := writes a |}.

(** [connectToDevice] (lines 127-140). *)
Definition connectToDevice (now : jsstring) (d : BluetoothDevice)
  (o : GattOutcome) (a : App) : App :=
  let s0 := log (js "[INFO] Attempting to connect to ESP32: "
                 ++ orElse (name d) (js "Unknown Device") ++ js "...")
              (setConnectionError [] (screen a)) in
  let '(m, evs, result) := connect (manager a) d o in
  let s1 := deliverAll now m evs s0 in
  let s2 :=
    match result with
    | Resolved _ => setBleConnected true (setSelectedDevice (Some d) s1)
    | Rejected error =>
        let errorMessage := errorMessageOr (js "Connection failed") error in
        log (js "[ERROR] ESP32 connection failed: " ++ errorMessage)
            (setConnectionError errorMessage s1)
    end in
  {| manager := m; screen := s2;
     timerRef := timerRef a; timeouts := timeouts a; writes := writes a |}.

(** [startMeasurement] (lines 142-171); [w] is how the [START] write
    ends when one is sent. *)
Definition startMeasurement (now : jsstring) (w : WriteOutcome) (a : App)
  : App :=
  if negb (bleConnected (screen a)) then a
  else
    let s0 :=
      setTimeRemaining 20
     (log (js "[INFO] ESP32 will send pressure data via BLE")
     (log (js "[INFO] Please stand still on the pressure sensors")
     (log (js "[INFO] Starting 20-second measurement...")
     (setAveragePressures zeros8
     (setPressureData []
     (setTestCompleted false
     (setIsRecording true (screen a)))))))) in
    let '(m, evs) := startDataCollection (manager a) w in
    {| manager := m; screen := deliverAll now m evs s0;
       timerRef := Some (pressureData (screen a));
       timeouts := timeouts a; writes := writes a |}.

(** One firing of the countdown interval (lines 157-168). *)
Definition countdown (a : App) : App :=
  match timerRef a with
  | None => a
  | Some pd =>
      let newTime := timeRemaining (screen a) - 1 in
      if newTime <=? 0 then
        {| manager := manager a; screen := setTimeRemaining 0 (screen a);
           timerRef := timerRef a; timeouts := timeouts a ++ [pd];
           writes := writes a |}
      else
        {| manager := manager a; screen := setTimeRemaining newTime (screen a);
           timerRef := timerRef a; timeouts := timeouts a;
           writes := writes a |}
  end.

(** The oldest pending 100 ms timeout fires: [completeTest()] of the
    render it was created in. *)
Definition timeout (a : App) : App :=
  match timeouts a with
  | [] => a
  | pd :: rest =>
      {| manager := manager a; screen := completeTest pd (screen a);
         timerRef := timerRef a; timeouts := rest; writes := writes a |}
  end.

(** [stopMeasurement] (lines 173-182), a click handler of the current
    render.  The report of the STOP write is left pending: it is logged
    when the write settles, after [completeTest()] has run. *)
Definition stopMeasurement (now : jsstring) (w : WriteOutcome) (a : App)
  : App :=
  let '(m, (evs, later)) := stopDataCollection (manager a) w in
  let s := deliverAll now m evs (setIsRecording false (screen a)) in
  {| manager := m; screen := completeTest (pressureData (screen a)) s;
     timerRef := None; timeouts := timeouts a;
     writes := writes a ++ later |}.

(** The [Disconnect] button: [bleManager.current.disconnect()]. *)
Definition disconnectDevice (now : jsstring) (w : WriteOutcome)
  (settled : bool) (a : App) : App :=
  let '(m, (evs, later)) := disconnect (manager a) w settled in
  {| manager := m; screen := deliverAll now m evs (screen a);
     timerRef := timerRef a; timeouts := timeouts a;
     writes := writes a ++ later |}.

(** The pending write of index [n] settles: its report reaches
    [onRawDataReceived]. *)
Definition writeSettles (now : jsstring) (n : nat) (a : App) : App :=
  match nth_error (writes a) n with
  | None => a
  | Some report =>
      {| manager := manager a;
         screen := deliver now (manager a) (screen a) report;
         timerRef := timerRef a; timeouts := timeouts a;
         writes := firstn n (writes a) ++ skipn (S n) (writes a) |}
  end.

(** A notification of the characteristic reaches the handler. *)
Definition notify (now : jsstring) (value : option (list N)) (a : App)
  : App :=
  let evs := handleCharacteristicValueChanged (manager a) value in
  {| manager := manager a;
     screen := deliverAll now (manager a) evs (screen a);
     timerRef := timerRef a; timeouts := timeouts a; writes := writes a |}.

(** The simulator's 500 ms interval fires. *)
Definition simulate (now : jsstring) (noise : nat -> Z) (a : App) : App :=
  let evs := simulatorTick (manager a) noise in
  {| manager := manager a;
     screen := deliverAll now (manager a) evs (screen a);
     timerRef := timerRef a; timeouts := timeouts a; writes := writes a |}.

Definition linkLost (now : jsstring) (a : App) : App :=
  let '(m, evs) := gattserverdisconnected (manager a) in
  {| manager := m; screen := deliverAll now m evs (screen a);
     timerRef := timerRef a; timeouts := timeouts a; writes := writes a |}.

(** *** Actions *)

(** What can happen to the mounted component: the user's clicks, with
    the platform's answer where a click makes a platform call, and the
    callbacks of timers and of the device. *)
Inductive Action :=
| ClickScan (p : Platform)
| SelectDevice (deviceId : jsstring) (o : GattOutcome)
| ClickDisconnect (w : WriteOutcome) (settled : bool)
| ClickStart (w : WriteOutcome)
| ClickStop (w : WriteOutcome)
| CountdownFires
| TimeoutFires
| Notification (value : option (list N))
| SimulatorFires (noise : nat -> Z)
| GattServerDisconnected
| WriteSettles (n : nat).

Fixpoint jsEqb (x y : jsstring) : bool :=
  match x, y with
  | [], [] => true
  | a :: x', b :: y' => N.eqb a b && jsEqb x' y'
  | _, _ => false
  end.

Definition serverConnected (m : BLEManager) : bool :=
  match server m with
  | Some srv => connected srv
  | None => false
  end.

(** One action at clock reading [now].  A click acts only when its
    control is rendered and not disabled; a callback runs only when its
    timer or listener has been set. *)
Definition step (a : App) (input : jsstring * Action) : App :=
  let '(now, act) := input in
  let s := screen a in
  match act with
  | ClickScan p =>
      if isRecording s || isScanning s then a else scanForDevices now p a
  | SelectDevice deviceId o =>
      if (0 <? length (availableDevices s))%nat && negb (bleConnected s)
         && negb (isRecording s) then
        match find (fun d => jsEqb (id d) deviceId) (availableDevices s) with
        | Some d => connectToDevice now d o a
        | None => a
        end
      else a
  | ClickDisconnect w settled =>
      match selectedDevice s with
      | Some _ =>
          if bleConnected s && negb (isRecording s)
          then disconnectDevice now w settled a else a
      | None => a
      end
  | ClickStart w =>
      if negb (bleConnected s) || isRecording s then a
      else startMeasurement now w a
  | ClickStop w =>
      if negb (isRecording s) then a else stopMeasurement now w a
  | CountdownFires => countdown a
  | TimeoutFires => timeout a
  | Notification value =>
      if subscribed (manager a) && serverConnected (manager a)
      then notify now value a else a
  | SimulatorFires noise =>
      if collectionInterval (manager a) then simulate now noise a else a
  | GattServerDisconnected =>
      if subscribed (manager a) && serverConnected (manager a)
      then linkLost now a else a
  | WriteSettles n => writeSettles now n a
  end.

Definition run (a : App) (inputs : list (jsstring * Action)) : App :=
  fold_left step inputs a.

(** *** The session state of the specification *)

Inductive SessionState := Idle | Recording | Completed.

(** [Completed] once [testCompleted] is set, since the display then
    shows the averages; otherwise [Recording] while [isRecording]. *)
Definition sessionState (s : State) : SessionState :=
  if testCompleted s then Completed
  else if isRecording s then Recording
  else Idle.

End App.

Import App.

(* ================================================================== *)
(** ** The countdown display *)

Module Display.

(** [String.prototype.padStart(targetLength, padString)] with a pad
    string of one character. *)
Definition padStart (targetLength : nat) (padString : N) (s : jsstring)
  : jsstring :=
  repeat padString (targetLength - length s) ++ s.

(** [formatTime] of the screen (lines 225-229), on an integer number of
    seconds: [Math.floor(seconds / 60)] and [seconds % 60], each padded
    to two characters with ['0']. *)
Definition formatTime (seconds : Z) : jsstring :=
  let mins := seconds / 60 in
  let secs := Z.rem seconds 60 in
  padStart 2 48 (numberToString mins) ++ js ":"
  ++ padStart 2 48 (numberToString secs).

End Display.

(* ================================================================== *)
(** ** [ExportManager]: the rows of the workbook *)

Module ExportManager.

(** A cell of an array of arrays given to [XLSX.utils.aoa_to_sheet]: a
    string or a number.  The numbers are the integers the screen passes,
    and what [Math.round], [Math.max] and [Math.min] give on an empty
    array. *)
Inductive Cell :=
| Text (s : jsstring)
| Num (z : Z)
| NaN
| PlusInfinity
| MinusInfinity.

Inductive SoleType := left | right.

Definition soleName (soleType : SoleType) : jsstring :=
  match soleType with left => js "left" | right => js "right" end.

(** [soleType.toUpperCase()]. *)
Definition toUpperCase (soleType : SoleType) : jsstring :=
  match soleType with left => js "LEFT" | right => js "RIGHT" end.

(** Lines 40-43: the header and one row for each sample. *)
Definition rawDataRows (pressureData : list PressureData)
  : list (list Cell) :=
  [Text (js "Timestamp"); Text (js "P1"); Text (js "P2"); Text (js "P3");
   Text (js "P4"); Text (js "P5"); Text (js "P6"); Text (js "P7");
   Text (js "P8")]
  :: map (fun data => Text (timestamp data) :: map Num (values data))
         pressureData.

(** [Math.min(...averagePressures)] on a list that is not empty. *)
Definition Math_min (l : list Z) : Z := fold_left Z.min (tl l) (hd 0 l).

(** [Math.round(averagePressures.reduce((sum, val) => sum + val, 0)
    / averagePressures.length)]. *)
Definition totalAverage (averagePressures : list Z) : Cell :=
  match averagePressures with
  | [] => NaN
  | _ => Num (roundDiv (fold_left (fun sum val => sum + val)
                          averagePressures 0)
                (Z.of_nat (length averagePressures)))
  end.

Definition maximumPressure (averagePressures : list Z) : Cell :=
  match averagePressures with
  | [] => MinusInfinity
  | _ => Num (Math_max averagePressures)
  end.

Definition minimumPressure (averagePressures : list Z) : Cell :=
  match averagePressures with
  | [] => PlusInfinity
  | _ => Num (Math_min averagePressures)
  end.

(** Lines 49-68; [date] and [time] are what [toLocaleDateString] and
    [toLocaleTimeString] return. *)
Definition summaryRows (averagePressures : list Z) (doctorNotes : jsstring)
  (soleType : SoleType) (date time : jsstring) : list (list Cell) :=
  [ [Text (js "Foot Pressure Analysis Summary")];
    [Text []];
    [Text (js "Sole Type:"); Text (toUpperCase soleType)];
    [Text (js "Test Date:"); Text date];
    [Text (js "Test Time:"); Text time];
    [Text (js "Duration:"); Text (js "20 seconds")];
    [Text []];
    [Text (js "Pressure Point Averages (kPa):")];
    [Text (js "Point"); Text (js "Average Pressure")] ]
  ++ map (fun '(index, pressure) =>
            [Text (js "P" ++ numberToString (Z.of_nat index + 1));
             Num pressure])
         (combine (seq 0 (length averagePressures)) averagePressures)
  ++ [ [Text []];
       [Text (js "Overall Statistics:")];
       [Text (js "Total Average:"); totalAverage averagePressures];
       [Text (js "Maximum Pressure:"); maximumPressure averagePressures];
       [Text (js "Minimum Pressure:"); minimumPressure averagePressures];
       [Text []];
       [Text (js "Doctor Notes:")];
       [Text (match doctorNotes with
              | [] => js "No notes provided"
              | _ => doctorNotes
              end)] ].

End ExportManager.

(* ================================================================== *)
(** ** [ConsoleViewer]: the type of a log line *)

Module Console.

Inductive LogType := left | right | system | error | ble.

(** A [LogEntry] without its [timestamp], which is the time of the
    conversion. *)
Record LogEntry := { data : jsstring; type : LogType }.

(** The callback of [logs.map] (lines 27-40). *)
Definition logEntry (log : jsstring) : LogEntry :=
  let type :=
    if includes (js "PRESSURE_LEFT:") log then left
    else if includes (js "PRESSURE_RIGHT:") log then right
    else if includes (js "[ERROR]") log then error
    else if includes (js "BLE") log || includes (js "ESP32") log
            || includes (utf16 128225) log then ble
    else system in
  {| data := log; type := type |}.

Definition logEntries (logs : list jsstring) : list LogEntry :=
  map logEntry logs.

(** [getLogStyle] (lines 111-126). *)
Definition getLogStyle (type : LogType) : jsstring :=
  match type with
  | left => js "text-red-400"
  | right => js "text-green-400"
  | ble => js "text-cyan-400"
  | system => js "text-blue-400"
  | error => js "text-red-500"
  end.

End Console.

(* ================================================================== *)
(** ** Strings: trimming, splitting and joining *)

Section StringFacts.

Lemma trimEnd_cons_keep (c : N) (s : jsstring) :
  isWhiteSpace c = false -> trimEnd (c :: s) = c :: trimEnd s.
Proof.
  intros Hc. simpl. rewrite Hc. destruct (trimEnd s); reflexivity.
Qed.

Lemma trimEnd_cons_white (c : N) (s : jsstring) :
  isWhiteSpace c = true ->
  trimEnd (c :: s) = match trimEnd s with [] => [] | r => c :: r end.
Proof.
  intros Hc. simpl. rewrite Hc. reflexivity.
Qed.

Lemma trimStart_idem (s : jsstring) : trimStart (trimStart s) = trimStart s.
Proof.
  induction s as [|c s IH]; simpl; [reflexivity|].
  destruct (isWhiteSpace c) eqn:Hc; [exact IH|].
  simpl. rewrite Hc. reflexivity.
Qed.

Lemma trimEnd_idem (s : jsstring) : trimEnd (trimEnd s) = trimEnd s.
Proof.
  induction s as [|c s IH]; [reflexivity|].
  destruct (isWhiteSpace c) eqn:Hc.
  - rewrite (trimEnd_cons_white c s Hc).
    destruct (trimEnd s) as [|x r] eqn:Hr; [reflexivity|].
    rewrite (trimEnd_cons_white c (x :: r) Hc), IH. reflexivity.
  - rewrite (trimEnd_cons_keep c s Hc), (trimEnd_cons_keep c _ Hc), IH.
    reflexivity.
Qed.

(** Trimming the two ends commutes. *)
Lemma trimStart_trimEnd (s : jsstring) :
  trimStart (trimEnd s) = trimEnd (trimStart s).
Proof.
  induction s as [|c s IH]; [reflexivity|].
  destruct (isWhiteSpace c) eqn:Hc.
  - rewrite (trimEnd_cons_white c s Hc). cbn [trimStart]. rewrite Hc.
    rewrite <- IH.
    destruct (trimEnd s) as [|x r]; [reflexivity|].
    cbn [trimStart]. rewrite Hc. reflexivity.
  - rewrite (trimEnd_cons_keep c s Hc). cbn [trimStart]. rewrite Hc.
    rewrite (trimEnd_cons_keep c s Hc). reflexivity.
Qed.

Lemma trim_trimStart (s : jsstring) : trim (trimStart s) = trim s.
Proof. unfold trim. rewrite trimStart_idem. reflexivity. Qed.

Lemma trim_trimEnd (s : jsstring) : trim (trimEnd s) = trim s.
Proof.
  unfold trim. rewrite trimStart_trimEnd, trimEnd_idem. reflexivity.
Qed.

Lemma trim_idem (s : jsstring) : trim (trim s) = trim s.
Proof. unfold trim at 2. rewrite trim_trimEnd, trim_trimStart. reflexivity. Qed.

Lemma trimStart_of_trim (s : jsstring) : trimStart (trim s) = trim s.
Proof.
  unfold trim. rewrite trimStart_trimEnd, trimStart_idem. reflexivity.
Qed.

(** A character that is not white space stops the trimming of what
    precedes or follows it. *)
Lemma trimStart_app_keep (u : jsstring) (c : N) (v : jsstring) :
  isWhiteSpace c = false ->
  trimStart (u ++ c :: v) = trimStart u ++ c :: v.
Proof.
  intros Hc. induction u as [|x u IH]; simpl.
  - rewrite Hc. reflexivity.
  - destruct (isWhiteSpace x); [exact IH | reflexivity].
Qed.

Lemma trimEnd_app_keep (u : jsstring) (c : N) (v : jsstring) :
  isWhiteSpace c = false ->
  trimEnd (u ++ c :: v) = u ++ c :: trimEnd v.
Proof.
  intros Hc. induction u as [|x u IH]; cbn [app].
  - apply trimEnd_cons_keep, Hc.
  - cbn [trimEnd]. rewrite IH. destruct u; reflexivity.
Qed.

Definition commaFree (e : jsstring) : bool :=
  forallb (fun c => negb (N.eqb c comma)) e.

Lemma forallb_trimStart (p : N -> bool) (s : jsstring) :
  forallb p s = true -> forallb p (trimStart s) = true.
Proof.
  induction s as [|c s IH]; simpl; [trivial|].
  intros H. apply andb_true_iff in H as [Hc Hs].
  destruct (isWhiteSpace c); [auto|].
  simpl. rewrite Hc, Hs. reflexivity.
Qed.

Lemma forallb_trimEnd (p : N -> bool) (s : jsstring) :
  forallb p s = true -> forallb p (trimEnd s) = true.
Proof.
  induction s as [|c s IH]; simpl; [trivial|].
  intros H. apply andb_true_iff in H as [Hc Hs].
  specialize (IH Hs).
  destruct (trimEnd s) as [|x r].
  - destruct (isWhiteSpace c); simpl; [reflexivity|]. rewrite Hc. reflexivity.
  - change (forallb p (c :: x :: r)) with (p c && forallb p (x :: r)).
    rewrite Hc, IH. reflexivity.
Qed.

Lemma split_comma_free (e : jsstring) :
  commaFree e = true -> split_comma e = [e].
Proof.
  induction e as [|c e IH]; simpl; [reflexivity|].
  intros H. apply andb_true_iff in H as [Hc He].
  apply negb_true_iff in Hc. rewrite Hc, (IH He). reflexivity.
Qed.

Lemma split_comma_app (e s : jsstring) :
  commaFree e = true -> split_comma (e ++ comma :: s) = e :: split_comma s.
Proof.
  induction e as [|c e IH]; simpl.
  - reflexivity.
  - intros H. apply andb_true_iff in H as [Hc He].
    apply negb_true_iff in Hc. rewrite Hc, (IH He). reflexivity.
Qed.

Lemma join_comma_cons (e e' : jsstring) (l : list jsstring) :
  join_comma (e :: e' :: l) = e ++ comma :: join_comma (e' :: l).
Proof. reflexivity. Qed.

(** Splitting undoes joining when no entry holds a comma. *)
Lemma split_join_comma (es : list jsstring) :
  es <> [] -> forallb commaFree es = true ->
  split_comma (join_comma es) = es.
Proof.
  induction es as [|e es IH]; [congruence|].
  intros _ H. simpl in H. apply andb_true_iff in H as [He Hes].
  destruct es as [|e' es].
  - apply split_comma_free, He.
  - rewrite join_comma_cons, (split_comma_app _ _ He), IH;
      [reflexivity | discriminate | exact Hes].
Qed.

Lemma white_not_digit (c : N) : isWhiteSpace c = true -> isDigit c = false.
Proof.
  unfold isWhiteSpace, isLineTerminator, isDigit. intros H.
  apply andb_false_iff.
  destruct (N.leb_spec 48 c) as [Lo|Lo]; [|now left].
  destruct (N.leb_spec c 57) as [Hi|Hi]; [|now right].
  exfalso.
  repeat (apply orb_true_iff in H as [H|H]);
    try (apply N.eqb_eq in H; lia).
  apply andb_true_iff in H as [H1 H2]. apply N.leb_le in H1. lia.
Qed.

Lemma white_not_sign (c : N) :
  isWhiteSpace c = true -> N.eqb c 45 = false /\ N.eqb c 43 = false.
Proof.
  unfold isWhiteSpace, isLineTerminator. intros H.
  split; apply N.eqb_neq; intros ->; discriminate H.
Qed.

Lemma digit_not_white (c : N) : isDigit c = true -> isWhiteSpace c = false.
Proof.
  intros H. destruct (isWhiteSpace c) eqn:Hw; [|reflexivity].
  rewrite (white_not_digit c Hw) in H. discriminate.
Qed.

Lemma digitsValue_trimEnd (s : jsstring) (acc : Z) (seen : bool) :
  digitsValue acc seen (trimEnd s) = digitsValue acc seen s.
Proof.
  revert acc seen. induction s as [|c s IH]; intros acc seen; [reflexivity|].
  destruct (isDigit c) eqn:Hd.
  - rewrite (trimEnd_cons_keep c s (digit_not_white c Hd)).
    simpl. rewrite Hd. apply IH.
  - cbn [trimEnd digitsValue]. rewrite Hd.
    destruct (trimEnd s); [destruct (isWhiteSpace c)|];
      simpl; try rewrite Hd; reflexivity.
Qed.

(** [parseInt] neither sees the white space around an entry. *)
Lemma parseInt_trim (e : jsstring) : parseInt (trim e) = parseInt e.
Proof.
  unfold parseInt. rewrite trimStart_of_trim. unfold trim.
  destruct (trimStart e) as [|c s]; [reflexivity|].
  destruct (isWhiteSpace c) eqn:Hw.
  - destruct (white_not_sign c Hw) as [H1 H2].
    pose proof (white_not_digit c Hw) as Hd.
    assert (R : forall t, digitsValue 0 false (c :: t) = None)
      by (intros t; simpl; rewrite Hd; reflexivity).
    rewrite (trimEnd_cons_white c s Hw), H1, H2, R.
    destruct (trimEnd s); [reflexivity|].
    rewrite H1, H2. apply R.
  - rewrite (trimEnd_cons_keep c s Hw).
    destruct (N.eqb c 45); [rewrite digitsValue_trimEnd; reflexivity|].
    destruct (N.eqb c 43); [apply digitsValue_trimEnd|].
    rewrite <- (trimEnd_cons_keep c s Hw). apply digitsValue_trimEnd.
Qed.

(** *** Decimal printing and reading *)

Lemma isDigit_digit (d : N) : (d < 10)%N -> isDigit (48 + d) = true.
Proof.
  intros H. unfold isDigit. apply andb_true_iff.
  split; apply N.leb_le; lia.
Qed.

Lemma digitsOf_digits (fuel : nat) (n : N) (acc : jsstring) :
  forallb isDigit acc = true -> forallb isDigit (digitsOf fuel n acc) = true.
Proof.
  revert n acc. induction fuel as [|f IH]; intros n acc Hacc.
  - cbn [digitsOf forallb]. rewrite Hacc, isDigit_digit; [reflexivity|].
    apply N.mod_lt. discriminate.
  - cbn [digitsOf].
    assert (Hd : forallb isDigit ((48 + n mod 10)%N :: acc) = true).
    { cbn [forallb]. rewrite Hacc, isDigit_digit; [reflexivity|].
      apply N.mod_lt. discriminate. }
    destruct (N.eqb (n / 10) 0); [exact Hd | apply IH, Hd].
Qed.

Lemma digitsOf_not_nil (fuel : nat) (n : N) (acc : jsstring) :
  digitsOf fuel n acc <> [].
Proof.
  revert n acc. induction fuel as [|f IH]; intros n acc.
  - discriminate.
  - cbn [digitsOf]. destruct (N.eqb (n / 10) 0); [discriminate | apply IH].
Qed.

(** Reading the digits printed for [n] in front of [acc] continues the
    reading of [acc] from an accumulator shifted by those digits. *)
Lemma digitsValue_digitsOf (fuel : nat) :
  forall (n : N) (acc : jsstring),
    (n < 10 ^ N.of_nat (S fuel))%N ->
    exists k : Z, 0 < k /\
      forall (a : Z) (seen : bool),
        digitsValue a seen (digitsOf fuel n acc)
        = digitsValue (a * k + Z.of_N n) true acc.
Proof.
  induction fuel as [|f IH]; intros n acc Hn.
  - exists 10. split; [lia|]. intros a seen.
    change (10 ^ N.of_nat 1)%N with 10%N in Hn.
    cbn [digitsOf digitsValue].
    rewrite (N.mod_small n 10 Hn), (isDigit_digit n Hn).
    f_equal. lia.
  - cbn [digitsOf].
    destruct (N.eqb_spec (n / 10) 0) as [Hz|Hz].
    + exists 10. split; [lia|]. intros a seen.
      assert (Hlt : (n < 10)%N)
        by (apply N.div_small_iff in Hz; [exact Hz | discriminate]).
      cbn [digitsValue].
      rewrite (N.mod_small n 10 Hlt), (isDigit_digit n Hlt).
      f_equal. lia.
    + destruct (IH (n / 10)%N ((48 + n mod 10)%N :: acc)) as (k & Hk & E).
      { apply N.Div0.div_lt_upper_bound.
        replace (N.of_nat (S (S f))) with (N.succ (N.of_nat (S f))) in Hn
          by lia.
        rewrite N.pow_succ_r' in Hn. exact Hn. }
      exists (k * 10). split; [lia|]. intros a seen.
      rewrite E. cbn [digitsValue].
      assert (Hm : (n mod 10 < 10)%N) by (apply N.mod_lt; discriminate).
      rewrite (isDigit_digit _ Hm). f_equal.
      pose proof (N.div_mod n 10 ltac:(discriminate)) as Hdm.
      rewrite N2Z.inj_add, N2Z.inj_div. 
      assert (Hz' : Z.of_N n = 10 * Z.of_N (n / 10) + Z.of_N (n mod 10)) by lia.
      rewrite N2Z.inj_div in Hz'. lia.
Qed.

Lemma pow10_log2 (n : N) : (n < 10 ^ N.of_nat (S (N.to_nat (N.log2 n))))%N.
Proof.
  rewrite Nat2N.inj_succ, N2Nat.id.
  destruct n as [|p]; [reflexivity|].
  apply N.lt_le_trans with (2 ^ N.succ (N.log2 (N.pos p)))%N.
  - apply N.log2_spec. reflexivity.
  - apply N.pow_le_mono_l. lia.
Qed.

(** Printing an integer and reading it back. *)
Lemma parseInt_numberToString (z : Z) : parseInt (numberToString z) = Some z.
Proof.
  unfold numberToString.
  set (n := Z.to_N (Z.abs z)).
  set (d := digitsOf (N.to_nat (N.log2 n)) n []).
  assert (Hdig : forallb isDigit d = true) by (apply digitsOf_digits; reflexivity).
  assert (Hval : digitsValue 0 false d = Some (Z.of_N n)).
  { destruct (digitsValue_digitsOf _ n [] (pow10_log2 n)) as (k & _ & E).
    fold d in E. rewrite E. simpl. f_equal. }
  assert (Hd : exists c r, d = c :: r /\ isDigit c = true).
  { destruct d as [|c r] eqn:Ed.
    - exfalso. exact (digitsOf_not_nil _ _ _ Ed).
    - exists c, r. split; [reflexivity|].
      simpl in Hdig. apply andb_true_iff in Hdig. tauto. }
  destruct Hd as (c & r & Ed & Hc).
  assert (Hws : isWhiteSpace c = false) by (apply digit_not_white, Hc).
  assert (Hsign : N.eqb c 45 = false /\ N.eqb c 43 = false).
  { unfold isDigit in Hc. apply andb_true_iff in Hc as [L _].
    apply N.leb_le in L. split; apply N.eqb_neq; lia. }
  destruct Hsign as [Hm Hp].
  unfold parseInt.
  destruct (Z.ltb_spec z 0) as [Neg|Pos].
  - cbn [trimStart]. change (isWhiteSpace 45) with false. cbv iota.
    change (N.eqb 45 45) with true. cbv iota.
    rewrite Hval. simpl. f_equal. subst n. lia.
  - rewrite Ed. cbn [trimStart]. rewrite Hws, Hm, Hp, <- Ed, Hval.
    f_equal. subst n. lia.
Qed.

(** A number that is not negative prints as digits only. *)
Lemma numberToString_digits (z : Z) :
  0 <= z -> forallb isDigit (numberToString z) = true /\ numberToString z <> [].
Proof.
  intros Hz. unfold numberToString.
  destruct (Z.ltb_spec z 0) as [Neg|_]; [lia|].
  split; [apply digitsOf_digits; reflexivity | apply digitsOf_not_nil].
Qed.

End StringFacts.

(* ================================================================== *)
(** ** The frame parser *)

Section FrameParser.

(** The value the handler gives one entry of the list, trimming aside:
    the number [parseInt] reads from it, clamped, and 0 when [parseInt]
    reads none (the callback of lines 174-179). *)
Definition entryValue (e : jsstring) : Z :=
  match parseInt e with
  | None => 0
  | Some n => clamp255 n
  end.

(** The sample of a list of entries: the values of the first eight,
    padded with 0 to eight. *)
Definition sampleOf (entries : list jsstring) : list Z :=
  pad8 (firstn 8 (map entryValue entries)).

Lemma pressureValue_entryValue (e : jsstring) :
  pressureValue e = entryValue e.
Proof. unfold pressureValue, entryValue. rewrite parseInt_trim. reflexivity. Qed.

Lemma entryValue_trimStart (e : jsstring) :
  entryValue (trimStart e) = entryValue e.
Proof.
  rewrite <- !pressureValue_entryValue. unfold pressureValue.
  rewrite trim_trimStart. reflexivity.
Qed.

Lemma entryValue_trimEnd (e : jsstring) :
  entryValue (trimEnd e) = entryValue e.
Proof.
  rewrite <- !pressureValue_entryValue. unfold pressureValue.
  rewrite trim_trimEnd. reflexivity.
Qed.

Lemma clamp255_range (z : Z) : 0 <= clamp255 z <= 255.
Proof. unfold clamp255. lia. Qed.

Lemma clamp255_id (z : Z) : 0 <= z <= 255 -> clamp255 z = z.
Proof. unfold clamp255. lia. Qed.

Lemma entryValue_range (e : jsstring) : 0 <= entryValue e <= 255.
Proof.
  unfold entryValue. destruct (parseInt e); [apply clamp255_range | lia].
Qed.

(** An integer entry has the integer, clamped, as its value. *)
Lemma entryValue_number (z : Z) : entryValue (numberToString z) = clamp255 z.
Proof. unfold entryValue. rewrite parseInt_numberToString. reflexivity. Qed.

Lemma comma_not_white : isWhiteSpace comma = false.
Proof. reflexivity. Qed.

(** Trimming the end of the joined list only trims its last entry. *)
Lemma values_trimEnd_join (es : list jsstring) :
  es <> [] -> forallb commaFree es = true ->
  map pressureValue (split_comma (trimEnd (join_comma es)))
  = map entryValue es.
Proof.
  induction es as [|e es IH]; [congruence|].
  intros _ H. simpl in H. apply andb_true_iff in H as [He Hes].
  destruct es as [|e' es].
  - change (join_comma [e]) with e.
    rewrite split_comma_free by (apply forallb_trimEnd, He).
    simpl. rewrite pressureValue_entryValue, entryValue_trimEnd. reflexivity.
  - rewrite join_comma_cons, (trimEnd_app_keep _ _ _ comma_not_white).
    rewrite (split_comma_app _ _ He).
    cbn [map]. rewrite pressureValue_entryValue, IH;
      [reflexivity | discriminate | exact Hes].
Qed.

(** Lines 170-179 on a joined list: the white space that [trim] removes
    around the whole list is white space that the entries lose anyway. *)
Lemma values_trim_join (es : list jsstring) :
  es <> [] -> forallb commaFree es = true ->
  map pressureValue (split_comma (trim (join_comma es))) = map entryValue es.
Proof.
  destruct es as [|e es]; [congruence|].
  intros _ H. simpl in H. apply andb_true_iff in H as [He Hes].
  destruct es as [|e' es].
  - change (join_comma [e]) with e.
    rewrite split_comma_free
      by (apply forallb_trimEnd, forallb_trimStart, He).
    simpl. rewrite pressureValue_entryValue.
    unfold trim. rewrite entryValue_trimEnd, entryValue_trimStart.
    reflexivity.
  - rewrite join_comma_cons. unfold trim.
    rewrite (trimStart_app_keep _ _ _ comma_not_white).
    rewrite (trimEnd_app_keep _ _ _ comma_not_white).
    rewrite split_comma_app by (apply forallb_trimStart, He).
    cbn [map].
    rewrite pressureValue_entryValue, entryValue_trimStart.
    rewrite values_trimEnd_join; [reflexivity | discriminate | exact Hes].
Qed.

Lemma pad8_length (l : list Z) : length (pad8 (firstn 8 l)) = 8%nat.
Proof.
  unfold pad8. rewrite length_app, repeat_length.
  pose proof (firstn_le_length 8 l).
  assert (length (firstn 8 l) <= 8)%nat.
  { rewrite length_firstn. lia. }
  lia.
Qed.

Lemma In_firstn (A : Type) (n : nat) (l : list A) (x : A) :
  In x (firstn n l) -> In x l.
Proof.
  revert l. induction n as [|n IH]; intros [|y l]; simpl; try tauto.
  intros [H|H]; [left; exact H | right; apply IH, H].
Qed.

Lemma In_skipn_of (A : Type) (n : nat) (l : list A) (x : A) :
  In x (skipn n l) -> In x l.
Proof.
  revert l. induction n as [|n IH]; intros [|y l]; simpl; try tauto.
  intros H. right. apply IH, H.
Qed.

Lemma sampleOf_length (es : list jsstring) : length (sampleOf es) = 8%nat.
Proof. apply pad8_length. Qed.

Lemma sampleOf_range (es : list jsstring) (v : Z) :
  In v (sampleOf es) -> 0 <= v <= 255.
Proof.
  unfold sampleOf, pad8. intros H. apply in_app_or in H as [H|H].
  - apply In_firstn, in_map_iff in H. destruct H as (e & <- & _).
    apply entryValue_range.
  - apply repeat_spec in H. lia.
Qed.

(** The entries of the sample position by position. *)
Lemma sampleOf_nth (es : list jsstring) (i : nat) :
  (i < 8)%nat ->
  nth i (sampleOf es) 0
  = if (i <? length es)%nat then entryValue (nth i es []) else 0.
Proof.
  intros Hi. unfold sampleOf, pad8.
  destruct (Nat.ltb_spec i (length es)) as [L|L].
  - rewrite app_nth1 by (rewrite length_firstn, length_map; lia).
    rewrite nth_firstn.
    destruct (Nat.ltb_spec i 8) as [_|G]; [|lia].
    rewrite (nth_indep _ 0 (entryValue [])) by (rewrite length_map; lia).
    apply map_nth.
  - rewrite app_nth2 by (rewrite length_firstn, length_map; lia).
    apply nth_repeat.
Qed.

Lemma nonEmpty_some (s g : jsstring) : nonEmpty s = Some g -> g = s /\ g <> [].
Proof.
  destruct s; simpl; [discriminate|]. intros H. injection H as <-.
  split; [reflexivity | discriminate].
Qed.

(** A match of the pattern needs one of the two tags in the text. *)
Lemma regexMatch_some (s g : jsstring) :
  regexMatch s = Some g ->
  g <> [] /\ includes tagLeft s || includes tagRight s = true.
Proof.
  induction s as [|c s IH].
  - simpl. discriminate.
  - cbn [regexMatch]. destruct (matchHere (c :: s)) as [g'|] eqn:Hm.
    + intros H. injection H as ->. unfold matchHere in Hm.
      destruct (startsWith tagLeft (c :: s)) eqn:HL.
      * apply nonEmpty_some in Hm as [_ Hg]. split; [exact Hg|].
        cbn [includes]. rewrite HL. reflexivity.
      * destruct (startsWith tagRight (c :: s)) eqn:HR; [|discriminate].
        apply nonEmpty_some in Hm as [_ Hg]. split; [exact Hg|].
        cbn [includes]. rewrite HR. cbn [orb]. apply orb_true_r.
    + intros H. destruct (IH H) as [Hg Hi]. split; [exact Hg|].
      cbn [includes]. apply orb_true_iff in Hi as [Hi|Hi]; rewrite Hi;
        rewrite ?orb_true_r; reflexivity.
Qed.

(** The tagged decoding on a text whose match is a joined list. *)
Lemma taggedValues_join (dataString : jsstring) (entries : list jsstring) :
  regexMatch dataString = Some (join_comma entries) ->
  forallb commaFree entries = true ->
  taggedValues dataString = Some (sampleOf entries).
Proof.
  intros Hm Hc. destruct (regexMatch_some _ _ Hm) as [Hg Hi].
  unfold taggedValues. rewrite Hi, Hm. unfold sampleOf.
  rewrite values_trim_join; [reflexivity | | exact Hc].
  intros ->. apply Hg. reflexivity.
Qed.

(** *** Where the pattern matches *)

Definition lineFree (s : jsstring) : bool :=
  forallb (fun c => negb (isLineTerminator c)) s.

(** The text after the list: nothing, or a line terminator first. *)
Definition endsLine (post : jsstring) : bool :=
  match post with
  | [] => true
  | c :: _ => isLineTerminator c
  end.

Lemma dotPlus_line (body post : jsstring) :
  lineFree body = true -> endsLine post = true ->
  dotPlus (body ++ post) = body.
Proof.
  intros Hb Hp. induction body as [|c body IH]; cbn [app].
  - destruct post as [|c post]; [reflexivity|].
    simpl in Hp. simpl. rewrite Hp. reflexivity.
  - simpl in Hb. apply andb_true_iff in Hb as [Hc Hb].
    apply negb_true_iff in Hc. simpl. rewrite Hc, (IH Hb). reflexivity.
Qed.

Lemma startsWith_app (p s : jsstring) : startsWith p (p ++ s) = true.
Proof.
  induction p as [|c p IH]; [reflexivity|].
  simpl. rewrite N.eqb_refl. exact IH.
Qed.

Lemma matchHere_tag (tag body post : jsstring) :
  tag = tagLeft \/ tag = tagRight ->
  body <> [] -> lineFree body = true -> endsLine post = true ->
  matchHere (tag ++ body ++ post) = Some body.
Proof.
  intros Ht Hne Hb Hp. unfold matchHere.
  destruct Ht as [-> | ->].
  - rewrite startsWith_app, skipn_app, skipn_all, Nat.sub_diag.
    cbn [app skipn]. rewrite (dotPlus_line _ _ Hb Hp).
    destruct body; [congruence | reflexivity].
  - replace (startsWith tagLeft (tagRight ++ body ++ post)) with false
      by reflexivity.
    rewrite startsWith_app, skipn_app, skipn_all, Nat.sub_diag.
    cbn [app skipn]. rewrite (dotPlus_line _ _ Hb Hp).
    destruct body; [congruence | reflexivity].
Qed.

(** Text without the letter P in front of the tag is skipped. *)
Lemma regexMatch_skip (pre s : jsstring) :
  forallb (fun c => negb (N.eqb c 80)) pre = true ->
  regexMatch (pre ++ s) = regexMatch s.
Proof.
  induction pre as [|c pre IH]; [reflexivity|].
  intros H. simpl in H. apply andb_true_iff in H as [Hc Hpre].
  apply negb_true_iff in Hc. rewrite N.eqb_sym in Hc.
  cbn [app regexMatch]. unfold matchHere at 1.
  assert (HL : startsWith tagLeft (c :: pre ++ s) = false)
    by (change tagLeft with (80%N :: tl tagLeft); cbn [startsWith];
        rewrite Hc; reflexivity).
  assert (HR : startsWith tagRight (c :: pre ++ s) = false)
    by (change tagRight with (80%N :: tl tagRight); cbn [startsWith];
        rewrite Hc; reflexivity).
  rewrite HL, HR. apply IH, Hpre.
Qed.

(** A payload that holds a tag followed by a list on the same line is
    matched with the list as its group. *)
Lemma regexMatch_tagged (pre tag body post : jsstring) :
  forallb (fun c => negb (N.eqb c 80)) pre = true ->
  tag = tagLeft \/ tag = tagRight ->
  body <> [] -> lineFree body = true -> endsLine post = true ->
  regexMatch (pre ++ tag ++ body ++ post) = Some body.
Proof.
  intros Hpre Ht Hne Hb Hp. rewrite (regexMatch_skip _ _ Hpre).
  pose proof (matchHere_tag tag body post Ht Hne Hb Hp) as Hm.
  destruct (tag ++ body ++ post); cbn [regexMatch]; rewrite Hm; reflexivity.
Qed.

(** *** ASCII text through the decoder *)

Definition isAscii (s : jsstring) : bool := forallb (fun c => N.leb c 127) s.

Lemma utf8Decode_ascii (s : jsstring) :
  isAscii s = true -> utf8Decode None s = s.
Proof.
  induction s as [|c s IH]; [reflexivity|].
  intros H. simpl in H. apply andb_true_iff in H as [Hc Hs].
  cbn [utf8Decode]. unfold utf8Lead. rewrite Hc. cbn [app].
  rewrite (IH Hs). reflexivity.
Qed.

Lemma TextEncoder_ascii (s : jsstring) :
  isAscii s = true -> TextEncoder_encode s = s.
Proof.
  induction s as [|c s IH]; [reflexivity|].
  intros H. simpl in H. apply andb_true_iff in H as [Hc Hs].
  cbn [TextEncoder_encode]. rewrite Hc, (IH Hs). reflexivity.
Qed.

Lemma TextDecoder_ascii (s : jsstring) :
  isAscii s = true -> TextDecoder_decode (TextEncoder_encode s) = s.
Proof.
  intros H. rewrite (TextEncoder_ascii s H). unfold TextDecoder_decode.
  rewrite (utf8Decode_ascii s H).
  destruct s as [|c s]; [reflexivity|].
  simpl in H. apply andb_true_iff in H as [Hc _]. apply N.leb_le in Hc.
  destruct (N.eqb_spec c 65279) as [E|E]; [lia|].
  destruct c as [|q]; [reflexivity|].
  repeat (destruct q as [q|q|]; try reflexivity); congruence.
Qed.

(** *** Tagged frames *)

Definition collecting : BLEManager := setCollecting true BLE.initial.

Definition exampleFrame : jsstring :=
  js "PRESSURE_LEFT:300,-5,10,abc,50,50,50,50".

(** *** What an entry is read as *)

(** The number a run of decimal digits stands for. *)
Definition decimal (ds : jsstring) : Z :=
  fold_left (fun acc c => 10 * acc + (Z.of_N c - 48)) ds 0.

Definition isSign (c : N) : bool := N.eqb c 45 || N.eqb c 43.

Definition signed (c : N) (n : Z) : Z := if N.eqb c 45 then - n else n.

Definition blank (ws : jsstring) : bool := forallb isWhiteSpace ws.

(** No digit comes next. *)
Definition noDigitAhead (rest : jsstring) : bool :=
  match rest with
  | [] => true
  | c :: _ => negb (isDigit c)
  end.

(** Neither white space, nor a sign, nor a digit comes next. *)
Definition noNumberAhead (rest : jsstring) : bool :=
  match rest with
  | [] => true
  | c :: _ => negb (isWhiteSpace c) && negb (isSign c) && negb (isDigit c)
  end.

(** The integer an entry begins with, if it begins with one: after
    white space, an optional sign and the longest run of digits,
    whatever follows them. *)
Inductive leads : jsstring -> option Z -> Prop :=
| leads_unsigned (ws ds rest : jsstring) :
    blank ws = true -> ds <> [] -> forallb isDigit ds = true ->
    noDigitAhead rest = true ->
    leads (ws ++ ds ++ rest) (Some (decimal ds))
| leads_signed (ws : jsstring) (c : N) (ds rest : jsstring) :
    blank ws = true -> isSign c = true ->
    ds <> [] -> forallb isDigit ds = true -> noDigitAhead rest = true ->
    leads (ws ++ c :: ds ++ rest) (Some (signed c (decimal ds)))
| leads_nothing (ws rest : jsstring) :
    blank ws = true -> noNumberAhead rest = true ->
    leads (ws ++ rest) None
| leads_sign_only (ws : jsstring) (c : N) (rest : jsstring) :
    blank ws = true -> isSign c = true -> noDigitAhead rest = true ->
    leads (ws ++ c :: rest) None.

(** The claim's reading of an entry, for comparison with the code's:
    an entry is numeric when, white space around it aside, it is an
    integer written in decimal, an optional sign and digits only. *)
Definition claimedNumber (e : jsstring) : option Z :=
  match trim e with
  | [] => None
  | c :: u =>
      if isSign c then
        match u with
        | [] => None
        | _ => if forallb isDigit u then Some (signed c (decimal u)) else None
        end
      else if forallb isDigit (c :: u) then Some (decimal (c :: u))
      else None
  end.

(** The claim's value of an entry: a numeric entry clamped, any other
    entry 0; and the claim's sample. *)
Definition claimedValue (e : jsstring) : Z :=
  match claimedNumber e with
  | Some n => clamp255 n
  | None => 0
  end.

Definition claimedSample (entries : list jsstring) : list Z :=
  pad8 (firstn 8 (map claimedValue entries)).

Lemma digitsValue_run (ds rest : jsstring) :
  forallb isDigit ds = true -> noDigitAhead rest = true ->
  forall (acc : Z) (seen : bool),
    digitsValue acc seen (ds ++ rest)
    = match ds with
      | [] => if seen then Some acc else None
      | _ => Some (fold_left (fun acc c => 10 * acc + (Z.of_N c - 48)) ds acc)
      end.
Proof.
  intros Hd Hr. induction ds as [|d ds IH]; intros acc seen.
  - cbn [app]. destruct rest as [|c rest]; [reflexivity|].
    cbn [noDigitAhead] in Hr. apply negb_true_iff in Hr.
    cbn [digitsValue]. rewrite Hr. reflexivity.
  - cbn [forallb] in Hd. apply andb_true_iff in Hd as [Hd Hds].
    cbn [app digitsValue]. rewrite Hd, (IH Hds).
    destruct ds; reflexivity.
Qed.

Lemma digitsValue_none (rest : jsstring) :
  noDigitAhead rest = true -> digitsValue 0 false rest = None.
Proof. intros H. apply (digitsValue_run [] rest eq_refl H 0 false). Qed.

Lemma digitsValue_decimal (ds rest : jsstring) :
  ds <> [] -> forallb isDigit ds = true -> noDigitAhead rest = true ->
  digitsValue 0 false (ds ++ rest) = Some (decimal ds).
Proof.
  intros Hne Hd Hr. rewrite (digitsValue_run ds rest Hd Hr).
  destruct ds; [congruence | reflexivity].
Qed.

Lemma trimStart_blank (ws s : jsstring) :
  blank ws = true -> trimStart (ws ++ s) = trimStart s.
Proof.
  intros H. induction ws as [|c ws IH]; [reflexivity|].
  cbn [blank forallb] in H. apply andb_true_iff in H as [Hc Hws].
  cbn [app trimStart]. rewrite Hc. apply IH, Hws.
Qed.

Lemma trimStart_head (c : N) (s : jsstring) :
  isWhiteSpace c = false -> trimStart (c :: s) = c :: s.
Proof. intros H. cbn [trimStart]. rewrite H. reflexivity. Qed.

Lemma sign_not_white (c : N) : isSign c = true -> isWhiteSpace c = false.
Proof.
  intros H. destruct (isWhiteSpace c) eqn:Hw; [|reflexivity].
  destruct (white_not_sign c Hw) as [H1 H2].
  unfold isSign in H. rewrite H1, H2 in H. discriminate.
Qed.

Lemma sign_not_digit (c : N) : isSign c = true -> isDigit c = false.
Proof.
  unfold isSign. intros H. apply orb_true_iff in H as [H|H];
    apply N.eqb_eq in H; subst c; reflexivity.
Qed.

(** [parseInt] on a text that begins with a sign. *)
Lemma parseInt_signed (c : N) (u : jsstring) :
  isSign c = true ->
  parseInt (c :: u) = option_map (signed c) (digitsValue 0 false u).
Proof.
  intros Hc. unfold parseInt.
  rewrite (trimStart_head c u (sign_not_white c Hc)).
  unfold isSign in Hc. unfold signed.
  destruct (N.eqb c 45) eqn:E45; [reflexivity|].
  cbn [orb] in Hc. rewrite Hc.
  destruct (digitsValue 0 false u); reflexivity.
Qed.

(** [parseInt] on a text that begins with something else than white
    space or a sign. *)
Lemma parseInt_unsigned (c : N) (u : jsstring) :
  isWhiteSpace c = false -> isSign c = false ->
  parseInt (c :: u) = digitsValue 0 false (c :: u).
Proof.
  intros Hw Hs. unfold parseInt. rewrite (trimStart_head c u Hw).
  unfold isSign in Hs. apply orb_false_iff in Hs as [H1 H2].
  rewrite H1, H2. reflexivity.
Qed.

Lemma parseInt_blank (ws s : jsstring) :
  blank ws = true -> parseInt (ws ++ s) = parseInt s.
Proof. intros H. unfold parseInt. rewrite (trimStart_blank ws s H). reflexivity. Qed.

(** The code reads an entry by the integer it begins with. *)
Lemma leads_parseInt (e : jsstring) (r : option Z) :
  leads e r -> parseInt e = r.
Proof.
  intros H. destruct H as [ws ds rest Hws Hne Hd Hr
                           | ws c ds rest Hws Hc Hne Hd Hr
                           | ws rest Hws Hr
                           | ws c rest Hws Hc Hr];
    rewrite (parseInt_blank _ _ Hws).
  - destruct ds as [|d ds]; [congruence|].
    cbn [forallb] in Hd. pose proof Hd as Hd'.
    apply andb_true_iff in Hd' as [Hd0 _].
    change ((d :: ds) ++ rest) with (d :: (ds ++ rest)).
    rewrite parseInt_unsigned.
    + apply (digitsValue_decimal (d :: ds) rest); assumption.
    + apply digit_not_white, Hd0.
    + destruct (isSign d) eqn:E; [|reflexivity].
      rewrite (sign_not_digit d E) in Hd0. discriminate.
  - rewrite (parseInt_signed c _ Hc), (digitsValue_decimal ds rest Hne Hd Hr).
    reflexivity.
  - destruct rest as [|c rest]; [reflexivity|].
    cbn [noNumberAhead] in Hr.
    apply andb_true_iff in Hr as [Hr Hdig].
    apply andb_true_iff in Hr as [Hw Hs].
    apply negb_true_iff in Hw, Hs, Hdig.
    rewrite (parseInt_unsigned c rest Hw Hs). cbn [digitsValue].
    rewrite Hdig. reflexivity.
  - rewrite (parseInt_signed c _ Hc), (digitsValue_none rest Hr). reflexivity.
Qed.

Lemma leads_entryValue (e : jsstring) (r : option Z) :
  leads e r ->
  entryValue e = match r with Some n => clamp255 n | None => 0 end.
Proof. intros H. unfold entryValue. rewrite (leads_parseInt e r H). reflexivity. Qed.

Lemma trimStart_split (e : jsstring) :
  exists ws, blank ws = true /\ e = ws ++ trimStart e.
Proof.
  induction e as [|c e (ws & Hws & E)]; [exists []; split; reflexivity|].
  cbn [trimStart]. destruct (isWhiteSpace c) eqn:Hc.
  - exists (c :: ws). split; [cbn [blank forallb]; rewrite Hc; exact Hws|].
    cbn [app]. f_equal. exact E.
  - exists []. split; reflexivity.
Qed.

Lemma trimStart_not_white (e : jsstring) (c : N) (u : jsstring) :
  trimStart e = c :: u -> isWhiteSpace c = false.
Proof.
  induction e as [|x e IH]; [discriminate|].
  cbn [trimStart]. destruct (isWhiteSpace x) eqn:Hx; [exact IH|].
  intros H. injection H as <- _. exact Hx.
Qed.

Lemma digits_span (u : jsstring) :
  exists ds rest, u = ds ++ rest /\ forallb isDigit ds = true
                  /\ noDigitAhead rest = true.
Proof.
  induction u as [|c u (ds & rest & E & Hd & Hr)].
  - exists [], []. repeat split.
  - destruct (isDigit c) eqn:Hc.
    + exists (c :: ds), rest. cbn [app forallb]. rewrite Hc, Hd, E.
      repeat split. exact Hr.
    + exists [], (c :: u). cbn [noDigitAhead]. rewrite Hc. repeat split.
Qed.

(** Every entry begins with an integer or with none. *)
Lemma leads_total (e : jsstring) : exists r, leads e r.
Proof.
  destruct (trimStart_split e) as (ws & Hws & E).
  destruct (trimStart e) as [|c u] eqn:Et.
  - exists None. rewrite E. apply leads_nothing; [exact Hws | reflexivity].
  - pose proof (trimStart_not_white e c u Et) as Hw.
    destruct (isSign c) eqn:Hs.
    + destruct (digits_span u) as (ds & rest & Eu & Hd & Hr).
      destruct ds as [|d ds].
      * exists None. rewrite E, Eu. apply leads_sign_only; assumption.
      * exists (Some (signed c (decimal (d :: ds)))). rewrite E, Eu.
        apply leads_signed; try assumption. discriminate.
    + destruct (isDigit c) eqn:Hc.
      * destruct (digits_span u) as (ds & rest & Eu & Hd & Hr).
        exists (Some (decimal (c :: ds))). rewrite E, Eu.
        change (c :: ds ++ rest) with ((c :: ds) ++ rest).
        apply leads_unsigned; try assumption; [discriminate|].
        cbn [forallb]. rewrite Hc. exact Hd.
      * exists None. rewrite E. apply leads_nothing; [exact Hws|].
        cbn [noNumberAhead]. rewrite Hw, Hs, Hc. reflexivity.
Qed.

(** On an entry the claim calls numeric the code agrees with it. *)
Lemma claimedNumber_entryValue (e : jsstring) (n : Z) :
  claimedNumber e = Some n -> entryValue e = clamp255 n.
Proof.
  unfold claimedNumber, entryValue. rewrite <- (parseInt_trim e).
  destruct (trim e) as [|c u]; [discriminate|].
  destruct (isSign c) eqn:Hs.
  - destruct u as [|d u]; [discriminate|].
    destruct (forallb isDigit (d :: u)) eqn:Hd; [|discriminate].
    intros H. injection H as <-.
    rewrite (parseInt_signed c _ Hs).
    rewrite <- (app_nil_r (d :: u)) at 1.
    rewrite (digitsValue_decimal (d :: u) []); try reflexivity;
      [discriminate | exact Hd].
  - destruct (forallb isDigit (c :: u)) eqn:Hd; [|discriminate].
    intros H. injection H as <-.
    pose proof Hd as Hd'. cbn [forallb] in Hd'.
    apply andb_true_iff in Hd' as [Hc _].
    rewrite (parseInt_unsigned c u (digit_not_white c Hc) Hs).
    rewrite <- (app_nil_r (c :: u)) at 1.
    rewrite (digitsValue_decimal (c :: u) []); try reflexivity;
      [discriminate | exact Hd].
Qed.

(** C1, amended.  While the manager collects, a payload in which the
    pattern finds a tag followed by a comma-separated list is delivered
    as one sample: the values of the entries in order, cut after eight
    entries and padded with 0 to exactly eight.  An entry is read by the
    integer it begins with: after white space, an optional sign and a
    run of decimal digits give that integer, clamped to 0..255,
    whatever follows the digits, and an entry that does not begin so
    gives 0; every entry is of one of the two kinds.  So an entry that
    is an integer, white space aside, is clamped as the claim says, and
    when every entry is such an integer or begins with none the sample
    is the one the claim describes; the frame
    "PRESSURE_LEFT:300,-5,10,abc,50,50,50,50" gives
    255,0,10,0,50,50,50,50. *)
Theorem tagged_frame_sample :
  (forall (m : BLEManager) (bytes : list N) (entries : list jsstring),
      isCollecting m = true ->
      regexMatch (TextDecoder_decode bytes) = Some (join_comma entries) ->
      forallb commaFree entries = true ->
      handleCharacteristicValueChanged m (Some bytes)
      = [onRawDataReceived (TextDecoder_decode bytes);
         onDataReceived (sampleOf entries)]
      /\ length (sampleOf entries) = 8%nat
      /\ (forall i, (i < 8)%nat ->
            nth i (sampleOf entries) 0
            = if (i <? length entries)%nat
              then entryValue (nth i entries []) else 0))
  /\ (forall (e : jsstring) (r : option Z),
         leads e r ->
         entryValue e = match r with Some n => clamp255 n | None => 0 end)
  /\ (forall e : jsstring, exists r, leads e r)
  /\ (forall (e : jsstring) (n : Z),
         claimedNumber e = Some n -> entryValue e = Z.max 0 (Z.min 255 n))
  /\ (forall entries : list jsstring,
         Forall (fun e => claimedNumber e <> None \/ leads e None) entries ->
         sampleOf entries = claimedSample entries)
  /\ handleCharacteristicValueChanged collecting
       (Some (TextEncoder_encode exampleFrame))
     = [onRawDataReceived exampleFrame;
        onDataReceived [255; 0; 10; 0; 50; 50; 50; 50]].
Proof.
  split; [|split; [|split; [|split; [|split; [|reflexivity]]]]].
  - intros m bytes entries Hcol Hm Hc.
    split; [|split; [apply sampleOf_length | apply sampleOf_nth]].
    unfold handleCharacteristicValueChanged, decodeFrame.
    rewrite Hcol, (taggedValues_join _ _ Hm Hc). reflexivity.
  - apply leads_entryValue.
  - apply leads_total.
  - apply claimedNumber_entryValue.
  - intros entries H. unfold sampleOf, claimedSample. do 2 f_equal.
    induction H as [|e entries He _ IH]; [reflexivity|].
    cbn [map]. rewrite IH. f_equal. unfold claimedValue.
    destruct (claimedNumber e) as [n|] eqn:En.
    + apply claimedNumber_entryValue, En.
    + destruct He as [He|He]; [congruence|].
      apply (leads_entryValue e None He).
Qed.

(** The general statement at a frame with surrounding blanks, a partly
    numeric entry and more than eight entries. *)
Lemma tagged_frame_sample_witness :
  handleCharacteristicValueChanged collecting
    (Some (TextEncoder_encode (js "x PRESSURE_RIGHT: 7 ,+300, 12abc,,-1,1,2,3,4,5")))
  = [onRawDataReceived (js "x PRESSURE_RIGHT: 7 ,+300, 12abc,,-1,1,2,3,4,5");
     onDataReceived [7; 255; 12; 0; 0; 1; 2; 3]]
  /\ leads (js " 12abc") (Some 12)
  /\ entryValue (js " 12abc") = 12.
Proof.
  assert (L : leads (js " 12abc") (Some 12))
    by (apply (leads_unsigned (js " ") (js "12") (js "abc"));
        [reflexivity | discriminate | reflexivity | reflexivity]).
  split; [|split; [exact L|]].
  - exact (proj1 (proj1 tagged_frame_sample collecting
             (TextEncoder_encode (js "x PRESSURE_RIGHT: 7 ,+300, 12abc,,-1,1,2,3,4,5"))
             [js " 7 "; js "+300"; js " 12abc"; []; js "-1"; js "1"; js "2";
              js "3"; js "4"; js "5"]
             eq_refl eq_refl eq_refl)).
  - exact (proj1 (proj2 tagged_frame_sample) (js " 12abc") (Some 12) L).
Defined.

(** C1 as stated fails: in the frame
    "PRESSURE_LEFT:12abc,1e3,3,4,5,6,7,8" the entry 12abc is not
    numeric and the claim gives it 0, and 1e3 is 0 as an entry that is
    no integer, or 255 as the number 1000 clamped; the handler delivers
    12 and 1. *)
Lemma tagged_frame_entry_not_numeric :
  let entries := [js "12abc"; js "1e3"; js "3"; js "4"; js "5"; js "6";
                  js "7"; js "8"] in
  handleCharacteristicValueChanged collecting
    (Some (TextEncoder_encode (js "PRESSURE_LEFT:12abc,1e3,3,4,5,6,7,8")))
  = [onRawDataReceived (js "PRESSURE_LEFT:12abc,1e3,3,4,5,6,7,8");
     onDataReceived [12; 1; 3; 4; 5; 6; 7; 8]]
  /\ claimedNumber (js "12abc") = None
  /\ claimedNumber (js "1e3") = None
  /\ claimedSample entries = [0; 0; 3; 4; 5; 6; 7; 8]
  /\ sampleOf entries <> claimedSample entries
  /\ nth 1 (sampleOf entries) 0 <> 255.
Proof.
  intros entries. repeat split; try reflexivity; vm_compute; discriminate.
Qed.

(** The same on a payload written out: some text without the letter
    P, a tag, the entries joined by commas on one line, and nothing or
    a line break after them. *)
Lemma tagged_payload_sample (m : BLEManager) (bytes : list N)
  (pre tag post : jsstring) (entries : list jsstring) :
  isCollecting m = true ->
  TextDecoder_decode bytes = pre ++ tag ++ join_comma entries ++ post ->
  forallb (fun c => negb (N.eqb c 80)) pre = true ->
  tag = tagLeft \/ tag = tagRight ->
  join_comma entries <> [] ->
  forallb commaFree entries = true ->
  lineFree (join_comma entries) = true ->
  endsLine post = true ->
  handleCharacteristicValueChanged m (Some bytes)
  = [onRawDataReceived (TextDecoder_decode bytes);
     onDataReceived (sampleOf entries)].
Proof.
  intros Hcol Htext Hpre Htag Hne Hc Hl Hp.
  pose proof (regexMatch_tagged pre tag _ post Hpre Htag Hne Hl Hp) as Hm.
  rewrite <- Htext in Hm.
  unfold handleCharacteristicValueChanged, decodeFrame.
  rewrite Hcol, (taggedValues_join _ _ Hm Hc). reflexivity.
Qed.

(** *** Untagged comma-separated frames *)

(** The comma-separated decoding accepts a text exactly when it holds a
    comma and splits into at least four entries, numeric or not. *)
Lemma csvValues_accepts (dataString : jsstring) :
  csvValues dataString <> None <->
  includes [comma] dataString = true
  /\ (4 <= length (split_comma (trim dataString)))%nat.
Proof.
  unfold csvValues.
  destruct (includes [comma] dataString).
  - rewrite length_firstn, length_map.
    destruct (Nat.leb_spec 4 (Nat.min 8 (length (split_comma (trim dataString)))))
      as [L|L]; split.
    + intros _. split; [reflexivity | lia].
    + congruence.
    + congruence.
    + intros [_ H]. lia.
  - split; [congruence | intros [H _]; discriminate].
Qed.

(** C4.  The untagged text "a,b,c,d" holds no numeric entry at all, and
    the handler accepts it as the sample of eight zeros; no format error
    is reported.  (The test of line 204 counts the entries after each
    invalid one has been replaced by 0.) *)
Theorem csv_without_numbers_accepted :
  includes tagLeft (js "a,b,c,d") || includes tagRight (js "a,b,c,d") = false
  /\ map parseInt (split_comma (js "a,b,c,d")) = [None; None; None; None]
  /\ csvValues (js "a,b,c,d") = Some [0; 0; 0; 0; 0; 0; 0; 0]
  /\ handleCharacteristicValueChanged collecting
       (Some (TextEncoder_encode (js "a,b,c,d")))
     = [onRawDataReceived (js "a,b,c,d");
        onDataReceived [0; 0; 0; 0; 0; 0; 0; 0]].
Proof. repeat split. Qed.

(** *** Frames of eight values in range *)

Definition inRange (data : list Z) : Prop :=
  forall v, In v data -> 0 <= v <= 255.

Lemma forallb_imp (p q : N -> bool) (s : jsstring) :
  (forall c, p c = true -> q c = true) ->
  forallb p s = true -> forallb q s = true.
Proof.
  intros Hpq. induction s as [|c s IH]; simpl; [trivial|].
  intros H. apply andb_true_iff in H as [Hc Hs].
  rewrite (Hpq c Hc), (IH Hs). reflexivity.
Qed.

(** The characters of a joined list of numbers. *)
Definition listChar (c : N) : bool := isDigit c || N.eqb c comma.

Lemma listChar_facts (c : N) :
  listChar c = true ->
  negb (isLineTerminator c) = true /\ N.leb c 127 = true.
Proof.
  unfold listChar, isDigit, isLineTerminator, comma. intros H.
  assert (Hc : (48 <= c <= 57 \/ c = 44)%N).
  { apply orb_true_iff in H as [H|H].
    - apply andb_true_iff in H as [H1 H2].
      apply N.leb_le in H1, H2. lia.
    - apply N.eqb_eq in H. lia. }
  split; [|apply N.leb_le; lia].
  apply negb_true_iff.
  repeat (apply orb_false_iff; split); apply N.eqb_neq; lia.
Qed.

Lemma numbers_join (data : list Z) :
  inRange data ->
  forallb commaFree (map numberToString data) = true
  /\ forallb listChar (join_comma (map numberToString data)) = true.
Proof.
  induction data as [|v data IH]; intros Hr; [split; reflexivity|].
  destruct IH as [IH1 IH2]; [intros x Hx; apply Hr; right; exact Hx|].
  destruct (numberToString_digits v) as [Hd _]; [apply Hr; left; reflexivity|].
  assert (Hdc : forallb listChar (numberToString v) = true).
  { apply (forallb_imp isDigit); [|exact Hd].
    intros c Hc. unfold listChar. rewrite Hc. reflexivity. }
  split.
  - cbn [map forallb]. rewrite IH1, andb_true_r.
    apply (forallb_imp isDigit); [|exact Hd].
    intros c Hc. unfold isDigit in Hc. apply andb_true_iff in Hc as [H1 _].
    apply N.leb_le in H1. apply negb_true_iff, N.eqb_neq. unfold comma. lia.
  - cbn [map]. destruct data as [|v' data]; [exact Hdc|].
    cbn [map] in *. rewrite join_comma_cons, forallb_app.
    rewrite Hdc. cbn [forallb andb]. rewrite IH2. reflexivity.
Qed.

(** A frame of eight values from 0 to 255 in the tagged text format is
    read back as these values. *)
Lemma frame_read_back (data : list Z) :
  length data = 8%nat -> inRange data ->
  isAscii (frameString data) = true
  /\ taggedValues (frameString data) = Some data.
Proof.
  intros Hlen Hr. destruct (numbers_join data Hr) as [Hc Hj].
  set (body := join_comma (map numberToString data)) in *.
  assert (Hbody : body <> []).
  { destruct data as [|v data]; [discriminate|].
    destruct (numberToString_digits v) as [_ Hne]; [apply Hr; left; reflexivity|].
    subst body. cbn [map]. destruct data as [|v' data].
    - exact Hne.
    - cbn [map]. rewrite join_comma_cons.
      destruct (numberToString v); [congruence | discriminate]. }
  split.
  - unfold frameString, isAscii. fold body. rewrite forallb_app.
    apply andb_true_iff. split; [reflexivity|].
    apply (forallb_imp listChar); [|exact Hj].
    intros c Hl. apply listChar_facts, Hl.
  - assert (Hm : regexMatch (frameString data) = Some body).
    { pose proof (regexMatch_tagged [] tagLeft body [] eq_refl
                    (or_introl eq_refl) Hbody) as H.
      rewrite app_nil_r in H. apply H; [|reflexivity].
      apply (forallb_imp listChar); [|exact Hj].
      intros c Hl. apply listChar_facts, Hl. }
    rewrite (taggedValues_join _ _ Hm Hc). f_equal.
    unfold sampleOf, pad8.
    rewrite map_map, (map_ext_in _ (fun v => v)).
    + rewrite map_id, firstn_all2 by lia.
      rewrite Hlen. apply app_nil_r.
    + intros v Hv. rewrite entryValue_number. apply clamp255_id, Hr, Hv.
Qed.

Lemma simulatedData_unfold (noise : nat -> Z) :
  simulatedData noise
  = [clamp255 (50 + noise 0%nat); clamp255 (100 + noise 1%nat);
     clamp255 (150 + noise 2%nat); clamp255 (200 + noise 3%nat);
     clamp255 (250 + noise 4%nat); clamp255 (255 + noise 5%nat);
     clamp255 (128 + noise 6%nat); clamp255 (64 + noise 7%nat)].
Proof. reflexivity. Qed.

Lemma simulatedData_range (noise : nat -> Z) : inRange (simulatedData noise).
Proof.
  intros v Hv. unfold simulatedData in Hv. apply in_map_iff in Hv.
  destruct Hv as ([i base] & <- & _). apply clamp255_range.
Qed.

(** C7.  A frame of the simulator is the baseline with the noise added
    and clamped again to 0..255, so it differs from the baseline by at
    most 20 when each noise term lies between -20 and 19; and the frame
    handler, given the bytes of the text the simulator reports, emits
    the very events the simulator emits: the same text and the same
    eight values. *)
Theorem simulator_frame_parses_back :
  forall (noise : nat -> Z),
    let data := simulatedData noise in
    length data = 8%nat
    /\ (forall i, (i < 8)%nat ->
          nth i data 0 = clamp255 (nth i baseValues 0 + noise i)
          /\ 0 <= nth i data 0 <= 255)
    /\ ((forall i, -20 <= noise i <= 19) ->
        forall i, (i < 8)%nat ->
          Z.abs (nth i data 0 - nth i baseValues 0) <= 20)
    /\ frameString data = tagLeft ++ join_comma (map numberToString data)
    /\ (forall value, decodeFrame (frameString data) value = Some data)
    /\ forall m : BLEManager,
         handleCharacteristicValueChanged m
           (Some (TextEncoder_encode (frameString data)))
         = simulatorTick m noise.
Proof.
  intros noise data.
  assert (Hlen : length data = 8%nat) by reflexivity.
  assert (Hr : inRange data) by apply simulatedData_range.
  destruct (frame_read_back data Hlen Hr) as [Hascii Htag].
  assert (Hnth : forall i, (i < 8)%nat ->
            nth i data 0 = clamp255 (nth i baseValues 0 + noise i)).
  { intros i Hi. subst data. rewrite simulatedData_unfold.
    do 8 (destruct i as [|i]; [reflexivity|]). lia. }
  split; [exact Hlen|]. split; [|split; [|split; [reflexivity|split]]].
  - intros i Hi. rewrite (Hnth i Hi). split; [reflexivity|apply clamp255_range].
  - intros Hn i Hi. rewrite (Hnth i Hi). specialize (Hn i).
    unfold clamp255.
    do 8 (destruct i as [|i]; [cbn [nth baseValues]; lia|]). lia.
  - intros value. unfold decodeFrame. rewrite Htag. reflexivity.
  - intros m. unfold handleCharacteristicValueChanged, simulatorTick.
    rewrite (TextDecoder_ascii _ Hascii). fold data.
    destruct (isCollecting m); [|reflexivity].
    cbn [negb]. unfold decodeFrame. rewrite Htag. reflexivity.
Qed.

Lemma simulator_frame_parses_back_witness :
  (forall i : nat, -20 <= (fun _ : nat => 19) i <= 19)
  /\ Z.abs (nth 4 (simulatedData (fun _ => 19)) 0 - nth 4 baseValues 0) <= 20
  /\ handleCharacteristicValueChanged collecting
       (Some (TextEncoder_encode (frameString (simulatedData (fun _ => 19)))))
     = [onRawDataReceived (js "PRESSURE_LEFT:69,119,169,219,255,255,147,83");
        onDataReceived [69; 119; 169; 219; 255; 255; 147; 83]].
Proof.
  assert (H : forall i : nat, -20 <= (fun _ : nat => 19) i <= 19)
    by (intros i; lia).
  destruct (simulator_frame_parses_back (fun _ => 19))
    as (_ & _ & Hnear & _ & _ & Hsame).
  split; [exact H|]. split.
  - apply (Hnear H 4%nat). lia.
  - rewrite Hsame. reflexivity.
Defined.

End FrameParser.

(* ================================================================== *)
(** ** Averages *)

Section Averages.

(** The sum of channel [j] over the samples, as the specification words
    it. *)
Definition channelTotal (pd : list PressureData) (j : nat) : Z :=
  fold_right Z.add 0 (map (fun d => nth j (values d) 0) pd).

(** [r] is [a / b] rounded to the nearest integer, a half going up. *)
Definition roundedQuotient (a b r : Z) : Prop :=
  2 * b * r - b <= 2 * a < 2 * b * r + b.

Lemma roundDiv_rounded (a b : Z) : 0 < b -> roundedQuotient a b (roundDiv a b).
Proof.
  intros Hb. unfold roundedQuotient, roundDiv.
  pose proof (Z.div_mod (2 * a + b) (2 * b) ltac:(lia)) as E.
  pose proof (Z.mod_pos_bound (2 * a + b) (2 * b) ltac:(lia)) as B.
  lia.
Qed.

Lemma roundedQuotient_unique (a b r r' : Z) :
  0 < b -> roundedQuotient a b r -> roundedQuotient a b r' -> r = r'.
Proof. unfold roundedQuotient. intros Hb H H'. nia. Qed.

Lemma addValues_length (sums vals : list Z) :
  length (addValues sums vals) = length sums.
Proof.
  revert vals. induction sums as [|x sums IH]; intros [|v vals];
    simpl; try reflexivity.
  f_equal. apply IH.
Qed.

Lemma sumChannels_length (pd : list PressureData) :
  length (sumChannels pd) = 8%nat.
Proof.
  unfold sumChannels.
  generalize zeros8 (eq_refl : length zeros8 = 8%nat).
  induction pd as [|d pd IH]; intros acc Hacc; [exact Hacc|].
  cbn [fold_left]. apply IH. rewrite addValues_length. exact Hacc.
Qed.

Lemma addValues_nth (sums vals : list Z) (j : nat) :
  length vals = length sums ->
  nth j (addValues sums vals) 0 = nth j sums 0 + nth j vals 0.
Proof.
  revert vals j. induction sums as [|x sums IH]; intros [|v vals] j H;
    simpl in *; try discriminate.
  - destruct j; reflexivity.
  - destruct j as [|j]; [reflexivity|]. apply IH. lia.
Qed.

Definition eightValues (pd : list PressureData) : Prop :=
  Forall (fun d => length (values d) = 8%nat) pd.

Lemma fold_addValues (pd : list PressureData) (acc : list Z) :
  eightValues pd -> length acc = 8%nat ->
  let sums := fold_left (fun sums d => addValues sums (values d)) pd acc in
  length sums = 8%nat
  /\ forall j, nth j sums 0 = nth j acc 0 + channelTotal pd j.
Proof.
  revert acc. induction pd as [|d pd IH]; intros acc Hpd Hacc.
  - split; [exact Hacc|]. intros j. unfold channelTotal. simpl. lia.
  - inversion Hpd as [|? ? Hd Hrest]; subst.
    assert (Hlen : length (values d) = length acc) by lia.
    destruct (IH (addValues acc (values d)) Hrest) as [L N].
    { rewrite addValues_length. exact Hacc. }
    split; [exact L|]. intros j. cbn [fold_left].
    rewrite N, (addValues_nth _ _ _ Hlen).
    unfold channelTotal. simpl. lia.
Qed.

(** The loop of lines 201-206 computes the eight channel sums. *)
Lemma sumChannels_totals (pd : list PressureData) :
  eightValues pd -> sumChannels pd = map (channelTotal pd) (seq 0 8).
Proof.
  intros Hpd.
  destruct (fold_addValues pd zeros8 Hpd eq_refl) as [L N].
  fold (sumChannels pd) in L, N.
  apply (nth_ext _ _ 0 0).
  - rewrite L, length_map, length_seq. reflexivity.
  - intros j Hj. rewrite L in Hj. rewrite N.
    rewrite (nth_indep (map (channelTotal pd) (seq 0 8)) 0 (channelTotal pd 0))
      by (rewrite length_map, length_seq; exact Hj).
    rewrite map_nth, seq_nth by exact Hj.
    unfold zeros8. rewrite nth_repeat. reflexivity.
Qed.

Lemma averagesOf_means (pd : list PressureData) :
  eightValues pd ->
  averagesOf pd
  = map (fun j => roundDiv (channelTotal pd j) (Z.of_nat (length pd)))
        (seq 0 8).
Proof.
  intros Hpd. unfold averagesOf.
  rewrite (sumChannels_totals pd Hpd), map_map. reflexivity.
Qed.

(** *** The maximum and its first index *)

Lemma fold_max_ge (l : list Z) (a : Z) :
  a <= fold_left Z.max l a /\ forall x, In x l -> x <= fold_left Z.max l a.
Proof.
  revert a. induction l as [|y l IH]; intros a; simpl.
  - split; [lia | tauto].
  - destruct (IH (Z.max a y)) as [H1 H2]. split; [lia|].
    intros x [<-|Hx]; [lia | apply H2, Hx].
Qed.

Lemma fold_max_in (l : list Z) (a : Z) :
  fold_left Z.max l a = a \/ In (fold_left Z.max l a) l.
Proof.
  revert a. induction l as [|y l IH]; intros a; simpl; [left; reflexivity|].
  destruct (IH (Z.max a y)) as [H|H]; [|right; right; exact H].
  rewrite H. destruct (Z.max_spec a y) as [[_ E]|[_ E]]; rewrite E; auto.
Qed.

Lemma Math_max_ge (l : list Z) (x : Z) : In x l -> x <= Math_max l.
Proof.
  destruct l as [|a l]; [contradiction|]. unfold Math_max. cbn [hd tl].
  destruct (fold_max_ge l a) as [H1 H2].
  intros [<-|Hx]; [exact H1 | apply H2, Hx].
Qed.

Lemma Math_max_in (l : list Z) : l <> [] -> In (Math_max l) l.
Proof.
  destruct l as [|a l]; [congruence|]. intros _. unfold Math_max.
  cbn [hd tl]. destruct (fold_max_in l a) as [H|H]; [left; auto | right; exact H].
Qed.

(** [indexOf] finds the first position of a value that occurs. *)
Lemma indexOf_first (l : list Z) (x k : Z) :
  In x l ->
  exists n : nat,
    indexOf l x k = k + Z.of_nat n /\ (n < length l)%nat /\ nth n l 0 = x
    /\ forall j, (j < n)%nat -> nth j l 0 <> x.
Proof.
  revert k. induction l as [|y l IH]; intros k Hin; [contradiction|].
  cbn [indexOf]. destruct (Z.eqb_spec y x) as [E|E].
  - exists 0%nat. simpl. repeat split; [lia | lia | exact E | intros j Hj; lia].
  - destruct Hin as [Hy|Hin]; [congruence|].
    destruct (IH (k + 1) Hin) as (n & Hi & Hn & Hx & Hfirst).
    exists (S n). simpl. repeat split; [lia | lia | exact Hx |].
    intros [|j] Hj; [exact E | apply Hfirst; lia].
Qed.

(** *** Completion of a session *)

Lemma completeTest_samples (pd : list PressureData) (s : State) :
  pd <> [] ->
  let s' := completeTest pd s in
  averagePressures s' = averagesOf pd
  /\ averagePressure s' = totalAverageOf (averagesOf pd)
  /\ maxPressurePoint s'
     = (indexOf (averagesOf pd) (Math_max (averagesOf pd)) 0,
        Math_max (averagesOf pd))
  /\ testCompleted s' = true
  /\ isRecording s' = isRecording s
  /\ pressureData s' = pressureData s.
Proof.
  intros Hpd. destruct pd as [|d pd]; [congruence|].
  repeat split.
Qed.

Lemma completeTest_empty (s : State) :
  completeTest [] s = log noDataWarning s.
Proof. reflexivity. Qed.

(** A sensor that is not a demo device, found by the filtered scan. *)
Definition sensor : BluetoothDevice :=
  {| id := js "kT3bXq8Jw1zPm5Lh"; name := Some (js "ESP32-FootPressure");
     gatt := true |}.

Definition sensorFound : Platform :=
  {| bluetooth := true; filtered := Granted sensor;
     acceptAll := Refused (NonError []) |}.

Definition noon : jsstring := js "12:00:00".

(** The application once the sensor has been found and connected. *)
Definition linked : App :=
  run App.initial
    [(noon, ClickScan sensorFound); (noon, SelectDevice (id sensor) GattOk)].

Definition frameOf (text : string) : Action :=
  Notification (Some (TextEncoder_encode (js text))).

(** C9.  The reported index is the first index at which the averages
    reach their maximum: the maximum is reached there and at no smaller
    index, so where several channels reach it the lowest wins; for
    averages that start 100, 100, 50 and go on with values up to 100 the
    index is 0. *)
Theorem max_point_is_first_maximum :
  (forall (pd : list PressureData) (s : State),
      pd <> [] ->
      let averages := averagesOf pd in
      exists i : nat,
        maxPressurePoint (calculateAverages pd s)
        = (Z.of_nat i, nth i averages 0)
        /\ (i < length averages)%nat
        /\ (forall x, In x averages -> x <= nth i averages 0)
        /\ (forall j, (j < i)%nat -> nth j averages 0 < nth i averages 0)
        /\ forall j k, (j < k < length averages)%nat ->
             nth j averages 0 = nth i averages 0 ->
             nth k averages 0 = nth i averages 0 -> (i <= j)%nat)
  /\ forall rest : list Z,
       (forall x, In x rest -> x <= 100) ->
       let averages := 100 :: 100 :: 50 :: rest in
       indexOf averages (Math_max averages) 0 = 0.
Proof.
  split.
  - intros pd s Hne averages.
    assert (Hlen : length averages = 8%nat).
    { subst averages. unfold averagesOf. rewrite length_map.
      apply sumChannels_length. }
    assert (Hin : In (Math_max averages) averages).
    { apply Math_max_in. intros E. rewrite E in Hlen. discriminate. }
    destruct (indexOf_first averages _ 0 Hin) as (i & Hi & Hlt & Hv & Hfirst).
    assert (Hbelow : forall j, (j < i)%nat -> nth j averages 0 < nth i averages 0).
    { intros j Hj. specialize (Hfirst j Hj).
      assert (nth j averages 0 <= Math_max averages)
        by (apply Math_max_ge, nth_In; lia).
      lia. }
    exists i. split; [|split; [exact Hlt|split; [|split; [exact Hbelow|]]]].
    + destruct pd as [|d pd]; [congruence|].
      change (maxPressurePoint (calculateAverages (d :: pd) s))
        with (indexOf averages (Math_max averages) 0, Math_max averages).
      rewrite Hi, Hv. reflexivity.
    + intros x Hx. rewrite Hv. apply Math_max_ge, Hx.
    + intros j k Hjk Ej _. destruct (Nat.le_gt_cases i j) as [L|L]; [exact L|].
      specialize (Hbelow j L). lia.
  - intros rest Hrest averages.
    assert (Hmax : Math_max averages = 100).
    { apply Z.le_antisymm.
      - assert (Hin : In (Math_max averages) averages)
          by (apply Math_max_in; discriminate).
        destruct Hin as [E|[E|[E|Hin]]]; try lia. apply Hrest, Hin.
      - apply Math_max_ge. left. reflexivity. }
    rewrite Hmax. reflexivity.
Qed.

Lemma max_point_is_first_maximum_witness :
  let pd := [ {| timestamp := noon; values := [7; 9; 3; 9; 9; 0; 1; 2] |} ] in
  pd <> []
  /\ (exists i : nat,
        maxPressurePoint (calculateAverages pd mounted)
        = (Z.of_nat i, nth i (averagesOf pd) 0)
        /\ forall j, (j < i)%nat ->
             nth j (averagesOf pd) 0 < nth i (averagesOf pd) 0)
  /\ maxPressurePoint (calculateAverages pd mounted) = (1, 9)
  /\ indexOf [100; 100; 50; 100; 7; 0; 0; 100]
             (Math_max [100; 100; 50; 100; 7; 0; 0; 100]) 0 = 0.
Proof.
  intros pd.
  assert (Hne : pd <> []) by discriminate.
  split; [exact Hne|]. split; [|split; [reflexivity|]].
  - destruct (proj1 max_point_is_first_maximum pd mounted Hne)
      as (i & Hp & _ & _ & Hbelow & _).
    exists i. split; [exact Hp | exact Hbelow].
  - apply (proj2 max_point_is_first_maximum [100; 7; 0; 0; 100]).
    intros x Hx. simpl in Hx.
    repeat (destruct Hx as [<-|Hx]; [lia|]). contradiction.
Defined.

End Averages.

(* ================================================================== *)
(** ** The session: collection, countdown and early stop *)

Section Session.

Definition isRaw (e : Event) : bool :=
  match e with
  | onRawDataReceived _ => true
  | _ => false
  end.

Definition rawEntries (now : jsstring) (evs : list Event) : list jsstring :=
  flat_map (fun e => match e with
                     | onRawDataReceived rawData => [stamp now rawData]
                     | _ => []
                     end) evs.

Lemma setConsoleLog_same (s : State) : setConsoleLog (consoleLog s) s = s.
Proof. destruct s; reflexivity. Qed.

(** Raw diagnostic text only reaches the log. *)
Lemma deliverAll_raw (now : jsstring) (m : BLEManager) (evs : list Event)
  (s : State) :
  forallb isRaw evs = true ->
  deliverAll now m evs s
  = setConsoleLog (consoleLog s ++ rawEntries now evs) s.
Proof.
  revert s. induction evs as [|e evs IH]; intros s H.
  - simpl. rewrite app_nil_r, setConsoleLog_same. reflexivity.
  - simpl in H. apply andb_true_iff in H as [He Hevs].
    destruct e as [data|c|rawData]; try discriminate.
    unfold deliverAll in *. cbn [fold_left deliver].
    rewrite (IH _ Hevs). unfold handleRawDataReceived, log, setConsoleLog.
    cbn. rewrite <- app_assoc. reflexivity.
Qed.

Lemma sendCommand_raw (sent failed : jsstring) (m : BLEManager)
  (w : WriteOutcome) : forallb isRaw (sendCommand sent failed m w) = true.
Proof.
  unfold sendCommand. destruct (characteristic m), w; reflexivity.
Qed.

Lemma stopDataCollection_raw (m : BLEManager) (w : WriteOutcome) :
  forallb isRaw (fst (snd (stopDataCollection m w))) = true
  /\ forallb isRaw (snd (snd (stopDataCollection m w))) = true.
Proof.
  unfold stopDataCollection. cbn [fst snd forallb isRaw andb].
  split; [reflexivity|].
  destruct (_ && _); [apply sendCommand_raw | reflexivity].
Qed.

Lemma startDataCollection_raw (m : BLEManager) (w : WriteOutcome) :
  forallb isRaw (snd (startDataCollection m w)) = true.
Proof.
  unfold startDataCollection. destruct (_ || _); cbn; [reflexivity|].
  apply sendCommand_raw.
Qed.

Lemma stopDataCollection_flag (m : BLEManager) (w : WriteOutcome) :
  isCollecting (fst (stopDataCollection m w)) = false
  /\ collectionInterval (fst (stopDataCollection m w)) = false.
Proof. split; reflexivity. Qed.

Lemma startDataCollection_flag (m : BLEManager) (w : WriteOutcome) :
  isCollecting (fst (startDataCollection m w)) = true.
Proof. unfold startDataCollection. destruct (_ || _); reflexivity. Qed.

Lemma disconnect_manager (m : BLEManager) (w : WriteOutcome)
  (settled : bool) :
  fst (disconnect m w settled) = BLE.initial.
Proof. unfold disconnect, stopDataCollection. destruct settled; reflexivity. Qed.

(** *** Completion without samples *)

(** [completeTest] on an empty sample list only logs the warning. *)
Lemma complete_without_samples (s : State) :
  let s' := completeTest [] s in
  consoleLog s' = consoleLog s ++ [noDataWarning]
  /\ testCompleted s' = testCompleted s
  /\ averagePressures s' = averagePressures s
  /\ maxPressurePoint s' = maxPressurePoint s
  /\ averagePressure s' = averagePressure s
  /\ isRecording s' = isRecording s.
Proof. repeat split. Qed.

(** The early stop of a session without samples leaves the session
    idle, with the warning as the last log entry when the handler
    returns; the report of a STOP write, if one was made, is still to
    come. *)
Lemma stop_without_samples (now : jsstring) (w : WriteOutcome) (a : App) :
  pressureData (screen a) = [] -> testCompleted (screen a) = false ->
  let a' := stopMeasurement now w a in
  sessionState (screen a') = Idle
  /\ averagePressures (screen a') = averagePressures (screen a)
  /\ last (consoleLog (screen a')) [] = noDataWarning
  /\ timerRef a' = None
  /\ isCollecting (manager a') = false.
Proof.
  intros Hpd Htc. unfold stopMeasurement.
  pose proof (stopDataCollection_raw (manager a) w) as [Hraw _].
  pose proof (stopDataCollection_flag (manager a) w) as [Hflag _].
  destruct (stopDataCollection (manager a) w) as [m [evs later]].
  cbn [fst snd] in *. cbn [screen timerRef manager].
  rewrite Hpd, (deliverAll_raw _ _ _ _ Hraw), completeTest_empty.
  unfold sessionState. cbn. rewrite Htc.
  repeat split; [|exact Hflag].
  apply last_last.
Qed.

(** Neither the countdown nor the timeout it sets ends the recording:
    [isRecording], the countdown timer and the manager stay as they
    are. *)
Lemma countdown_keeps_recording (a : App) :
  isRecording (screen (countdown a)) = isRecording (screen a)
  /\ timerRef (countdown a) = timerRef a
  /\ manager (countdown a) = manager a.
Proof.
  unfold countdown. destruct (timerRef a) eqn:E; [|auto].
  destruct (_ <=? _); cbn; auto.
Qed.

Lemma timeout_keeps_recording (a : App) :
  isRecording (screen (timeout a)) = isRecording (screen a)
  /\ timerRef (timeout a) = timerRef a
  /\ manager (timeout a) = manager a.
Proof.
  unfold timeout. destruct (timeouts a) as [|pd rest]; [auto|].
  cbn [screen timerRef manager]. repeat split.
  unfold completeTest, calculateAverages.
  destruct pd; reflexivity.
Qed.

(** The inputs of a countdown that runs out: the start, twenty firings
    of the one-second interval, and the timeout set by the last one. *)
Definition untilExpiry (w : WriteOutcome) : list (jsstring * Action) :=
  (noon, ClickStart w) :: repeat (noon, CountdownFires) 20
  ++ [(noon, TimeoutFires)].

Definition stoppedAtOnce (w : WriteOutcome) : list (jsstring * Action) :=
  [(noon, ClickStart w); (noon, ClickStop w)].

(** A first session of three frames, stopped early. *)
Definition firstSession : list (jsstring * Action) :=
  [(noon, ClickStart WriteOk);
   (noon, frameOf "PRESSURE_RIGHT:10,20,30,40,50,60,70,80");
   (noon, frameOf "PRESSURE_RIGHT:20,30,40,50,60,70,80,90");
   (noon, frameOf "PRESSURE_RIGHT:30,40,50,60,70,80,90,100");
   (noon, ClickStop WriteOk)].

(** C5.  On the connected sensor a countdown that runs out without any
    sample reports the warning and computes no averages, and the
    session is not completed; but it is not idle either: [isRecording]
    is still set, so the session is still recording, the countdown timer
    is still running and the manager still collects.  When a session
    with samples came before, the countdown that runs out without any
    sample even completes the new session, on the samples of the old
    one, which the render of the start still held. *)
Theorem expiry_without_samples_keeps_recording :
  (let a := run linked (untilExpiry WriteOk) in
   pressureData (screen a) = []
   /\ last (consoleLog (screen a)) [] = noDataWarning
   /\ testCompleted (screen a) = false
   /\ averagePressures (screen a) = zeros8
   /\ isRecording (screen a) = true
   /\ sessionState (screen a) = Recording
   /\ timerRef a = Some []
   /\ isCollecting (manager a) = true)
  /\ (let a := run linked (firstSession ++ untilExpiry WriteOk) in
      pressureData (screen a) = []
      /\ testCompleted (screen a) = true
      /\ averagePressures (screen a) = [20; 30; 40; 50; 60; 70; 80; 90]
      /\ isRecording (screen a) = true).
Proof. vm_compute. repeat split. Qed.

(** C8.  With no sample collected, the early stop right after the start
    and the countdown that runs out agree on the averages and on the
    session not being completed, and differ on the recording status:
    the stop ends the recording, clears the countdown timer and stops
    the collection, the expiry does none of the three. *)
Theorem stop_and_expiry_differ :
  let stopped := run linked (stoppedAtOnce WriteOk) in
  let expired := run linked (untilExpiry WriteOk) in
  pressureData (screen stopped) = [] /\ pressureData (screen expired) = []
  /\ averagePressures (screen stopped) = averagePressures (screen expired)
  /\ testCompleted (screen stopped) = false
  /\ testCompleted (screen expired) = false
  /\ isRecording (screen stopped) = false
  /\ isRecording (screen expired) = true
  /\ sessionState (screen stopped) = Idle
  /\ sessionState (screen expired) = Recording
  /\ timerRef stopped = None /\ timerRef expired = Some []
  /\ isCollecting (manager stopped) = false
  /\ isCollecting (manager expired) = true.
Proof. vm_compute. repeat split. Qed.

Lemma run_app (a : App) (l1 l2 : list (jsstring * Action)) :
  run a (l1 ++ l2) = run (run a l1) l2.
Proof. apply fold_left_app. Qed.

Lemma countdowns_keep_recording (n : nat) (a : App) :
  isRecording (screen (run a (repeat (noon, CountdownFires) n)))
  = isRecording (screen a)
  /\ timerRef (run a (repeat (noon, CountdownFires) n)) = timerRef a
  /\ manager (run a (repeat (noon, CountdownFires) n)) = manager a.
Proof.
  revert a. induction n as [|n IH]; intros a; [repeat split|].
  change (run a (repeat (noon, CountdownFires) (S n)))
    with (run (countdown a) (repeat (noon, CountdownFires) n)).
  destruct (IH (countdown a)) as (H1 & H2 & H3).
  destruct (countdown_keeps_recording a) as (K1 & K2 & K3).
  rewrite H1, H2, H3. auto.
Qed.

Lemma step_timeout (a : App) (now : jsstring) :
  step a (now, TimeoutFires) = timeout a.
Proof. reflexivity. Qed.

Lemma run_cons (a : App) (i : jsstring * Action)
  (l : list (jsstring * Action)) :
  run a (i :: l) = run (step a i) l.
Proof. reflexivity. Qed.

Lemma run_nil (a : App) : run a [] = a.
Proof. reflexivity. Qed.

Lemma run_untilExpiry (w : WriteOutcome) (a : App) :
  run a (untilExpiry w)
  = timeout (run (step a (noon, ClickStart w))
                 (repeat (noon, CountdownFires) 20)).
Proof.
  unfold untilExpiry.
  rewrite run_cons, run_app, run_cons, run_nil. apply step_timeout.
Qed.

Lemma run_stoppedAtOnce (w : WriteOutcome) (a : App) :
  run a (stoppedAtOnce w)
  = step (step a (noon, ClickStart w)) (noon, ClickStop w).
Proof.
  unfold stoppedAtOnce. rewrite !run_cons. apply run_nil.
Qed.

(** From every state in which a measurement can be started, the
    countdown that runs out leaves [isRecording] set, the timer armed
    and the manager collecting, while the early stop clears all
    three. *)
Lemma expiry_never_ends_recording (w : WriteOutcome) (a : App) :
  bleConnected (screen a) = true -> isRecording (screen a) = false ->
  let expired := run a (untilExpiry w) in
  let stopped := run a (stoppedAtOnce w) in
  isRecording (screen expired) = true
  /\ timerRef expired <> None
  /\ isCollecting (manager expired) = true
  /\ isRecording (screen stopped) = false
  /\ timerRef stopped = None
  /\ isCollecting (manager stopped) = false.
Proof.
  intros Hb Hr. cbn zeta.
  rewrite run_untilExpiry, run_stoppedAtOnce.
  remember (step a (noon, ClickStart w)) as started eqn:Es.
  assert (Hs : isRecording (screen started) = true
               /\ timerRef started <> None
               /\ isCollecting (manager started) = true).
  { rewrite Es. unfold step. rewrite Hb, Hr. cbn [negb orb].
    unfold startMeasurement. rewrite Hb. cbn [negb].
    pose proof (startDataCollection_raw (manager a) w) as Hraw.
    pose proof (startDataCollection_flag (manager a) w) as Hflag.
    destruct (startDataCollection (manager a) w) as [m evs].
    cbn [fst snd] in *. cbn [screen timerRef manager].
    rewrite (deliverAll_raw _ _ _ _ Hraw).
    split; [reflexivity | split; [discriminate | exact Hflag]]. }
  clear Es. destruct Hs as (S1 & S2 & S3).
  destruct (countdowns_keep_recording 20 started) as (H1 & H2 & H3).
  destruct (timeout_keeps_recording
              (run started (repeat (noon, CountdownFires) 20)))
    as (T1 & T2 & T3).
  rewrite T1, T2, T3, H1, H2, H3.
  split; [exact S1|]. split; [exact S2|]. split; [exact S3|].
  unfold step. rewrite S1. cbn [negb]. unfold stopMeasurement.
  pose proof (stopDataCollection_raw (manager started) w) as [Hraw _].
  pose proof (stopDataCollection_flag (manager started) w) as [Hf _].
  destruct (stopDataCollection (manager started) w) as [m [evs later]].
  cbn [fst snd] in *. cbn [screen timerRef manager].
  rewrite (deliverAll_raw _ _ _ _ Hraw).
  split; [|split; [reflexivity | exact Hf]].
  destruct (pressureData (screen started)); reflexivity.
Qed.

(** The countdown reads the samples of the render that started it: in a
    first session it finds none, whatever has been collected since. *)
Lemma expiry_reads_the_samples_of_the_start :
  let a := run linked
             ((noon, ClickStart WriteOk)
              :: (noon, frameOf "PRESSURE_RIGHT:10,20,30,40,50,60,70,80")
              :: repeat (noon, CountdownFires) 20 ++ [(noon, TimeoutFires)]) in
  map values (pressureData (screen a)) = [[10; 20; 30; 40; 50; 60; 70; 80]]
  /\ last (consoleLog (screen a)) [] = noDataWarning
  /\ testCompleted (screen a) = false.
Proof. vm_compute. repeat split. Qed.

(** *** Notifications outside a collection *)

Definition notStart (act : Action) : bool :=
  match act with
  | ClickStart _ => false
  | _ => true
  end.

Lemma connect_keeps_collecting (m : BLEManager) (d : BluetoothDevice)
  (o : GattOutcome) :
  isCollecting (fst (fst (connect m d o))) = isCollecting m.
Proof.
  unfold connect, connectCatch.
  destruct (gatt d && negb (isDemoId (id d))); [|reflexivity].
  destruct o as [|stage e]; [reflexivity|].
  repeat (destruct (messageIncludes _ e); [reflexivity|]). reflexivity.
Qed.

Lemma step_keeps_idle (a : App) (now : jsstring) (act : Action) :
  isCollecting (manager a) = false -> notStart act = true ->
  isCollecting (manager (step a (now, act))) = false.
Proof.
  intros Hidle Hact. unfold step.
  destruct act; try discriminate.
  - destruct (_ || _); [exact Hidle|]. exact Hidle.
  - destruct (_ && _); [|exact Hidle].
    destruct (find _ _) as [d|]; [|exact Hidle].
    unfold connectToDevice.
    pose proof (connect_keeps_collecting (manager a) d o) as Hc.
    destruct (connect (manager a) d o) as [[m evs] r]. cbn in *.
    rewrite Hc. exact Hidle.
  - destruct (selectedDevice (screen a)); [|exact Hidle].
    destruct (_ && _); [|exact Hidle]. unfold disconnectDevice.
    pose proof (disconnect_manager (manager a) w settled) as Hm.
    destruct (disconnect (manager a) w settled) as [m [evs later]].
    cbn [fst] in Hm. cbn [manager]. rewrite Hm. reflexivity.
  - destruct (negb _); [exact Hidle|].
    unfold stopMeasurement.
    pose proof (stopDataCollection_flag (manager a) w) as [Hf _].
    destruct (stopDataCollection (manager a) w) as [m [evs later]]. exact Hf.
  - rewrite (proj2 (proj2 (countdown_keeps_recording a))). exact Hidle.
  - rewrite (proj2 (proj2 (timeout_keeps_recording a))). exact Hidle.
  - destruct (_ && _); exact Hidle.
  - destruct (collectionInterval (manager a)); exact Hidle.
  - destruct (_ && _); exact Hidle.
  - unfold writeSettles. destruct (nth_error _ _); exact Hidle.
Qed.

Lemma run_keeps_idle (inputs : list (jsstring * Action)) (a : App) :
  isCollecting (manager a) = false ->
  Forall (fun i => notStart (snd i) = true) inputs ->
  isCollecting (manager (run a inputs)) = false.
Proof.
  revert a. induction inputs as [|[now act] inputs IH]; intros a Hidle Hin.
  - exact Hidle.
  - inversion Hin as [|? ? Hact Hrest]; subst.
    apply IH; [|exact Hrest]. apply step_keeps_idle; assumption.
Qed.

(** C10.  While the manager does not collect, the handler emits no
    event for a notification, whatever its payload, and the
    application (samples, display values, log) is left as it is.  This
    is the case as long as no measurement has been started, and again
    once [stopDataCollection] has run. *)
Theorem idle_handler_is_silent :
  (forall (m : BLEManager) (value : option (list N)),
      isCollecting m = false ->
      handleCharacteristicValueChanged m value = [])
  /\ (forall (a : App) (now : jsstring) (value : option (list N)),
        isCollecting (manager a) = false ->
        step a (now, Notification value) = a)
  /\ (forall inputs : list (jsstring * Action),
        Forall (fun i => notStart (snd i) = true) inputs ->
        isCollecting (manager (run App.initial inputs)) = false)
  /\ (forall (m : BLEManager) (w : WriteOutcome),
        isCollecting (fst (stopDataCollection m w)) = false).
Proof.
  split; [|split; [|split]].
  - intros m [bytes|] H; [|reflexivity]. simpl. rewrite H. reflexivity.
  - intros a now value H. unfold step, notify.
    destruct (_ && _); [|reflexivity].
    destruct value as [bytes|]; simpl; [rewrite H|]; destruct a; reflexivity.
  - intros inputs H. apply run_keeps_idle; [reflexivity | exact H].
  - intros m w. apply stopDataCollection_flag.
Qed.

Lemma idle_handler_is_silent_witness :
  isCollecting (manager linked) = false
  /\ handleCharacteristicValueChanged (manager linked)
       (Some (TextEncoder_encode exampleFrame)) = []
  /\ step linked (noon, frameOf "PRESSURE_RIGHT:1,2,3,4,5,6,7,8") = linked
  /\ isCollecting (manager linked) = false.
Proof.
  assert (H : isCollecting (manager linked) = false) by reflexivity.
  destruct idle_handler_is_silent as (Hsilent & Hstep & Hrun & _).
  split; [exact H|]. split; [apply Hsilent, H|]. split; [apply Hstep, H|].
  apply (Hrun [(noon, ClickScan sensorFound);
               (noon, SelectDevice (id sensor) GattOk)]).
  repeat constructor.
Defined.

End Session.

(* ================================================================== *)
(** ** The link: discovery and connection *)

Section Link.

(** *** Discovery *)

(** Discovery fails altogether: the platform has no Bluetooth, or both
    requests are refused. *)
Definition totalFailure (p : Platform) : Prop :=
  bluetooth p = false
  \/ exists e1 e2, filtered p = Refused e1 /\ acceptAll p = Refused e2.

Definition userCancelled : Thrown :=
  ErrorObj (js "NotFoundError") (js "User cancelled the requestDevice() chooser.").

Definition chooserCancelled : Platform :=
  {| bluetooth := true; filtered := Refused userCancelled;
     acceptAll := Refused userCancelled |}.

(** C6, as stated, fails when the user cancels the first chooser: the
    discovery then fails the caller. *)
Lemma scan_cancelled_fails_caller :
  totalFailure chooserCancelled
  /\ BLE.scanForDevices chooserCancelled
     = Rejected (newError (js "Device selection cancelled by user"))
  /\ BLE.scanForDevices chooserCancelled <> Resolved getMockDevices.
Proof.
  split; [|split].
  - right. exists userCancelled, userCancelled. split; reflexivity.
  - reflexivity.
  - discriminate.
Qed.

(** C6, amended.  A discovery that fails altogether returns the two
    demo devices, also on a platform without Bluetooth and when the
    second chooser is cancelled, unless the first request fails with an
    error whose message contains "User cancelled": then the discovery
    fails the caller with "Device selection cancelled by user". *)
Theorem scan_failure_gives_demo_devices :
  forall p : Platform,
    (bluetooth p = false ->
     BLE.scanForDevices p = Resolved getMockDevices)
    /\ (forall e1 e2,
          bluetooth p = true ->
          filtered p = Refused e1 -> acceptAll p = Refused e2 ->
          messageIncludes (js "User cancelled") e1 = false ->
          BLE.scanForDevices p = Resolved getMockDevices)
    /\ (forall e1,
          bluetooth p = true -> filtered p = Refused e1 ->
          messageIncludes (js "User cancelled") e1 = true ->
          BLE.scanForDevices p
          = Rejected (newError (js "Device selection cancelled by user"))).
Proof.
  intros p. unfold BLE.scanForDevices. split; [|split].
  - intros Hb. rewrite Hb. reflexivity.
  - intros e1 e2 Hb H1 H2 Hm. rewrite Hb, H1, H2. cbn [negb].
    rewrite Hm. reflexivity.
  - intros e1 Hb H1 Hm. rewrite Hb, H1. cbn [negb]. rewrite Hm. reflexivity.
Qed.

Lemma scan_failure_gives_demo_devices_witness :
  let p := {| bluetooth := true;
              filtered := Refused (ErrorObj (js "SecurityError")
                                     (js "requestDevice() called without a user gesture"));
              acceptAll := Refused userCancelled |} in
  BLE.scanForDevices p = Resolved getMockDevices
  /\ BLE.scanForDevices {| bluetooth := false; filtered := Granted sensor;
                           acceptAll := Granted sensor |}
     = Resolved getMockDevices
  /\ BLE.scanForDevices chooserCancelled
     = Rejected (newError (js "Device selection cancelled by user")).
Proof.
  intros p. split; [|split].
  - exact (proj1 (proj2 (scan_failure_gives_demo_devices p))
             _ _ eq_refl eq_refl eq_refl eq_refl).
  - exact (proj1 (scan_failure_gives_demo_devices
                    {| bluetooth := false; filtered := Granted sensor;
                       acceptAll := Granted sensor |}) eq_refl).
  - exact (proj2 (proj2 (scan_failure_gives_demo_devices chooserCancelled))
             _ eq_refl eq_refl eq_refl).
Defined.

(** *** Connection *)

(** The error is one of the three that [connect] reports itself. *)
Definition named (e : Thrown) : bool :=
  messageIncludes (js "GATT operation not permitted") e
  || messageIncludes (js "Service not found") e
  || messageIncludes (js "Characteristic not found") e.

(** The link has fallen back to the demo device: the manager reports a
    connection and holds a demo device, the screen shows the
    connection, and a measurement started next records with the
    simulator armed. *)
Definition fellBackToDemo (now : jsstring) (w : WriteOutcome) (a : App)
  : Prop :=
  isConnected (manager a) = true
  /\ deviceIsDemo (manager a) = true
  /\ bleConnected (screen a) = true
  /\ let a' := startMeasurement now w a in
     isRecording (screen a') = true
     /\ isCollecting (manager a') = true
     /\ collectionInterval (manager a') = true.

(** The application after a scan that found the sensor. *)
Definition scanned : App := run App.initial [(noon, ClickScan sensorFound)].

Definition notPermitted : Thrown :=
  ErrorObj (js "NetworkError") (js "GATT operation not permitted.").

(** C3, as stated, fails for an error that [connect] reports itself:
    there is no fallback, the link stays disconnected and a start is
    refused. *)
Lemma connect_not_permitted_no_fallback :
  let a := connectToDevice noon sensor (GattFails AtConnect notPermitted)
             scanned in
  ~ fellBackToDemo noon WriteOk a
  /\ isConnected (manager a) = false
  /\ bleConnected (screen a) = false
  /\ startMeasurement noon WriteOk a = a.
Proof.
  split; [|vm_compute; repeat split].
  intros (H & _). vm_compute in H. discriminate.
Qed.

Definition demoDevice : BluetoothDevice :=
  {| id := js "demo-device"; name := Some (js "Demo ESP32 Sensor");
     gatt := false |}.

Lemma connect_fallback (m : BLEManager) (d : BluetoothDevice)
  (stage : GattStage) (e : Thrown) :
  gatt d = true -> isDemoId (id d) = false -> named e = false ->
  connect m d (GattFails stage e)
  = (fst (simulateConnection (reached m d (stageIndex stage))),
     [onConnectionChange true; onRawDataReceived demoModeActivated;
      onRawDataReceived usingDemoMode],
     Resolved tt).
Proof.
  intros Hg Hid Hn. unfold named in Hn.
  apply orb_false_iff in Hn as [Hn H3]. apply orb_false_iff in Hn as [H1 H2].
  unfold connect, connectCatch. rewrite Hg, Hid, H1, H2, H3. reflexivity.
Qed.

Lemma connect_named (m : BLEManager) (d : BluetoothDevice)
  (stage : GattStage) (e : Thrown) :
  gatt d = true -> isDemoId (id d) = false -> named e = true ->
  exists text,
    connect m d (GattFails stage e)
    = (reached m d (stageIndex stage), [], Rejected (newError text))
    /\ In text [notPermittedMessage; serviceNotFoundMessage;
                characteristicNotFoundMessage].
Proof.
  intros Hg Hid Hn. unfold connect, connectCatch. rewrite Hg, Hid. cbn [andb negb].
  unfold named in Hn.
  destruct (messageIncludes (js "GATT operation not permitted") e).
  - eexists. split; [reflexivity | left; reflexivity].
  - destruct (messageIncludes (js "Service not found") e).
    + eexists. split; [reflexivity | right; left; reflexivity].
    + destruct (messageIncludes (js "Characteristic not found") e);
        [|discriminate].
      eexists. split; [reflexivity | right; right; left; reflexivity].
Qed.

Lemma startDataCollection_demo (m : BLEManager) (w : WriteOutcome) :
  deviceIsDemo m = true ->
  startDataCollection m w
  = (setInterval true (setCollecting true m),
     [onRawDataReceived startingCollection;
      onRawDataReceived
        (utf16 127917 ++ js " Simulating ESP32 pressure data...")]).
Proof.
  intros H. unfold startDataCollection.
  change (deviceIsDemo (setCollecting true m)) with (deviceIsDemo m).
  rewrite H, orb_true_r. reflexivity.
Qed.

(** C3, amended.  A connect attempt on a real device that fails with an
    error whose message contains none of "GATT operation not
    permitted", "Service not found" and "Characteristic not found" falls
    back to the demo device: the link reports a connection and a
    measurement started next records simulated data; what is displayed
    is the notice of the demo mode, the same for every such error, and
    no connection error.  With one of the three phrases in its message
    the attempt fails the caller instead, with a message of its own
    that is displayed, and nothing falls back. *)
Theorem connect_failure_falls_back_unless_named :
  forall (now : jsstring) (w : WriteOutcome) (a : App) (d : BluetoothDevice)
         (stage : GattStage) (e : Thrown),
    gatt d = true -> isDemoId (id d) = false ->
    let a' := connectToDevice now d (GattFails stage e) a in
    (named e = false ->
     fellBackToDemo now w a'
     /\ device (manager a') = Some demoDevice
     /\ connectionError (screen a') = []
     /\ last (consoleLog (screen a')) [] = stamp now usingDemoMode
     /\ forall stage' e',
          named e' = false ->
          screen (connectToDevice now d (GattFails stage' e') a) = screen a')
    /\ (named e = true ->
        exists text,
          In text [notPermittedMessage; serviceNotFoundMessage;
                   characteristicNotFoundMessage]
          /\ snd (connect (manager a) d (GattFails stage e))
             = Rejected (newError text)
          /\ connectionError (screen a') = text
          /\ last (consoleLog (screen a')) []
             = js "[ERROR] ESP32 connection failed: " ++ text
          /\ device (manager a') = Some d
          /\ bleConnected (screen a') = bleConnected (screen a)
          /\ (bleConnected (screen a) = false ->
              startMeasurement now w a' = a')).
Proof.
  intros now w a d stage e Hg Hid a'. split.
  - intros Hn.
    assert (Ha : a' = connectToDevice now d (GattFails stage e) a)
      by reflexivity.
    unfold connectToDevice in Ha.
    rewrite (connect_fallback _ _ _ _ Hg Hid Hn) in Ha.
    split; [|split; [|split; [|split]]].
    + unfold fellBackToDemo. rewrite Ha.
      split; [reflexivity|]. split; [reflexivity|]. split; [reflexivity|].
      unfold startMeasurement. cbn [screen bleConnected setBleConnected negb].
      cbn [manager].
      rewrite startDataCollection_demo by reflexivity.
      repeat split.
    + rewrite Ha. reflexivity.
    + rewrite Ha. reflexivity.
    + rewrite Ha. cbn [screen]. unfold deliverAll. cbn [fold_left deliver].
      unfold handleRawDataReceived at 1, log at 1.
      cbn [setBleConnected setSelectedDevice setConsoleLog consoleLog].
      apply last_last.
    + intros stage' e' Hn'. rewrite Ha. unfold connectToDevice.
      rewrite (connect_fallback _ _ _ _ Hg Hid Hn'). reflexivity.
  - intros Hn.
    destruct (connect_named (manager a) d stage e Hg Hid Hn) as (text & Hc & Hin).
    exists text.
    assert (Ha : a' = connectToDevice now d (GattFails stage e) a)
      by reflexivity.
    unfold connectToDevice in Ha. rewrite Hc in Ha.
    split; [exact Hin|]. split; [rewrite Hc; reflexivity|].
    split; [rewrite Ha; reflexivity|].
    split; [rewrite Ha; cbn; apply last_last|].
    split; [rewrite Ha; reflexivity|].
    split; [rewrite Ha; reflexivity|].
    intros Hb. unfold startMeasurement.
    replace (bleConnected (screen a')) with false; [reflexivity|].
    rewrite Ha. symmetry. exact Hb.
Qed.

Definition linkLostError : Thrown :=
  ErrorObj (js "NetworkError") (js "Connection attempt failed.").

Lemma connect_failure_falls_back_unless_named_witness :
  gatt sensor = true /\ isDemoId (id sensor) = false
  /\ named linkLostError = false
  /\ fellBackToDemo noon WriteOk
       (connectToDevice noon sensor
          (GattFails AtGetPrimaryService linkLostError) scanned)
  /\ named notPermitted = true
  /\ exists text,
       connectionError
         (screen (connectToDevice noon sensor
                    (GattFails AtConnect notPermitted) scanned)) = text
       /\ In text [notPermittedMessage; serviceNotFoundMessage;
                   characteristicNotFoundMessage].
Proof.
  assert (Hg : gatt sensor = true) by reflexivity.
  assert (Hid : isDemoId (id sensor) = false) by reflexivity.
  assert (Hn : named linkLostError = false) by reflexivity.
  assert (Hp : named notPermitted = true) by reflexivity.
  split; [exact Hg|]. split; [exact Hid|]. split; [exact Hn|].
  split; [|split; [exact Hp|]].
  - exact (proj1 (proj1 (connect_failure_falls_back_unless_named
                           noon WriteOk scanned sensor AtGetPrimaryService
                           linkLostError Hg Hid) Hn)).
  - destruct (proj2 (connect_failure_falls_back_unless_named
                       noon WriteOk scanned sensor AtConnect
                       notPermitted Hg Hid) Hp)
      as (text & Hin & _ & Herr & _).
    exists text. split; [exact Herr | exact Hin].
Defined.

End Link.

(* ================================================================== *)
(** ** Reachable states *)

Section Reachable.

(** Every sample a callback receives has eight values. *)
Definition goodEvent (e : Event) : Prop :=
  match e with
  | onDataReceived data => length data = 8%nat
  | _ => True
  end.

Lemma decodeFrame_eight (dataString : jsstring) (value : list N)
  (v : list Z) :
  decodeFrame dataString value = Some v -> length v = 8%nat.
Proof.
  unfold decodeFrame, taggedValues, csvValues, rawByteValues.
  destruct (_ || _).
  - destruct (regexMatch dataString).
    + intros H. injection H as <-. apply pad8_length.
    + destruct (includes [comma] dataString).
      * destruct (4 <=? _)%nat.
        -- intros H. injection H as <-. apply pad8_length.
        -- destruct (Nat.eqb_spec (length value) 8); [|discriminate].
           intros H. injection H as <-. rewrite length_map. assumption.
      * destruct (Nat.eqb_spec (length value) 8); [|discriminate].
        intros H. injection H as <-. rewrite length_map. assumption.
  - destruct (includes [comma] dataString).
    + destruct (4 <=? _)%nat.
      * intros H. injection H as <-. apply pad8_length.
      * destruct (Nat.eqb_spec (length value) 8); [|discriminate].
        intros H. injection H as <-. rewrite length_map. assumption.
    + destruct (Nat.eqb_spec (length value) 8); [|discriminate].
      intros H. injection H as <-. rewrite length_map. assumption.
Qed.

Lemma handler_good (m : BLEManager) (value : option (list N)) :
  Forall goodEvent (handleCharacteristicValueChanged m value).
Proof.
  unfold handleCharacteristicValueChanged.
  destruct value as [bytes|]; [|constructor].
  destruct (isCollecting m); [|constructor].
  constructor; [exact I|].
  destruct (decodeFrame _ bytes) as [v|] eqn:E.
  - constructor; [|constructor]. exact (decodeFrame_eight _ _ _ E).
  - constructor; [exact I | constructor].
Qed.

Lemma simulatorTick_good (m : BLEManager) (noise : nat -> Z) :
  Forall goodEvent (simulatorTick m noise).
Proof.
  unfold simulatorTick. destruct (negb _); [constructor|].
  constructor; [exact I|]. constructor; [reflexivity | constructor].
Qed.

Lemma raw_good (evs : list Event) :
  forallb isRaw evs = true -> Forall goodEvent evs.
Proof.
  induction evs as [|e evs IH]; [constructor|].
  intros H. simpl in H. apply andb_true_iff in H as [He Hevs].
  constructor; [|apply IH, Hevs]. destruct e; try discriminate. exact I.
Qed.

Lemma connect_good (m : BLEManager) (d : BluetoothDevice) (o : GattOutcome) :
  Forall goodEvent (snd (fst (connect m d o))).
Proof.
  unfold connect, connectCatch.
  destruct (_ && _); [|repeat constructor].
  destruct o as [|stage e]; [repeat constructor|].
  repeat (destruct (messageIncludes _ e); [constructor|]).
  repeat constructor.
Qed.

Lemma disconnect_good (m : BLEManager) (w : WriteOutcome)
  (settled : bool) :
  Forall goodEvent (fst (snd (disconnect m w settled)))
  /\ forallb isRaw (snd (snd (disconnect m w settled))) = true.
Proof.
  unfold disconnect.
  pose proof (stopDataCollection_raw m w) as [Hraw Hlater].
  destruct (stopDataCollection m w) as [m1 [evs later]]. cbn [fst snd] in *.
  destruct settled; cbn [fst snd]; (split; [|assumption || reflexivity]).
  - constructor; [exact I|]. apply Forall_app. split; [apply raw_good, Hraw|].
    apply Forall_app. split; [apply raw_good, Hlater | repeat constructor].
  - constructor; [exact I|]. apply Forall_app. split; [apply raw_good, Hraw|].
    repeat constructor.
Qed.

(** The reports left pending are texts for [onRawDataReceived]. *)
Definition writesRaw (a : App) : Prop := forallb isRaw (writes a) = true.

Definition reachable (a : App) : Prop :=
  exists inputs, a = run App.initial inputs.

Lemma step_writesRaw (a : App) (input : jsstring * Action) :
  writesRaw a -> writesRaw (step a input).
Proof.
  unfold writesRaw. intros Ha. destruct input as [now act]. unfold step.
  destruct act.
  - destruct (_ || _); exact Ha.
  - destruct (_ && _); [|exact Ha].
    destruct (find _ _) as [d|]; [|exact Ha].
    unfold connectToDevice.
    destruct (connect (manager a) d o) as [[m evs] r]. exact Ha.
  - destruct (selectedDevice (screen a)); [|exact Ha].
    destruct (_ && _); [|exact Ha].
    unfold disconnectDevice.
    pose proof (disconnect_good (manager a) w settled) as [_ Hl].
    destruct (disconnect (manager a) w settled) as [m [evs later]].
    cbn [fst snd] in Hl. cbn [writes].
    rewrite forallb_app, Ha, Hl. reflexivity.
  - destruct (_ || _); [exact Ha|].
    unfold startMeasurement. destruct (negb _); [exact Ha|].
    destruct (startDataCollection (manager a) w) as [m evs]. exact Ha.
  - destruct (negb _); [exact Ha|].
    unfold stopMeasurement.
    pose proof (stopDataCollection_raw (manager a) w) as [_ Hl].
    destruct (stopDataCollection (manager a) w) as [m [evs later]].
    cbn [fst snd] in Hl. cbn [writes].
    rewrite forallb_app, Ha, Hl. reflexivity.
  - unfold countdown. destruct (timerRef a); [|exact Ha].
    destruct (_ <=? _); exact Ha.
  - unfold timeout. destruct (timeouts a); exact Ha.
  - destruct (_ && _); exact Ha.
  - destruct (collectionInterval (manager a)); exact Ha.
  - destruct (_ && _); [|exact Ha]. unfold linkLost.
    destruct (gattserverdisconnected (manager a)). exact Ha.
  - unfold writeSettles. destruct (nth_error _ _); [|exact Ha].
    cbn [writes]. rewrite forallb_forall in Ha.
    apply forallb_forall. intros x Hx. apply Ha.
    apply in_app_or in Hx as [Hx|Hx];
      [eapply In_firstn | eapply In_skipn_of]; exact Hx.
Qed.

Lemma run_writesRaw (inputs : list (jsstring * Action)) (a : App) :
  writesRaw a -> writesRaw (run a inputs).
Proof.
  revert a. induction inputs as [|i inputs IH]; intros a Ha; [exact Ha|].
  apply IH, step_writesRaw, Ha.
Qed.

Lemma reachable_writesRaw (a : App) : reachable a -> writesRaw a.
Proof. intros [inputs ->]. apply run_writesRaw. reflexivity. Qed.

Lemma handleConnectionChange_samples
  (info : option (jsstring * jsstring * bool)) (c : bool) (s : State) :
  pressureData (handleConnectionChange info c s) = pressureData s.
Proof.
  unfold handleConnectionChange. destruct c; [|reflexivity].
  destruct info as [[[dname did] b]|]; reflexivity.
Qed.

Lemma deliver_samples (now : jsstring) (m : BLEManager) (s : State)
  (e : Event) :
  goodEvent e -> eightValues (pressureData s) ->
  eightValues (pressureData (deliver now m s e)).
Proof.
  intros He Hs. destruct e as [data|c|rawData]; cbn [deliver].
  - unfold handleDataReceived. cbn. apply Forall_app. split; [exact Hs|].
    constructor; [exact He | constructor].
  - rewrite handleConnectionChange_samples. exact Hs.
  - exact Hs.
Qed.

Lemma deliverAll_samples (now : jsstring) (m : BLEManager)
  (evs : list Event) (s : State) :
  Forall goodEvent evs -> eightValues (pressureData s) ->
  eightValues (pressureData (deliverAll now m evs s)).
Proof.
  revert s. induction evs as [|e evs IH]; intros s Hevs Hs; [exact Hs|].
  inversion Hevs as [|? ? He Hrest]; subst.
  apply (IH _ Hrest), deliver_samples; assumption.
Qed.

Lemma completeTest_samples_kept (pd : list PressureData) (s : State) :
  pressureData (completeTest pd s) = pressureData s.
Proof. destruct pd; reflexivity. Qed.

(** The samples held by the screen, by the countdown and by the pending
    timeouts all have eight values. *)
Definition wellFormed (a : App) : Prop :=
  eightValues (pressureData (screen a))
  /\ (forall pd, timerRef a = Some pd -> eightValues pd)
  /\ Forall eightValues (timeouts a).

Lemma scan_samples (now : jsstring) (p : Platform) (a : App) :
  pressureData (screen (scanForDevices now p a)) = pressureData (screen a).
Proof.
  unfold scanForDevices. cbn [screen].
  destruct (BLE.scanForDevices p) as [devices|error].
  - destruct (0 <? length devices)%nat; [|reflexivity].
    cbn [setIsScanning pressureData].
    match goal with
    | |- pressureData (fold_left ?f devices ?s0) = _ =>
        change (pressureData (screen a)) with (pressureData s0);
        generalize s0
    end.
    induction devices as [|d devices IH]; intros s0; [reflexivity|].
    cbn [fold_left]. rewrite IH. reflexivity.
  - destruct (includes _ _); reflexivity.
Qed.

Lemma step_wellFormed (a : App) (input : jsstring * Action) :
  writesRaw a -> wellFormed a -> wellFormed (step a input).
Proof.
  intros Hw (Hs & Ht & Hq). destruct input as [now act]. unfold step.
  assert (Ha : wellFormed a) by (repeat split; assumption).
  destruct act.
  - destruct (_ || _); [exact Ha|].
    split; [rewrite scan_samples; exact Hs | split; assumption].
  - destruct (_ && _); [|exact Ha].
    destruct (find _ _) as [d|]; [|exact Ha].
    unfold connectToDevice.
    pose proof (connect_good (manager a) d o) as Hg.
    destruct (connect (manager a) d o) as [[m evs] r]. cbn [fst snd] in Hg.
    split; [|split; assumption]. cbn [screen].
    assert (Hd : eightValues
              (pressureData
                 (deliverAll now m evs
                    (log (js "[INFO] Attempting to connect to ESP32: "
                          ++ orElse (name d) (js "Unknown Device")
                          ++ js "...")
                       (setConnectionError [] (screen a))))))
      by (apply deliverAll_samples; [exact Hg | exact Hs]).
    destruct r; exact Hd.
  - destruct (selectedDevice (screen a)); [|exact Ha].
    destruct (_ && _); [|exact Ha].
    unfold disconnectDevice.
    pose proof (disconnect_good (manager a) w settled) as [Hg _].
    destruct (disconnect (manager a) w settled) as [m [evs later]].
    cbn [fst snd] in Hg.
    split; [|split; assumption].
    apply deliverAll_samples; [exact Hg | exact Hs].
  - destruct (_ || _); [exact Ha|].
    unfold startMeasurement. destruct (negb _); [exact Ha|].
    pose proof (startDataCollection_raw (manager a) w) as Hraw.
    destruct (startDataCollection (manager a) w) as [m evs].
    cbn [snd] in Hraw. split; [|split].
    + cbn [screen]. apply deliverAll_samples; [apply raw_good, Hraw|].
      constructor.
    + cbn [timerRef]. intros pd E. injection E as <-. exact Hs.
    + exact Hq.
  - destruct (negb _); [exact Ha|].
    unfold stopMeasurement.
    pose proof (stopDataCollection_raw (manager a) w) as [Hraw _].
    destruct (stopDataCollection (manager a) w) as [m [evs later]].
    cbn [snd] in Hraw. split; [|split].
    + cbn [screen]. rewrite completeTest_samples_kept.
      apply deliverAll_samples; [apply raw_good, Hraw | exact Hs].
    + cbn [timerRef]. discriminate.
    + exact Hq.
  - unfold countdown. destruct (timerRef a) as [pd|] eqn:E; [|exact Ha].
    destruct (_ <=? _); (split; [exact Hs | split; [exact Ht|]]).
    + cbn [timeouts]. apply Forall_app. split; [exact Hq|].
      constructor; [apply Ht; reflexivity | constructor].
    + exact Hq.
  - unfold timeout. destruct (timeouts a) as [|pd rest] eqn:E; [exact Ha|].
    inversion Hq; subst. split; [|split; assumption].
    cbn [screen]. rewrite completeTest_samples_kept. exact Hs.
  - destruct (_ && _); [|exact Ha].
    split; [|split; assumption].
    apply deliverAll_samples; [apply handler_good | exact Hs].
  - destruct (collectionInterval (manager a)); [|exact Ha].
    split; [|split; assumption].
    apply deliverAll_samples; [apply simulatorTick_good | exact Hs].
  - destruct (_ && _); [|exact Ha].
    split; [|split; assumption].
    apply deliverAll_samples; [repeat constructor | exact Hs].
  - unfold writeSettles. unfold writesRaw in Hw.
    destruct (nth_error (writes a) n) as [e|] eqn:En; [|exact Ha].
    rewrite forallb_forall in Hw.
    pose proof (Hw e (nth_error_In _ _ En)) as He.
    split; [|split; assumption]. cbn [screen].
    apply (deliverAll_samples now (manager a) [e]); [|exact Hs].
    apply raw_good. cbn [forallb]. rewrite He. reflexivity.
Qed.

Lemma run_wellFormed (inputs : list (jsstring * Action)) (a : App) :
  writesRaw a -> wellFormed a -> wellFormed (run a inputs).
Proof.
  revert a. induction inputs as [|i inputs IH]; intros a Hw Ha; [exact Ha|].
  apply IH; [apply step_writesRaw, Hw | apply step_wellFormed; assumption].
Qed.

(** In every state the application can reach, each collected sample has
    eight values. *)
Lemma reachable_wellFormed (a : App) : reachable a -> wellFormed a.
Proof.
  intros [inputs ->]. apply run_wellFormed; [reflexivity|].
  split; [constructor | split; [discriminate | constructor]].
Qed.

End Reachable.

(* ================================================================== *)
(** ** Completion with samples *)

Section Completion.

Definition meansOf (pd : list PressureData) : list Z :=
  map (fun j => roundDiv (channelTotal pd j) (Z.of_nat (length pd)))
      (seq 0 8).

(** Completion on a given list, and the early stop.  On a list of
    samples that is not empty, each of eight values, [completeTest]
    stores for every channel the mean of the channel over all samples
    rounded to the nearest integer, the rounded mean of these eight
    means as overall mean, and a channel holding the largest mean with
    that mean, and the session is then completed; the early stop does
    so on the collected samples in every reachable state that holds
    samples.  Started on the connected sensor, fed the three frames
    10..80, 20..90 and 30..100 and stopped early, the session shows the
    averages 20..90, the overall mean 55 and the maximum 90 at index 7.
    Which list the countdown that runs out completes on is settled in
    the section on the expiry. *)
Lemma complete_computes_averages :
  (forall (pd : list PressureData) (s : State),
      pd <> [] -> eightValues pd ->
      let n := Z.of_nat (length pd) in
      let s' := completeTest pd s in
      let averages := averagePressures s' in
      averages = meansOf pd
      /\ (forall j, (j < 8)%nat ->
            roundedQuotient (channelTotal pd j) n (nth j averages 0))
      /\ roundedQuotient (fold_right Z.add 0 averages) 8 (averagePressure s')
      /\ (exists i : nat,
            maxPressurePoint s' = (Z.of_nat i, nth i averages 0)
            /\ (i < 8)%nat
            /\ forall j, (j < 8)%nat -> nth j averages 0 <= nth i averages 0)
      /\ testCompleted s' = true
      /\ sessionState s' = Completed)
  /\ (forall (a : App) (now : jsstring) (w : WriteOutcome),
        reachable a -> pressureData (screen a) <> [] ->
        let a' := stopMeasurement now w a in
        averagePressures (screen a') = meansOf (pressureData (screen a))
        /\ sessionState (screen a') = Completed
        /\ isRecording (screen a') = false)
  /\ (let a := run linked
                 [(noon, ClickStart WriteOk);
                  (noon, frameOf "PRESSURE_RIGHT:10,20,30,40,50,60,70,80");
                  (noon, frameOf "PRESSURE_RIGHT:20,30,40,50,60,70,80,90");
                  (noon, frameOf "PRESSURE_RIGHT:30,40,50,60,70,80,90,100");
                  (noon, ClickStop WriteOk)] in
      map values (pressureData (screen a))
      = [[10; 20; 30; 40; 50; 60; 70; 80]; [20; 30; 40; 50; 60; 70; 80; 90];
         [30; 40; 50; 60; 70; 80; 90; 100]]
      /\ averagePressures (screen a) = [20; 30; 40; 50; 60; 70; 80; 90]
      /\ averagePressure (screen a) = 55
      /\ maxPressurePoint (screen a) = (7, 90)
      /\ sessionState (screen a) = Completed
      /\ isRecording (screen a) = false).
Proof.
  split; [|split; [|vm_compute; repeat split]].
  - intros pd s Hne Hpd n s' averages.
    destruct (completeTest_samples pd s Hne) as (Ha & Ht & Hm & Hc & _).
    fold s' in Ha, Ht, Hm, Hc. fold averages in Ha.
    assert (Hn : 0 < n) by (subst n; destruct pd; [congruence | simpl; lia]).
    assert (Hmeans : averages = meansOf pd)
      by (rewrite Ha; apply averagesOf_means, Hpd).
    assert (Hlen : length averages = 8%nat)
      by (rewrite Hmeans; unfold meansOf;
          rewrite length_map, length_seq; reflexivity).
    split; [exact Hmeans|]. split; [|split; [|split; [|split]]].
    + intros j Hj. rewrite Hmeans. unfold meansOf.
      rewrite (nth_indep _ 0 (roundDiv (channelTotal pd 0) n))
        by (rewrite length_map, length_seq; exact Hj).
      rewrite (map_nth (fun j => roundDiv (channelTotal pd j) n)), seq_nth
        by exact Hj.
      apply roundDiv_rounded, Hn.
    + rewrite Ht. rewrite <- Ha. unfold totalAverageOf, sumList.
      rewrite Hlen, fold_symmetric by (intros; lia).
      change (Z.of_nat 8) with 8. apply roundDiv_rounded. lia.
    + assert (Hin : In (Math_max averages) averages).
      { apply Math_max_in. intros E. rewrite E in Hlen. discriminate. }
      destruct (indexOf_first averages _ 0 Hin) as (i & Hi & Hlt & Hv & _).
      exists i. rewrite Hm, <- Ha, Hi, Hv. split; [reflexivity|].
      split; [lia|]. intros j Hj. apply Math_max_ge, nth_In. lia.
    + exact Hc.
    + unfold sessionState. rewrite Hc. reflexivity.
  - intros a now w Hr Hne a'.
    destruct (reachable_wellFormed a Hr) as (Hpd & _).
    subst a'. unfold stopMeasurement.
    pose proof (stopDataCollection_raw (manager a) w) as [Hraw _].
    destruct (stopDataCollection (manager a) w) as [m [evs later]].
    cbn [snd] in Hraw. cbn [screen].
    rewrite (deliverAll_raw _ _ _ _ Hraw).
    match goal with
    | |- context [completeTest ?pd ?s] =>
        destruct (completeTest_samples pd s Hne) as (Ha & _ & _ & Hc & Hrec & _)
    end.
    rewrite Ha. unfold sessionState. rewrite Hc, Hrec.
    split; [apply averagesOf_means, Hpd | split; reflexivity].
Qed.

Lemma complete_computes_averages_witness :
  let pd := [ {| timestamp := noon; values := [1; 2; 3; 4; 5; 6; 7; 8] |};
              {| timestamp := noon; values := [2; 2; 2; 2; 2; 2; 2; 255] |} ] in
  pd <> [] /\ eightValues pd
  /\ averagePressures (completeTest pd mounted) = [2; 2; 3; 3; 4; 4; 5; 132]
  /\ sessionState (completeTest pd mounted) = Completed.
Proof.
  intros pd.
  assert (Hne : pd <> []) by discriminate.
  assert (Hpd : eightValues pd) by (repeat constructor).
  destruct (proj1 complete_computes_averages pd mounted Hne Hpd)
    as (Ha & _ & _ & _ & _ & Hs).
  split; [exact Hne|]. split; [exact Hpd|].
  split; [rewrite Ha; reflexivity | exact Hs].
Defined.

End Completion.

(* ================================================================== *)
(** ** The frame handler: the three formats *)

Section Formats.

Definition byteSized (value : list N) : Prop :=
  forall b, In b value -> (b < 256)%N.

Lemma sampleOf_numbers (data : list Z) :
  length data = 8%nat -> inRange data ->
  sampleOf (map numberToString data) = data.
Proof.
  intros Hlen Hr. unfold sampleOf, pad8.
  rewrite map_map, (map_ext_in _ (fun v => v)).
  - rewrite map_id, firstn_all2 by lia. rewrite Hlen. apply app_nil_r.
  - intros v Hv. rewrite entryValue_number. apply clamp255_id, Hr, Hv.
Qed.

Lemma join_numbers_not_nil (data : list Z) :
  data <> [] -> inRange data -> join_comma (map numberToString data) <> [].
Proof.
  intros Hne Hr. destruct data as [|v data]; [congruence|].
  destruct (numberToString_digits v) as [_ Hv]; [apply Hr; left; reflexivity|].
  cbn [map]. destruct data as [|v' data].
  - exact Hv.
  - cbn [map]. rewrite join_comma_cons.
    destruct (numberToString v); [congruence | discriminate].
Qed.

(** X1.  A frame of either tag that lists eight integers from 0 to 255,
    alone or followed by a line break and anything after it, is read
    as exactly these eight values, whatever comes before the tag as
    long as it holds no letter P. *)
Theorem valid_frame_read_unchanged :
  forall (pre tag post : jsstring) (data : list Z) (value : list N),
    tag = tagLeft \/ tag = tagRight ->
    forallb (fun c => negb (N.eqb c 80)) pre = true ->
    length data = 8%nat -> inRange data -> endsLine post = true ->
    decodeFrame (pre ++ tag ++ join_comma (map numberToString data) ++ post)
                value
    = Some data.
Proof.
  intros pre tag post data value Htag Hpre Hlen Hr Hpost.
  destruct (numbers_join data Hr) as [Hc Hj].
  assert (Hne : join_comma (map numberToString data) <> []).
  { apply join_numbers_not_nil; [|exact Hr]. intros ->. discriminate. }
  assert (Hline : lineFree (join_comma (map numberToString data)) = true).
  { apply (forallb_imp listChar); [|exact Hj].
    intros c Hl. apply listChar_facts, Hl. }
  pose proof (regexMatch_tagged pre tag _ post Hpre Htag Hne Hline Hpost) as Hm.
  unfold decodeFrame. rewrite (taggedValues_join _ _ Hm Hc).
  rewrite (sampleOf_numbers data Hlen Hr). reflexivity.
Qed.

Lemma valid_frame_read_unchanged_witness :
  decodeFrame (js "L> " ++ tagRight
               ++ join_comma (map numberToString [0; 255; 7; 64; 128; 1; 99; 200])
               ++ [13; 10]%N) []
  = Some [0; 255; 7; 64; 128; 1; 99; 200].
Proof.
  apply (valid_frame_read_unchanged (js "L> ") tagRight [13; 10]%N
           [0; 255; 7; 64; 128; 1; 99; 200] []).
  - right. reflexivity.
  - reflexivity.
  - reflexivity.
  - intros v Hv. simpl in Hv.
    repeat (destruct Hv as [<-|Hv]; [lia|]). contradiction.
  - reflexivity.
Defined.

Lemma pressureValue_range (e : jsstring) : 0 <= pressureValue e <= 255.
Proof. rewrite pressureValue_entryValue. apply entryValue_range. Qed.

Lemma pad8_firstn_range (l : list Z) :
  (forall v, In v l -> 0 <= v <= 255) ->
  forall v, In v (pad8 (firstn 8 l)) -> 0 <= v <= 255.
Proof.
  intros Hl v Hv. unfold pad8 in Hv. apply in_app_or in Hv as [Hv|Hv].
  - apply Hl, (In_firstn _ _ _ _ Hv).
  - apply repeat_spec in Hv. lia.
Qed.

Lemma decodeFrame_range (dataString : jsstring) (value : list N)
  (v : list Z) :
  byteSized value -> decodeFrame dataString value = Some v -> inRange v.
Proof.
  intros Hb.
  assert (Htext : forall s x,
             In x (pad8 (firstn 8 (map pressureValue (split_comma s)))) ->
             0 <= x <= 255).
  { intros s. apply pad8_firstn_range. intros x Hx.
    apply in_map_iff in Hx. destruct Hx as (e & <- & _).
    apply pressureValue_range. }
  assert (Hraw : rawByteValues value = Some v -> inRange v).
  { unfold rawByteValues. destruct (_ =? _)%nat; [|discriminate].
    intros H. injection H as <-. intros x Hx.
    apply in_map_iff in Hx. destruct Hx as (b & <- & Hin).
    specialize (Hb b Hin). lia. }
  assert (Hcsv : match csvValues dataString with
                 | Some v0 => Some v0
                 | None => rawByteValues value
                 end = Some v -> inRange v).
  { unfold csvValues. destruct (includes [comma] dataString); [|exact Hraw].
    destruct (4 <=? _)%nat; [|exact Hraw].
    intros H. injection H as <-. intros x. apply Htext. }
  unfold decodeFrame, taggedValues.
  destruct (_ || _); [|exact Hcsv].
  destruct (regexMatch dataString); [|exact Hcsv].
  intros H. injection H as <-. intros x. apply Htext.
Qed.

(** X2.  Whatever bytes a notification carries, every sample the
    handler hands to [onDataReceived] has exactly eight values, each
    from 0 to 255; the handler first reports the decoded text and then
    hands over at most one sample. *)
Theorem handler_samples_well_formed :
  forall (m : BLEManager) (value : list N) (data : list Z),
    byteSized value ->
    In (onDataReceived data)
       (handleCharacteristicValueChanged m (Some value)) ->
    length data = 8%nat /\ inRange data
    /\ handleCharacteristicValueChanged m (Some value)
       = [onRawDataReceived (TextDecoder_decode value); onDataReceived data].
Proof.
  intros m value data Hb Hin.
  unfold handleCharacteristicValueChanged in *.
  destruct (isCollecting m); [|contradiction].
  destruct (decodeFrame (TextDecoder_decode value) value) as [v|] eqn:E.
  - destruct Hin as [H|[H|[]]]; [discriminate|]. injection H as ->.
    split; [exact (decodeFrame_eight _ _ _ E)|].
    split; [exact (decodeFrame_range _ _ _ Hb E) | reflexivity].
  - destruct Hin as [H|[H|[]]]; discriminate.
Qed.

Lemma handler_samples_well_formed_witness :
  byteSized [255; 0; 17; 200; 1; 2; 3; 128]%N
  /\ length [255; 0; 17; 200; 1; 2; 3; 128] = 8%nat
  /\ inRange [255; 0; 17; 200; 1; 2; 3; 128].
Proof.
  assert (Hb : byteSized [255; 0; 17; 200; 1; 2; 3; 128]%N).
  { intros b Hin. simpl in Hin.
    repeat (destruct Hin as [<-|Hin]; [reflexivity|]). contradiction. }
  split; [exact Hb|].
  destruct (handler_samples_well_formed collecting
              [255; 0; 17; 200; 1; 2; 3; 128]%N
              [255; 0; 17; 200; 1; 2; 3; 128] Hb) as (H1 & H2 & _).
  - right. left. reflexivity.
  - split; assumption.
Defined.

(** *** Comma-separated text without a tag *)

Lemma includes_single (c : N) (s : jsstring) :
  includes [c] s = true <-> In c s.
Proof.
  induction s as [|x s IH]; cbn [includes startsWith In].
  - split; [discriminate | contradiction].
  - rewrite andb_true_r, orb_true_iff, IH, N.eqb_eq. split.
    + intros [->|H]; [left; reflexivity | right; exact H].
    + intros [->|H]; [left; reflexivity | right; exact H].
Qed.

Lemma taggedValues_unmatched (dataString : jsstring) :
  regexMatch dataString = None -> taggedValues dataString = None.
Proof.
  intros H. unfold taggedValues. rewrite H. destruct (_ || _); reflexivity.
Qed.

Lemma split_trim_join_length (es : list jsstring) :
  es <> [] -> forallb commaFree es = true ->
  length (split_comma (trim (join_comma es))) = length es.
Proof.
  intros Hne Hc. pose proof (values_trim_join es Hne Hc) as H.
  apply (f_equal (@length Z)) in H. rewrite !length_map in H. exact H.
Qed.

(** X3.  A text without a tag match that is a list of at least two
    comma-separated entries is decoded by the same rule as a tagged
    list when it has four entries or more, and is reported as an
    unrecognized format, without any sample, when it has fewer and the
    payload is not eight bytes long. *)
Theorem untagged_list_by_entry_count :
  forall (m : BLEManager) (value : list N) (entries : list jsstring),
    isCollecting m = true ->
    regexMatch (TextDecoder_decode value) = None ->
    TextDecoder_decode value = join_comma entries ->
    forallb commaFree entries = true ->
    (2 <= length entries)%nat ->
    ((4 <= length entries)%nat ->
     handleCharacteristicValueChanged m (Some value)
     = [onRawDataReceived (TextDecoder_decode value);
        onDataReceived (sampleOf entries)])
    /\ ((length entries < 4)%nat -> length value <> 8%nat ->
        handleCharacteristicValueChanged m (Some value)
        = [onRawDataReceived (TextDecoder_decode value);
           onRawDataReceived
             (unrecognizedFormat (TextDecoder_decode value))]).
Proof.
  intros m value entries Hcol Hm Htext Hc Hlen.
  assert (Hne : entries <> []) by (intros ->; simpl in Hlen; lia).
  assert (Hcomma : includes [comma] (TextDecoder_decode value) = true).
  { rewrite Htext. apply includes_single.
    destruct entries as [|e [|e' es]]; try (simpl in Hlen; lia).
    rewrite join_comma_cons. apply in_or_app. right. left. reflexivity. }
  pose proof (split_trim_join_length entries Hne Hc) as Hsplit.
  pose proof (values_trim_join entries Hne Hc) as Hvals.
  unfold handleCharacteristicValueChanged, decodeFrame.
  rewrite Hcol, (taggedValues_unmatched _ Hm). unfold csvValues.
  rewrite Hcomma, length_firstn, length_map, Htext, Hsplit, Hvals.
  split.
  - intros H4.
    destruct (Nat.leb_spec 4 (Nat.min 8 (length entries))) as [_|L]; [|lia].
    reflexivity.
  - intros H4 H8.
    destruct (Nat.leb_spec 4 (Nat.min 8 (length entries))) as [L|_]; [lia|].
    unfold rawByteValues.
    destruct (Nat.eqb_spec (length value) 8) as [E|_]; [contradiction|].
    reflexivity.
Qed.

Lemma untagged_list_by_entry_count_witness :
  handleCharacteristicValueChanged collecting
    (Some (TextEncoder_encode (js "12, 400,x,-3,9")))
  = [onRawDataReceived (js "12, 400,x,-3,9");
     onDataReceived [12; 255; 0; 0; 9; 0; 0; 0]]
  /\ handleCharacteristicValueChanged collecting
       (Some (TextEncoder_encode (js "1,2,3")))
     = [onRawDataReceived (js "1,2,3");
        onRawDataReceived (unrecognizedFormat (js "1,2,3"))].
Proof.
  split.
  - exact (proj1 (untagged_list_by_entry_count collecting
                    (TextEncoder_encode (js "12, 400,x,-3,9"))
                    [js "12"; js " 400"; js "x"; js "-3"; js "9"]
                    eq_refl eq_refl eq_refl eq_refl (le_S _ _ (le_S _ _ (le_S _ _ (le_n 2)))))
                 (le_S _ _ (le_n 4))).
  - refine (proj2 (untagged_list_by_entry_count collecting
                     (TextEncoder_encode (js "1,2,3"))
                     [js "1"; js "2"; js "3"]
                     eq_refl eq_refl eq_refl eq_refl (le_S _ _ (le_n 2))) _ _).
    + apply le_n.
    + discriminate.
Defined.

(** *** Binary payloads *)

(** A decoder state from which the code point under construction ends
    at 128 or above. *)
Definition utf8Good (s : Utf8State) : bool :=
  (N.leb 128 (u_lower s) && N.leb (u_upper s) 191
   && N.leb (if (u_needed s <=? 1)%nat then 128 else 2)
            (u_cp s * 64 + (u_lower s - 128)))%N.

Lemma N_range_check (f : N -> bool) (n : nat) :
  forallb f (map N.of_nat (seq 0 n)) = true ->
  forall b, (b < N.of_nat n)%N -> f b = true.
Proof.
  intros H b Hb. rewrite forallb_forall in H. apply H.
  apply in_map_iff. exists (N.to_nat b). split; [apply N2Nat.id|].
  apply in_seq. lia.
Qed.

Lemma utf8Lead_spec (b : N) :
  (forall c, In c (fst (utf8Lead b)) ->
     (c = b /\ (b <= 127)%N) \/ c = replacement)
  /\ match snd (utf8Lead b) with
     | Some s => utf8Good s = true
     | None => True
     end.
Proof.
  destruct (N.ltb_spec b 245) as [Hb|Hb].
  - split.
    + intros c Hc.
      pose (f := fun b => forallb (fun c => (N.eqb c b && N.leb b 127)
                                         || N.eqb c replacement)
                               (fst (utf8Lead b))).
      assert (Hf : f b = true)
        by (apply (N_range_check f 245); [vm_compute; reflexivity | exact Hb]).
      unfold f in Hf. rewrite forallb_forall in Hf. specialize (Hf c Hc).
      apply orb_true_iff in Hf as [Hf|Hf].
      * apply andb_true_iff in Hf as [H1 H2].
        left. split; [apply N.eqb_eq, H1 | apply N.leb_le, H2].
      * right. apply N.eqb_eq, Hf.
    + pose (f := fun b => match snd (utf8Lead b) with
                          | Some s => utf8Good s
                          | None => true
                          end).
      assert (Hf : f b = true)
        by (apply (N_range_check f 245); [vm_compute; reflexivity | exact Hb]).
      unfold f in Hf. destruct (snd (utf8Lead b)); [exact Hf | exact I].
  - assert (E : utf8Lead b = ([replacement], None)).
    { unfold utf8Lead.
      destruct (N.leb_spec b 127); [lia|].
      destruct (N.leb_spec b 223); [lia|]. rewrite andb_false_r.
      destruct (N.leb_spec b 239); [lia|]. rewrite andb_false_r.
      destruct (N.leb_spec b 244); [lia|]. rewrite andb_false_r.
      reflexivity. }
    rewrite E. split; [|exact I].
    intros c [<-|[]]. right. reflexivity.
Qed.

Lemma continuation_low_bits (b : N) :
  (128 <= b)%N -> (b <= 191)%N -> N.land b 63 = (b - 128)%N.
Proof.
  intros H1 H2.
  pose (f := fun b => negb (N.leb 128 b && N.leb b 191)
                      || N.eqb (N.land b 63) (b - 128)).
  assert (Hf : f b = true)
    by (apply (N_range_check f 192); [vm_compute; reflexivity | lia]).
  unfold f in Hf.
  rewrite (proj2 (N.leb_le _ _) H1), (proj2 (N.leb_le _ _) H2) in Hf.
  cbn [andb negb orb] in Hf. apply N.eqb_eq, Hf.
Qed.

Lemma utf16_high (cp c : N) : (128 <= cp)%N -> In c (utf16 cp) -> (128 <= c)%N.
Proof.
  intros Hcp. unfold utf16. destruct (N.ltb_spec cp 65536).
  - intros [<-|[]]. exact Hcp.
  - intros [<-|[<-|[]]].
    + apply N.le_trans with 55296%N; [discriminate | apply N.le_add_r].
    + apply N.le_trans with 56320%N; [discriminate | apply N.le_add_r].
Qed.

(** An ASCII character of the decoded text is a byte of the payload. *)
Lemma utf8Decode_ascii_from_byte (bytes : list N) :
  forall (st : option Utf8State) (c : N),
    (c < 128)%N ->
    match st with Some s => utf8Good s = true | None => True end ->
    In c (utf8Decode st bytes) -> In c bytes.
Proof.
  induction bytes as [|b rest IH]; intros st c Hc Hst Hin.
  - destruct st; simpl in Hin; [|contradiction].
    destruct Hin as [<-|[]]. unfold replacement in Hc. lia.
  - destruct (utf8Lead_spec b) as [Hfst Hsnd].
    assert (Hlead : In c (let '(out, st') := utf8Lead b in
                          out ++ utf8Decode st' rest) -> In c (b :: rest)).
    { destruct (utf8Lead b) as [out st'] eqn:E. cbn [fst snd] in *.
      intros H. apply in_app_or in H as [H|H].
      - destruct (Hfst c H) as [[-> _] | ->]; [left; reflexivity|].
        unfold replacement in Hc. lia.
      - right. apply (IH st' c Hc Hsnd H). }
    cbn [utf8Decode] in Hin. destruct st as [s|]; [|exact (Hlead Hin)].
    unfold utf8Good in Hst.
    apply andb_true_iff in Hst as [Hst H3].
    apply andb_true_iff in Hst as [H1 H2].
    apply N.leb_le in H1, H2, H3.
    destruct (N.leb (u_lower s) b && N.leb b (u_upper s))%N eqn:Hrange.
    + apply andb_true_iff in Hrange as [R1 R2]. apply N.leb_le in R1, R2.
      rewrite (continuation_low_bits b) in Hin by lia.
      destruct (u_needed s) as [|[|k]] eqn:Hn.
      * cbn [Nat.leb] in H3. apply in_app_or in Hin as [Hin|Hin].
        -- apply utf16_high in Hin; lia.
        -- right. apply (IH None c Hc I Hin).
      * cbn [Nat.leb] in H3. apply in_app_or in Hin as [Hin|Hin].
        -- apply utf16_high in Hin; lia.
        -- right. apply (IH None c Hc I Hin).
      * cbn [Nat.leb] in H3. right. apply (IH _ c Hc) in Hin; [exact Hin|].
        unfold utf8Good. cbn [u_lower u_upper u_cp u_needed].
        apply andb_true_iff. split; [reflexivity|].
        apply N.leb_le. destruct (S k <=? 1)%nat; lia.
    + destruct (utf8Lead b) as [out st'] eqn:E.
      destruct Hin as [<-|Hin]; [unfold replacement in Hc; lia|].
      exact (Hlead Hin).
Qed.

Lemma TextDecoder_ascii_from_byte (bytes : list N) (c : N) :
  (c < 128)%N -> In c (TextDecoder_decode bytes) -> In c bytes.
Proof.
  intros Hc Hin. apply (utf8Decode_ascii_from_byte bytes None c Hc I).
  unfold TextDecoder_decode in Hin.
  destruct (utf8Decode None bytes) as [|x s]; [exact Hin|].
  destruct (N.eqb_spec x 65279) as [->|Hx].
  - right. exact Hin.
  - destruct x as [|q]; [exact Hin|].
    repeat (destruct q as [q|q|]; try exact Hin). congruence.
Qed.

(** X4.  A payload that holds neither the byte of a comma (44) nor the
    byte of the letter P (80) is a sample exactly when it is eight
    bytes long, and the sample is then the eight bytes themselves; at
    any other length, the empty payload included, the handler reports
    an unrecognized format and no sample. *)
Theorem binary_payload_by_length :
  forall (m : BLEManager) (value : list N),
    isCollecting m = true -> ~ In 44%N value -> ~ In 80%N value ->
    (length value = 8%nat ->
     handleCharacteristicValueChanged m (Some value)
     = [onRawDataReceived (TextDecoder_decode value);
        onDataReceived (map Z.of_N value)])
    /\ (length value <> 8%nat ->
        handleCharacteristicValueChanged m (Some value)
        = [onRawDataReceived (TextDecoder_decode value);
           onRawDataReceived
             (unrecognizedFormat (TextDecoder_decode value))]).
Proof.
  intros m value Hcol Hcomma HP.
  assert (Hm : regexMatch (TextDecoder_decode value) = None).
  { rewrite <- (app_nil_r (TextDecoder_decode value)), regexMatch_skip;
      [reflexivity|].
    apply forallb_forall. intros c Hc. apply negb_true_iff, N.eqb_neq.
    intros ->. apply HP, (TextDecoder_ascii_from_byte value 80);
      [reflexivity | exact Hc]. }
  assert (Hno : includes [comma] (TextDecoder_decode value) = false).
  { destruct (includes [comma] (TextDecoder_decode value)) eqn:E;
      [|reflexivity].
    exfalso. apply includes_single in E.
    apply Hcomma, (TextDecoder_ascii_from_byte value 44);
      [reflexivity | exact E]. }
  unfold handleCharacteristicValueChanged, decodeFrame.
  rewrite Hcol, (taggedValues_unmatched _ Hm). unfold csvValues, rawByteValues.
  rewrite Hno. split; intros H.
  - rewrite H. reflexivity.
  - destruct (Nat.eqb_spec (length value) 8); [contradiction | reflexivity].
Qed.

Lemma binary_payload_by_length_witness :
  handleCharacteristicValueChanged collecting
    (Some [50; 100; 150; 200; 250; 255; 128; 64]%N)
  = [onRawDataReceived
       (TextDecoder_decode [50; 100; 150; 200; 250; 255; 128; 64]%N);
     onDataReceived [50; 100; 150; 200; 250; 255; 128; 64]]
  /\ handleCharacteristicValueChanged collecting (Some [])
     = [onRawDataReceived []; onRawDataReceived (unrecognizedFormat [])].
Proof.
  assert (H1 : ~ In 44%N [50; 100; 150; 200; 250; 255; 128; 64]%N)
    by (simpl; intros H; repeat (destruct H as [H|H]; [discriminate|]);
        exact H).
  assert (H2 : ~ In 80%N [50; 100; 150; 200; 250; 255; 128; 64]%N)
    by (simpl; intros H; repeat (destruct H as [H|H]; [discriminate|]);
        exact H).
  split.
  - exact (proj1 (binary_payload_by_length collecting _ eq_refl H1 H2) eq_refl).
  - refine (proj2 (binary_payload_by_length collecting [] eq_refl _ _) _).
    + intros [].
    + intros [].
    + discriminate.
Defined.

End Formats.

(* ================================================================== *)
(** ** The link manager in use *)

Section ManagerInUse.

Lemma deliverAll_app (now : jsstring) (m : BLEManager)
  (evs1 evs2 : list Event) (s : State) :
  deliverAll now m (evs1 ++ evs2) s
  = deliverAll now m evs2 (deliverAll now m evs1 s).
Proof. apply fold_left_app. Qed.

Definition disconnecting : jsstring :=
  utf16 128268 ++ js " Disconnecting from ESP32...".

Definition sentStop : jsstring :=
  utf16 128225 ++ js " Sent STOP command to ESP32".

(** What the log says of a write. *)
Definition writeReport (sent failed : jsstring) (w : WriteOutcome)
  : jsstring :=
  match w with
  | WriteOk => sent
  | WriteFails error => failed ++ thrownText error
  end.

(** The report of the STOP write of [stopDataCollection], when one is
    written. *)
Definition stopWrite (m : BLEManager) (w : WriteOutcome) : list Event :=
  if characteristic m && negb (deviceIsDemo m)
  then [onRawDataReceived
          (writeReport sentStop
             ([10060%N] ++ js " Error sending stop command: ") w)]
  else [].

Lemma stopDataCollection_unfold (m : BLEManager) (w : WriteOutcome) :
  stopDataCollection m w
  = (setInterval false (setCollecting false m),
     ([onRawDataReceived stoppingCollection], stopWrite m w)).
Proof.
  unfold stopDataCollection, stopWrite, sendStopCommand, sendCommand.
  change (characteristic (setInterval false (setCollecting false m)))
    with (characteristic m).
  change (deviceIsDemo (setInterval false (setCollecting false m)))
    with (deviceIsDemo m).
  destruct (characteristic m); [|reflexivity].
  destruct (deviceIsDemo m); [reflexivity|]. destruct w; reflexivity.
Qed.

Lemma disconnect_unfold (m : BLEManager) (w : WriteOutcome)
  (settled : bool) :
  disconnect m w settled
  = (BLE.initial,
     if settled
     then ([onRawDataReceived disconnecting;
            onRawDataReceived stoppingCollection]
           ++ stopWrite m w ++ [onConnectionChange false], [])
     else ([onRawDataReceived disconnecting;
            onRawDataReceived stoppingCollection; onConnectionChange false],
           stopWrite m w)).
Proof.
  unfold disconnect. rewrite stopDataCollection_unfold.
  destruct settled; reflexivity.
Qed.




Lemma connect_demo_unfold (m : BLEManager) (d : BluetoothDevice)
  (o : GattOutcome) :
  gatt d && negb (isDemoId (id d)) = false ->
  connect m d o
  = ({| device := Some demoDevice; server := server m; service := service m;
        characteristic := characteristic m; isCollecting := isCollecting m;
        collectionInterval := collectionInterval m;
        subscribed := subscribed m |},
     [onConnectionChange true; onRawDataReceived demoModeActivated;
      onConnectionChange true],
     Resolved tt).
Proof. intros H. unfold connect. rewrite H. reflexivity. Qed.

(** X6.  Connecting a handle without GATT server, or one whose id
    starts with "demo-", never fails and performs no GATT operation,
    whatever the platform would have answered: the manager keeps its
    server, service and characteristic, holds the device "demo-device"
    and reports a connection; the screen shows the connection with the
    selected handle and no error, and a collection started next arms
    the simulator and writes no command. *)
Theorem demo_handle_connects_without_gatt :
  forall (now : jsstring) (w : WriteOutcome) (a : App)
         (d : BluetoothDevice) (o : GattOutcome),
    gatt d = false \/ isDemoId (id d) = true ->
    let a' := connectToDevice now d o a in
    snd (connect (manager a) d o) = Resolved tt
    /\ device (manager a') = Some demoDevice
    /\ server (manager a') = server (manager a)
    /\ characteristic (manager a') = characteristic (manager a)
    /\ subscribed (manager a') = subscribed (manager a)
    /\ isConnected (manager a') = true
    /\ bleConnected (screen a') = true
    /\ selectedDevice (screen a') = Some d
    /\ connectionError (screen a') = []
    /\ startDataCollection (manager a') w
       = (setInterval true (setCollecting true (manager a')),
          [onRawDataReceived startingCollection;
           onRawDataReceived
             (utf16 127917 ++ js " Simulating ESP32 pressure data...")]).
Proof.
  intros now w a d o Hd a'.
  assert (Hg : gatt d && negb (isDemoId (id d)) = false).
  { destruct Hd as [H|H]; rewrite H; [reflexivity|].
    cbn [negb]. apply andb_false_r. }
  assert (Ha : a' = connectToDevice now d o a) by reflexivity.
  unfold connectToDevice in Ha. rewrite (connect_demo_unfold _ _ _ Hg) in Ha.
  split; [rewrite (connect_demo_unfold _ _ _ Hg); reflexivity|].
  split; [rewrite Ha; reflexivity|].
  split; [rewrite Ha; reflexivity|].
  split; [rewrite Ha; reflexivity|].
  split; [rewrite Ha; reflexivity|].
  split; [rewrite Ha; reflexivity|].
  split; [rewrite Ha; reflexivity|].
  split; [rewrite Ha; reflexivity|].
  split; [rewrite Ha; reflexivity|].
  apply startDataCollection_demo. rewrite Ha. reflexivity.
Qed.

Lemma demo_handle_connects_without_gatt_witness :
  let d := {| id := js "demo-esp32-left"; name := Some (js "ESP32-FootSensor-L");
              gatt := false |} in
  (gatt d = false \/ isDemoId (id d) = true)
  /\ isConnected
       (manager (connectToDevice noon d
                   (GattFails AtConnect notPermitted) App.initial)) = true
  /\ bleConnected
       (screen (connectToDevice noon d
                  (GattFails AtConnect notPermitted) App.initial)) = true.
Proof.
  intros d.
  assert (Hd : gatt d = false \/ isDemoId (id d) = true)
    by (left; reflexivity).
  destruct (demo_handle_connects_without_gatt noon WriteOk App.initial d
              (GattFails AtConnect notPermitted) Hd)
    as (_ & _ & _ & _ & _ & H1 & H2 & _).
  split; [exact Hd | split; [exact H1 | exact H2]].
Defined.



End ManagerInUse.

(* ================================================================== *)
(** ** The screen in use *)

Section ScreenInUse.




(** X9.  Starting a measurement on a connected screen clears the
    samples, the averages and the completion mark, sets the countdown
    to 20 and begins recording with the manager collecting; the last
    live values, the maximum point and the overall mean of an earlier
    session are kept as they were.  Without a connection the start
    changes nothing. *)
Theorem start_resets_session :
  forall (now : jsstring) (w : WriteOutcome) (a : App),
    let a' := startMeasurement now w a in
    (bleConnected (screen a) = true ->
     pressureData (screen a') = []
     /\ averagePressures (screen a') = zeros8
     /\ testCompleted (screen a') = false
     /\ isRecording (screen a') = true
     /\ timeRemaining (screen a') = 20
     /\ sessionState (screen a') = Recording
     /\ isCollecting (manager a') = true
     /\ timerRef a' <> None
     /\ currentPressures (screen a') = currentPressures (screen a)
     /\ maxPressurePoint (screen a') = maxPressurePoint (screen a)
     /\ averagePressure (screen a') = averagePressure (screen a)
     /\ bleConnected (screen a') = true)
    /\ (bleConnected (screen a) = false -> a' = a).
Proof.
  intros now w a a'. split.
  - intros Hb.
    assert (Ha : a' = startMeasurement now w a) by reflexivity.
    unfold startMeasurement in Ha. rewrite Hb in Ha. cbn [negb] in Ha.
    pose proof (startDataCollection_raw (manager a) w) as Hraw.
    pose proof (startDataCollection_flag (manager a) w) as Hflag.
    destruct (startDataCollection (manager a) w) as [m evs].
    cbn [fst snd] in *. rewrite (deliverAll_raw _ _ _ _ Hraw) in Ha.
    split; [rewrite Ha; reflexivity|].
    split; [rewrite Ha; reflexivity|].
    split; [rewrite Ha; reflexivity|].
    split; [rewrite Ha; reflexivity|].
    split; [rewrite Ha; reflexivity|].
    split; [rewrite Ha; reflexivity|].
    split; [rewrite Ha; exact Hflag|].
    split; [rewrite Ha; discriminate|].
    split; [rewrite Ha; reflexivity|].
    split; [rewrite Ha; reflexivity|].
    split; [rewrite Ha; reflexivity|].
    rewrite Ha. cbn. exact Hb.
  - intros Hb. unfold a', startMeasurement. rewrite Hb. reflexivity.
Qed.

Lemma start_resets_session_witness :
  let a := run linked firstSession in
  bleConnected (screen a) = true
  /\ sessionState (screen a) = Completed
  /\ pressureData (screen (startMeasurement noon WriteOk a)) = []
  /\ sessionState (screen (startMeasurement noon WriteOk a)) = Recording
  /\ maxPressurePoint (screen (startMeasurement noon WriteOk a)) = (7, 90).
Proof.
  intros a.
  assert (Hb : bleConnected (screen a) = true) by (vm_compute; reflexivity).
  assert (Hm : maxPressurePoint (screen a) = (7, 90))
    by (vm_compute; reflexivity).
  destruct (proj1 (start_resets_session noon WriteOk a) Hb)
    as (H1 & _ & _ & _ & _ & H2 & _ & _ & _ & H3 & _).
  split; [exact Hb|]. split; [vm_compute; reflexivity|].
  split; [exact H1|]. split; [exact H2|]. rewrite H3. exact Hm.
Defined.

(** X10.  A scan never ends with an empty device list: it yields the
    one device the user chose, or the two demo devices, or it fails
    with the cancellation message; so after a scan the screen either
    offers at least one device with no error shown, or shows the
    cancellation as the connection error and keeps the list it had.
    In both cases the scanning mark is cleared. *)
Theorem scan_offers_a_device_or_reports :
  forall (now : jsstring) (p : Platform) (a : App),
    let a' := App.scanForDevices now p a in
    isScanning (screen a') = false
    /\ manager a' = manager a
    /\ ((exists d, BLE.scanForDevices p = Resolved [d]
                   /\ availableDevices (screen a') = [d]
                   /\ connectionError (screen a') = [])
        \/ (BLE.scanForDevices p = Resolved getMockDevices
            /\ availableDevices (screen a') = getMockDevices
            /\ connectionError (screen a') = [])
        \/ (BLE.scanForDevices p
            = Rejected (newError (js "Device selection cancelled by user"))
            /\ availableDevices (screen a') = availableDevices (screen a)
            /\ connectionError (screen a')
               = js "Device selection cancelled by user")).
Proof.
  intros now p a a'.
  assert (Hcases :
            (exists d, BLE.scanForDevices p = Resolved [d])
            \/ BLE.scanForDevices p = Resolved getMockDevices
            \/ BLE.scanForDevices p
               = Rejected (newError (js "Device selection cancelled by user"))).
  { unfold BLE.scanForDevices.
    destruct (negb (bluetooth p)).
    - right. left. reflexivity.
    - destruct (filtered p) as [d|e]; [left; exists d; reflexivity|].
      destruct (messageIncludes _ e); [right; right; reflexivity|].
      destruct (acceptAll p) as [d|e2];
        [left; exists d; reflexivity | right; left; reflexivity]. }
  assert (Ha : a' = App.scanForDevices now p a) by reflexivity.
  unfold App.scanForDevices in Ha.
  destruct Hcases as [[d Hd]|[Hd|Hd]]; rewrite Hd in Ha.
  - split; [rewrite Ha; reflexivity|]. split; [rewrite Ha; reflexivity|].
    left. exists d. split; [exact Hd|].
    split; rewrite Ha; reflexivity.
  - split; [rewrite Ha; reflexivity|]. split; [rewrite Ha; reflexivity|].
    right. left. split; [exact Hd|]. split; rewrite Ha; reflexivity.
  - split; [rewrite Ha; reflexivity|]. split; [rewrite Ha; reflexivity|].
    right. right. split; [exact Hd|]. split; rewrite Ha; reflexivity.
Qed.

(** X11.  While the manager collects, a notification that decodes to a
    sample appends exactly that sample, stamped with the time, to the
    collected samples, makes it the live values and logs the text
    received and the values; a notification in no known format adds
    the text and the format error to the log and touches neither the
    samples nor the live values.  Results of the session are never
    touched by a notification. *)
Theorem notification_appends_or_skips :
  forall (now : jsstring) (value : list N) (a : App),
    isCollecting (manager a) = true ->
    let text := TextDecoder_decode value in
    let a' := notify now (Some value) a in
    match decodeFrame text value with
    | Some v =>
        pressureData (screen a')
        = pressureData (screen a) ++ [{| timestamp := now; values := v |}]
        /\ currentPressures (screen a') = v
        /\ consoleLog (screen a')
           = consoleLog (screen a)
             ++ [stamp now text;
                 stamp now (js "PRESSURE_RIGHT: "
                            ++ join_comma (map numberToString v))]
    | None =>
        pressureData (screen a') = pressureData (screen a)
        /\ currentPressures (screen a') = currentPressures (screen a)
        /\ consoleLog (screen a')
           = consoleLog (screen a)
             ++ [stamp now text; stamp now (unrecognizedFormat text)]
    end
    /\ averagePressures (screen a') = averagePressures (screen a)
    /\ testCompleted (screen a') = testCompleted (screen a)
    /\ isRecording (screen a') = isRecording (screen a)
    /\ manager a' = manager a.
Proof.
  intros now value a Hcol text a'.
  assert (Ha : a' = notify now (Some value) a) by reflexivity.
  unfold notify, handleCharacteristicValueChanged in Ha.
  rewrite Hcol in Ha. fold text in Ha.
  destruct (decodeFrame text value) as [v|].
  - assert (Hlog : consoleLog (screen a')
                   = (consoleLog (screen a) ++ [stamp now text])
                     ++ [stamp now (js "PRESSURE_RIGHT: "
                                    ++ join_comma (map numberToString v))])
      by (rewrite Ha; reflexivity).
    rewrite <- app_assoc in Hlog.
    split; [split; [rewrite Ha; reflexivity|
                    split; [rewrite Ha; reflexivity | exact Hlog]]|].
    repeat split; rewrite Ha; reflexivity.
  - assert (Hlog : consoleLog (screen a')
                   = (consoleLog (screen a) ++ [stamp now text])
                     ++ [stamp now (unrecognizedFormat text)])
      by (rewrite Ha; reflexivity).
    rewrite <- app_assoc in Hlog.
    split; [split; [rewrite Ha; reflexivity|
                    split; [rewrite Ha; reflexivity | exact Hlog]]|].
    repeat split; rewrite Ha; reflexivity.
Qed.

Lemma notification_appends_or_skips_witness :
  let a := run linked [(noon, ClickStart WriteOk)] in
  isCollecting (manager a) = true
  /\ pressureData
       (screen (notify noon (Some (TextEncoder_encode (js "hello"))) a))
     = pressureData (screen a)
  /\ manager (notify noon (Some (TextEncoder_encode (js "hello"))) a)
     = manager a.
Proof.
  intros a.
  assert (Hc : isCollecting (manager a) = true) by (vm_compute; reflexivity).
  pose proof (notification_appends_or_skips noon
                (TextEncoder_encode (js "hello")) a Hc) as H.
  cbv zeta in H.
  change (decodeFrame (TextDecoder_decode (TextEncoder_encode (js "hello")))
                      (TextEncoder_encode (js "hello")))
    with (@None (list Z)) in H.
  destruct H as ((H1 & _) & _ & _ & _ & H2).
  split; [exact Hc|]. split; [exact H1 | exact H2].
Defined.

End ScreenInUse.

(* ================================================================== *)
(** ** What every reachable state satisfies *)

Section Consistency.

Definition timerArmed (a : App) : bool :=
  match timerRef a with
  | Some _ => true
  | None => false
  end.

(** The screen and the manager agree: recording goes with collecting
    and with an armed countdown, the countdown stays within 0..20, the
    two value vectors have eight entries, and a connection shown is a
    connection the manager reports. *)
Definition consistent (a : App) : Prop :=
  isRecording (screen a) = isCollecting (manager a)
  /\ timerArmed a = isRecording (screen a)
  /\ 0 <= timeRemaining (screen a) <= 20
  /\ length (currentPressures (screen a)) = 8%nat
  /\ length (averagePressures (screen a)) = 8%nat
  /\ (bleConnected (screen a) = true -> isConnected (manager a) = true).

(** The cells no callback of the manager writes. *)
Definition sameSession (s s' : State) : Prop :=
  isRecording s' = isRecording s
  /\ timeRemaining s' = timeRemaining s
  /\ averagePressures s' = averagePressures s
  /\ testCompleted s' = testCompleted s.

Lemma sameSession_refl (s : State) : sameSession s s.
Proof. repeat split. Qed.

Lemma sameSession_trans (s1 s2 s3 : State) :
  sameSession s1 s2 -> sameSession s2 s3 -> sameSession s1 s3.
Proof.
  intros (A1 & A2 & A3 & A4) (B1 & B2 & B3 & B4).
  repeat split; congruence.
Qed.

Lemma deliver_sameSession (now : jsstring) (m : BLEManager) (s : State)
  (e : Event) : sameSession s (deliver now m s e).
Proof.
  destruct e as [data|c|rawData]; cbn [deliver].
  - repeat split.
  - unfold handleConnectionChange. destruct c; [|repeat split].
    destruct (getDeviceInfo m) as [[[dname did] b]|]; repeat split.
  - repeat split.
Qed.

Lemma deliverAll_sameSession (now : jsstring) (m : BLEManager)
  (evs : list Event) (s : State) : sameSession s (deliverAll now m evs s).
Proof.
  revert s. induction evs as [|e evs IH]; intros s; [apply sameSession_refl|].
  apply (sameSession_trans _ (deliver now m s e)).
  - apply deliver_sameSession.
  - apply IH.
Qed.

Lemma deliverAll_current (now : jsstring) (m : BLEManager)
  (evs : list Event) (s : State) :
  Forall goodEvent evs -> length (currentPressures s) = 8%nat ->
  length (currentPressures (deliverAll now m evs s)) = 8%nat.
Proof.
  revert s. induction evs as [|e evs IH]; intros s Hevs Hs; [exact Hs|].
  inversion Hevs as [|? ? He Hrest]; subst.
  apply (IH _ Hrest). destruct e as [data|c|rawData]; cbn [deliver].
  - exact He.
  - unfold handleConnectionChange. destruct c; [|exact Hs].
    destruct (getDeviceInfo m) as [[[dname did] b]|]; exact Hs.
  - exact Hs.
Qed.

Definition noConnection (e : Event) : bool :=
  match e with
  | onConnectionChange _ => false
  | _ => true
  end.

Lemma deliverAll_ble (now : jsstring) (m : BLEManager)
  (evs : list Event) (s : State) :
  forallb noConnection evs = true ->
  bleConnected (deliverAll now m evs s) = bleConnected s.
Proof.
  revert s. induction evs as [|e evs IH]; intros s H; [reflexivity|].
  cbn [forallb] in H. apply andb_true_iff in H as [He Hevs].
  unfold deliverAll in *. cbn [fold_left]. rewrite (IH _ Hevs).
  destruct e; [reflexivity | discriminate | reflexivity].
Qed.

Lemma handler_noConnection (m : BLEManager) (value : option (list N)) :
  forallb noConnection (handleCharacteristicValueChanged m value) = true.
Proof.
  unfold handleCharacteristicValueChanged.
  destruct value; [|reflexivity]. destruct (isCollecting m); [|reflexivity].
  destruct (decodeFrame _ _); reflexivity.
Qed.

Lemma simulatorTick_noConnection (m : BLEManager) (noise : nat -> Z) :
  forallb noConnection (simulatorTick m noise) = true.
Proof. unfold simulatorTick. destruct (negb _); reflexivity. Qed.

Lemma completeTest_keeps (pd : list PressureData) (s : State) :
  let s' := completeTest pd s in
  isRecording s' = isRecording s
  /\ timeRemaining s' = timeRemaining s
  /\ currentPressures s' = currentPressures s
  /\ bleConnected s' = bleConnected s
  /\ (length (averagePressures s) = 8%nat ->
      length (averagePressures s') = 8%nat).
Proof.
  destruct pd as [|d pd]; [repeat split; auto|].
  repeat split. intros _.
  change (averagePressures (completeTest (d :: pd) s))
    with (averagesOf (d :: pd)).
  unfold averagesOf. rewrite length_map. apply sumChannels_length.
Qed.

Lemma scan_keeps (now : jsstring) (p : Platform) (a : App) :
  let s' := screen (App.scanForDevices now p a) in
  sameSession (screen a) s'
  /\ currentPressures s' = currentPressures (screen a)
  /\ bleConnected s' = bleConnected (screen a).
Proof.
  unfold App.scanForDevices. cbn [screen].
  destruct (BLE.scanForDevices p) as [devices|error].
  - destruct (0 <? length devices)%nat; [|repeat split].
    cbn zeta.
    match goal with
    | |- sameSession _ (setIsScanning false (fold_left ?f devices ?s0)) /\ _ =>
        assert (H : sameSession (screen a) s0
                    /\ currentPressures s0 = currentPressures (screen a)
                    /\ bleConnected s0 = bleConnected (screen a))
          by (repeat split);
        revert H; generalize s0
    end.
    induction devices as [|d devices IH]; intros s0 H.
    + destruct H as ((H1 & H2 & H3 & H4) & H5 & H6). repeat split; assumption.
    + cbn [fold_left]. apply IH.
      destruct H as ((H1 & H2 & H3 & H4) & H5 & H6). repeat split; assumption.
  - destruct (includes _ _); repeat split.
Qed.

Lemma connect_result (m : BLEManager) (d : BluetoothDevice) (o : GattOutcome) :
  match snd (connect m d o) with
  | Resolved _ => isConnected (fst (fst (connect m d o))) = true
  | Rejected _ => snd (fst (connect m d o)) = []
  end.
Proof.
  unfold connect, connectCatch.
  destruct (gatt d && negb (isDemoId (id d))) eqn:Hg; [|reflexivity].
  apply andb_true_iff in Hg as [_ Hid]. apply negb_true_iff in Hid.
  destruct o as [|stage e].
  - cbn [fst snd]. unfold isConnected.
    change (deviceIsDemo (reached m d 4)) with (isDemoId (id d)).
    rewrite Hid. reflexivity.
  - repeat (destruct (messageIncludes _ e); [reflexivity|]). reflexivity.
Qed.

Lemma startDataCollection_link (m : BLEManager) (w : WriteOutcome) :
  isConnected (fst (startDataCollection m w)) = isConnected m.
Proof. unfold startDataCollection. destruct (_ || _); reflexivity. Qed.

Lemma stopDataCollection_link (m : BLEManager) (w : WriteOutcome) :
  isConnected (fst (stopDataCollection m w)) = isConnected m.
Proof. reflexivity. Qed.

Lemma step_consistent (a : App) (input : jsstring * Action) :
  writesRaw a -> consistent a -> consistent (step a input).
Proof.
  intros Hw Ha. pose proof Ha as (Hrc & Hta & Htr & Hcp & Hap & Hbc).
  destruct input as [now act]. unfold step. destruct act.
  - (* scan *)
    destruct (_ || _); [exact Ha|].
    destruct (scan_keeps now p a) as ((S1 & S2 & S3 & _) & S5 & S6).
    unfold consistent.
    change (manager (App.scanForDevices now p a)) with (manager a).
    change (timerArmed (App.scanForDevices now p a)) with (timerArmed a).
    rewrite S1, S2, S3, S5, S6. repeat split; tauto.
  - (* connect *)
    destruct (_ && _) eqn:Hguard; [|exact Ha].
    destruct (find _ _) as [d|]; [|exact Ha].
    apply andb_true_iff in Hguard as [Hguard _].
    apply andb_true_iff in Hguard as [_ Hnb]. apply negb_true_iff in Hnb.
    unfold connectToDevice.
    pose proof (connect_good (manager a) d o) as Hg.
    pose proof (connect_keeps_collecting (manager a) d o) as Hk.
    pose proof (connect_result (manager a) d o) as Hr.
    destruct (connect (manager a) d o) as [[m evs] r].
    cbn [fst snd] in Hg, Hk, Hr.
    match goal with
    | |- consistent {| manager := _; screen := ?sc; timerRef := _;
                       timeouts := _; writes := _ |} =>
        assert (Hsc : sameSession (screen a) sc
                      /\ length (currentPressures sc) = 8%nat
                      /\ (bleConnected sc = true -> isConnected m = true))
    end.
    { match goal with
      | |- context [deliverAll now m evs ?s0] =>
          pose proof (deliverAll_sameSession now m evs s0) as Hd;
          pose proof (deliverAll_current now m evs s0 Hg Hcp) as Hc0
      end.
      destruct r as [u|e].
      - split; [exact Hd|]. split; [exact Hc0|]. intros _. exact Hr.
      - split; [exact Hd|]. split; [exact Hc0|].
        rewrite Hr. cbn. rewrite Hnb. discriminate. }
    destruct Hsc as ((S1 & S2 & S3 & _) & S5 & S6).
    unfold consistent. cbn [manager screen]. unfold timerArmed. cbn [timerRef].
    fold (timerArmed a). rewrite S1, S2, S3, Hk. repeat split; tauto.
  - (* disconnect *)
    destruct (selectedDevice (screen a)); [|exact Ha].
    destruct (_ && _) eqn:Hguard; [|exact Ha].
    apply andb_true_iff in Hguard as [_ Hnr]. apply negb_true_iff in Hnr.
    unfold disconnectDevice.
    pose proof (disconnect_good (manager a) w settled) as [Hg _].
    rewrite disconnect_unfold in *.
    assert (Hcase :
      forall evs later,
        Forall goodEvent evs ->
        bleConnected (deliverAll now BLE.initial evs (screen a)) = false ->
        consistent {| manager := BLE.initial;
                      screen := deliverAll now BLE.initial evs (screen a);
                      timerRef := timerRef a; timeouts := timeouts a;
                      writes := writes a ++ later |}).
    { intros evs later Hevs S6.
      pose proof (deliverAll_sameSession now BLE.initial evs (screen a))
        as (S1 & S2 & S3 & _).
      pose proof (deliverAll_current now BLE.initial evs (screen a) Hevs Hcp)
        as S5.
      unfold consistent. cbn [manager screen]. unfold timerArmed.
      cbn [timerRef]. fold (timerArmed a). rewrite S1, S2, S3, S6, Hta, Hnr.
      repeat split; try tauto; try discriminate. }
    destruct settled; cbn [fst snd] in Hg; apply Hcase; try exact Hg.
    + rewrite app_assoc, deliverAll_app. reflexivity.
    + reflexivity.
  - (* start *)
    destruct (_ || _) eqn:Hguard; [exact Ha|].
    apply orb_false_iff in Hguard as [Hb Hnr].
    apply negb_false_iff in Hb.
    unfold startMeasurement. rewrite Hb. cbn [negb].
    pose proof (startDataCollection_raw (manager a) w) as Hraw.
    pose proof (startDataCollection_flag (manager a) w) as Hflag.
    pose proof (startDataCollection_link (manager a) w) as Hlink.
    destruct (startDataCollection (manager a) w) as [m evs].
    cbn [fst snd] in *. rewrite (deliverAll_raw _ _ _ _ Hraw).
    unfold consistent. cbn. rewrite Hflag, Hlink.
    repeat split; try lia; try assumption; try (intros _; apply Hbc, Hb).
  - (* stop *)
    destruct (negb _) eqn:Hguard; [exact Ha|].
    apply negb_false_iff in Hguard.
    unfold stopMeasurement.
    pose proof (stopDataCollection_raw (manager a) w) as [Hraw _].
    pose proof (stopDataCollection_flag (manager a) w) as [Hflag _].
    pose proof (stopDataCollection_link (manager a) w) as Hlink.
    destruct (stopDataCollection (manager a) w) as [m [evs later]].
    cbn [fst snd] in *. rewrite (deliverAll_raw _ _ _ _ Hraw).
    match goal with
    | |- consistent {| manager := _; screen := completeTest ?pd ?s0;
                       timerRef := _; timeouts := _; writes := _ |} =>
        destruct (completeTest_keeps pd s0) as (C1 & C2 & C3 & C4 & C5)
    end.
    unfold consistent. cbn [manager screen]. unfold timerArmed. cbn [timerRef].
    rewrite C1, C2, C3, C4, Hflag, Hlink. cbn.
    repeat split; try tauto; try (apply C5; exact Hap).
  - (* countdown *)
    unfold countdown. destruct (timerRef a) as [pd|] eqn:Et; [|exact Ha].
    assert (Harm : forall a', timerRef a' = Some pd -> timerArmed a' = true)
      by (intros a' E; unfold timerArmed; rewrite E; reflexivity).
    assert (Hat : timerArmed a = true) by (apply Harm, Et).
    destruct (Z.leb_spec (timeRemaining (screen a) - 1) 0);
      unfold consistent; cbn [manager screen];
      (rewrite Harm by reflexivity); cbn; rewrite <- Hta, Hat;
      repeat split; try lia; try tauto; congruence.
  - (* timeout *)
    unfold timeout. destruct (timeouts a) as [|pd rest]; [exact Ha|].
    destruct (completeTest_keeps pd (screen a)) as (C1 & C2 & C3 & C4 & C5).
    unfold consistent. cbn [manager screen]. unfold timerArmed. cbn [timerRef].
    fold (timerArmed a). rewrite C1, C2, C3, C4. repeat split; tauto.
  - (* notification *)
    destruct (_ && _); [|exact Ha]. unfold notify.
    pose proof (handler_good (manager a) value) as Hg.
    pose proof (handler_noConnection (manager a) value) as Hn.
    destruct (deliverAll_sameSession now (manager a)
                (handleCharacteristicValueChanged (manager a) value)
                (screen a)) as (S1 & S2 & S3 & _).
    pose proof (deliverAll_current now (manager a) _ (screen a) Hg Hcp) as S5.
    pose proof (deliverAll_ble now (manager a) _ (screen a) Hn) as S6.
    unfold consistent. cbn [manager screen]. unfold timerArmed. cbn [timerRef].
    fold (timerArmed a). rewrite S1, S2, S3, S6. repeat split; tauto.
  - (* simulator *)
    destruct (collectionInterval (manager a)); [|exact Ha]. unfold simulate.
    pose proof (simulatorTick_good (manager a) noise) as Hg.
    pose proof (simulatorTick_noConnection (manager a) noise) as Hn.
    destruct (deliverAll_sameSession now (manager a)
                (simulatorTick (manager a) noise) (screen a))
      as (S1 & S2 & S3 & _).
    pose proof (deliverAll_current now (manager a) _ (screen a) Hg Hcp) as S5.
    pose proof (deliverAll_ble now (manager a) _ (screen a) Hn) as S6.
    unfold consistent. cbn [manager screen]. unfold timerArmed. cbn [timerRef].
    fold (timerArmed a). rewrite S1, S2, S3, S6. repeat split; tauto.
  - (* link lost *)
    destruct (_ && _); [|exact Ha]. unfold linkLost, gattserverdisconnected.
    unfold consistent. cbn. repeat split; try tauto; try discriminate.
  - (* a write settles *)
    unfold writeSettles. unfold writesRaw in Hw.
    destruct (nth_error (writes a) n) as [e|] eqn:En; [|exact Ha].
    rewrite forallb_forall in Hw.
    pose proof (Hw e (nth_error_In _ _ En)) as He.
    destruct e as [data|c|rawData]; try discriminate.
    unfold consistent. cbn [manager screen deliver]. unfold timerArmed.
    cbn [timerRef]. fold (timerArmed a).
    repeat split; try tauto.
Qed.

Lemma reachable_consistent (a : App) : reachable a -> consistent a.
Proof.
  intros [inputs ->]. unfold run.
  assert (H0 : consistent App.initial).
  { unfold consistent. cbn. repeat split; try lia; try discriminate. }
  assert (W0 : writesRaw App.initial) by reflexivity.
  revert H0 W0. generalize App.initial.
  induction inputs as [|i inputs IH]; intros a Ha Hw; [exact Ha|].
  cbn [fold_left].
  apply IH; [apply step_consistent; assumption | apply step_writesRaw, Hw].
Qed.

(** X12.  In every state the application can reach, the screen records
    exactly when the manager collects, and exactly then the countdown
    timer is armed; and while it does not record, neither a
    notification of the device nor a firing of the simulator changes
    anything in the application. *)
Theorem recording_goes_with_collecting :
  forall a : App,
    reachable a ->
    isRecording (screen a) = isCollecting (manager a)
    /\ (timerRef a = None <-> isRecording (screen a) = false)
    /\ (isRecording (screen a) = false ->
        forall (now : jsstring) (value : option (list N)) (noise : nat -> Z),
          step a (now, Notification value) = a
          /\ step a (now, SimulatorFires noise) = a).
Proof.
  intros a Hr. destruct (reachable_consistent a Hr) as (Hrc & Hta & _).
  split; [exact Hrc|]. split.
  - unfold timerArmed in Hta. destruct (timerRef a); rewrite <- Hta.
    + split; discriminate.
    + split; reflexivity.
  - intros Hn now value noise. rewrite Hn in Hrc. symmetry in Hrc. split.
    + unfold step, notify, handleCharacteristicValueChanged. rewrite Hrc.
      destruct (_ && _); [|reflexivity].
      destruct value; destruct a; reflexivity.
    + unfold step, simulate, simulatorTick. rewrite Hrc.
      destruct (collectionInterval (manager a)); destruct a; reflexivity.
Qed.

Lemma recording_goes_with_collecting_witness :
  reachable (run linked (stoppedAtOnce WriteOk))
  /\ isRecording (screen (run linked (stoppedAtOnce WriteOk)))
     = isCollecting (manager (run linked (stoppedAtOnce WriteOk))).
Proof.
  assert (Hr : reachable (run linked (stoppedAtOnce WriteOk))).
  { exists ([(noon, ClickScan sensorFound);
             (noon, SelectDevice (id sensor) GattOk)]
            ++ stoppedAtOnce WriteOk).
    unfold linked. symmetry. apply run_app. }
  split; [exact Hr|].
  exact (proj1 (recording_goes_with_collecting _ Hr)).
Defined.

Lemma countdown_run (now : jsstring) (pd : list PressureData) (n : nat) :
  forall a : App,
    timerRef a = Some pd -> 0 <= timeRemaining (screen a) ->
    timeRemaining (screen (run a (repeat (now, CountdownFires) n)))
    = Z.max 0 (timeRemaining (screen a) - Z.of_nat n)
    /\ timeouts (run a (repeat (now, CountdownFires) n))
       = timeouts a
         ++ repeat pd (n - (Z.to_nat (timeRemaining (screen a)) - 1)).
Proof.
  induction n as [|n IH]; intros a Ht Hpos.
  - rewrite run_nil. cbn [repeat Nat.sub]. rewrite app_nil_r.
    split; [lia | reflexivity].
  - change (repeat (now, CountdownFires) (S n))
      with ((now, CountdownFires) :: repeat (now, CountdownFires) n).
    rewrite run_cons.
    change (step a (now, CountdownFires)) with (countdown a).
    unfold countdown. rewrite Ht.
    destruct (Z.leb_spec (timeRemaining (screen a) - 1) 0) as [L|L].
    + match goal with
      | |- context [run ?a1 _] =>
          destruct (IH a1 eq_refl) as [I1 I2]; [cbn; lia|]
      end.
      rewrite I1, I2. cbn [screen timeouts timeRemaining setTimeRemaining].
      split; [lia|]. rewrite <- app_assoc. f_equal.
      replace (S n - (Z.to_nat (timeRemaining (screen a)) - 1))%nat
        with (S n) by lia.
      replace (n - (Z.to_nat 0 - 1))%nat with n by lia.
      reflexivity.
    + match goal with
      | |- context [run ?a1 _] =>
          destruct (IH a1 eq_refl) as [I1 I2]; [cbn; lia|]
      end.
      rewrite I1, I2. cbn [screen timeouts timeRemaining setTimeRemaining].
      split; [lia|]. f_equal. f_equal. lia.
Qed.

(** X13.  The countdown shown stays between 0 and 20 in every reachable
    state.  Each firing of the armed one-second timer lowers it by one
    down to 0 and never below; the firing that reaches 0 schedules the
    completion, and so does every later firing for as long as the timer
    is not cleared.  A countdown started at 20 schedules nothing during
    its first 19 firings. *)
Theorem countdown_stops_at_zero :
  (forall a : App, reachable a -> 0 <= timeRemaining (screen a) <= 20)
  /\ (forall (now : jsstring) (a : App) (pd : list PressureData) (n : nat),
        timerRef a = Some pd -> 0 <= timeRemaining (screen a) ->
        let a' := run a (repeat (now, CountdownFires) n) in
        timeRemaining (screen a')
        = Z.max 0 (timeRemaining (screen a) - Z.of_nat n)
        /\ timeouts a'
           = timeouts a
             ++ repeat pd (n - (Z.to_nat (timeRemaining (screen a)) - 1))
        /\ (timeRemaining (screen a) = 20 -> (n <= 19)%nat ->
            timeouts a' = timeouts a)).
Proof.
  split.
  - intros a Hr. destruct (reachable_consistent a Hr) as (_ & _ & H & _).
    exact H.
  - intros now a pd n Ht Hpos a'.
    destruct (countdown_run now pd n a Ht Hpos) as [H1 H2].
    split; [exact H1|]. split; [exact H2|].
    intros H20 Hn. unfold a'. rewrite H2, H20.
    replace (n - (Z.to_nat 20 - 1))%nat with 0%nat by lia.
    apply app_nil_r.
Qed.

Lemma countdown_stops_at_zero_witness :
  let a := run linked [(noon, ClickStart WriteOk)] in
  timerRef a = Some [] /\ 0 <= timeRemaining (screen a)
  /\ timeRemaining (screen (run a (repeat (noon, CountdownFires) 23))) = 0
  /\ timeouts (run a (repeat (noon, CountdownFires) 23)) = [[]; []; []; []].
Proof.
  intros a.
  assert (Ht : timerRef a = Some []) by (vm_compute; reflexivity).
  assert (Hr : timeRemaining (screen a) = 20) by (vm_compute; reflexivity).
  assert (Hq : timeouts a = []) by (vm_compute; reflexivity).
  assert (Hpos : 0 <= timeRemaining (screen a)) by (rewrite Hr; lia).
  destruct (proj2 countdown_stops_at_zero noon a [] 23%nat Ht Hpos)
    as (H1 & H2 & _).
  split; [exact Ht|]. split; [exact Hpos|]. split.
  - rewrite H1, Hr. reflexivity.
  - rewrite H2, Hq, Hr. reflexivity.
Defined.

(** X14.  In every reachable state the heatmap is given exactly eight
    values: the averages once the test is completed, else the last
    sample received while recording, else eight zeros. *)
Theorem heatmap_gets_eight_values :
  forall a : App,
    reachable a ->
    length (getHeatmapPressureValues (screen a)) = 8%nat
    /\ (sessionState (screen a) = Completed ->
        getHeatmapPressureValues (screen a) = averagePressures (screen a))
    /\ (sessionState (screen a) = Recording ->
        getHeatmapPressureValues (screen a) = currentPressures (screen a))
    /\ (sessionState (screen a) = Idle ->
        getHeatmapPressureValues (screen a) = [0; 0; 0; 0; 0; 0; 0; 0]).
Proof.
  intros a Hr.
  destruct (reachable_consistent a Hr) as (_ & _ & _ & Hc & Ha & _).
  unfold getHeatmapPressureValues, sessionState.
  destruct (testCompleted (screen a)), (isRecording (screen a));
    (split; [first [exact Ha | exact Hc | reflexivity]|]);
    repeat split; intros; try discriminate; reflexivity.
Qed.

Lemma heatmap_gets_eight_values_witness :
  reachable (run linked firstSession)
  /\ getHeatmapPressureValues (screen (run linked firstSession))
     = [20; 30; 40; 50; 60; 70; 80; 90].
Proof.
  assert (Hr : reachable (run linked firstSession)).
  { exists ([(noon, ClickScan sensorFound);
             (noon, SelectDevice (id sensor) GattOk)] ++ firstSession).
    unfold linked. symmetry. apply run_app. }
  split; [exact Hr|].
  destruct (heatmap_gets_eight_values _ Hr) as (_ & Hc & _).
  rewrite Hc; vm_compute; reflexivity.
Defined.

Lemma start_session_shape (now : jsstring) (w : WriteOutcome) (a : App) :
  (bleConnected (screen a) = true ->
   isRecording (screen (startMeasurement now w a)) = true
   /\ bleConnected (screen (startMeasurement now w a)) = true)
  /\ (bleConnected (screen a) = false -> startMeasurement now w a = a).
Proof.
  split; intros Hb; unfold startMeasurement; rewrite Hb; [|reflexivity].
  cbn [negb].
  pose proof (startDataCollection_raw (manager a) w) as Hraw.
  destruct (startDataCollection (manager a) w) as [m evs].
  cbn [snd] in Hraw. cbn [screen]. rewrite (deliverAll_raw _ _ _ _ Hraw).
  split; [reflexivity | exact Hb].
Qed.

(** X15.  In every reachable state a connection shown on the screen is
    a connection the manager reports; so a measurement only ever starts
    on a link for which [isConnected()] holds. *)
Theorem shown_connection_is_reported :
  forall a : App,
    reachable a ->
    (bleConnected (screen a) = true -> isConnected (manager a) = true)
    /\ forall (now : jsstring) (w : WriteOutcome),
         step a (now, ClickStart w) <> a ->
         isConnected (manager a) = true
         /\ isConnected (manager (step a (now, ClickStart w))) = true.
Proof.
  intros a Hr.
  destruct (reachable_consistent a Hr) as (_ & _ & _ & _ & _ & Hb).
  split; [exact Hb|]. intros now w Hstep.
  destruct (bleConnected (screen a)) eqn:E.
  - split; [apply Hb; reflexivity|].
    assert (Hr' : reachable (step a (now, ClickStart w))).
    { destruct Hr as [inputs ->]. exists (inputs ++ [(now, ClickStart w)]).
      rewrite run_app. reflexivity. }
    destruct (reachable_consistent _ Hr') as (_ & _ & _ & _ & _ & Hb').
    apply Hb'. unfold step. rewrite E. cbn [negb orb].
    destruct (isRecording (screen a)); [exact E|].
    destruct (proj1 (start_session_shape now w a) E) as (_ & H). exact H.
  - exfalso. apply Hstep. unfold step. rewrite E. reflexivity.
Qed.

Lemma shown_connection_is_reported_witness :
  reachable linked
  /\ step linked (noon, ClickStart WriteOk) <> linked
  /\ isConnected (manager linked) = true.
Proof.
  assert (Hr : reachable linked).
  { exists [(noon, ClickScan sensorFound);
            (noon, SelectDevice (id sensor) GattOk)]. reflexivity. }
  assert (Hs : step linked (noon, ClickStart WriteOk) <> linked).
  { intros E. apply (f_equal (fun x => isRecording (screen x))) in E.
    vm_compute in E. discriminate. }
  split; [exact Hr|]. split; [exact Hs|].
  exact (proj1 (proj2 (shown_connection_is_reported linked Hr)
                  noon WriteOk Hs)).
Defined.

End Consistency.

(* ================================================================== *)
(** ** Averages and the samples they come from *)

Section MeanBounds.

Lemma roundDiv_between (t n lo hi : Z) :
  0 < n -> n * lo <= t <= n * hi -> lo <= roundDiv t n <= hi.
Proof.
  intros Hn [Hlo Hhi]. unfold roundDiv. split.
  - apply Z.div_le_lower_bound; nia.
  - apply Z.lt_succ_r, Z.div_lt_upper_bound; nia.
Qed.

Lemma channelTotal_between (pd : list PressureData) (j : nat) (lo hi : Z) :
  (forall d, In d pd -> lo <= nth j (values d) 0 <= hi) ->
  Z.of_nat (length pd) * lo <= channelTotal pd j
  <= Z.of_nat (length pd) * hi.
Proof.
  induction pd as [|d pd IH]; intros H.
  - unfold channelTotal. simpl. lia.
  - assert (Hd : lo <= nth j (values d) 0 <= hi) by (apply H; left; reflexivity).
    assert (Hrest : forall d', In d' pd -> lo <= nth j (values d') 0 <= hi)
      by (intros d' Hin; apply H; right; exact Hin).
    specialize (IH Hrest).
    change (channelTotal (d :: pd) j)
      with (nth j (values d) 0 + channelTotal pd j).
    change (length (d :: pd)) with (S (length pd)). lia.
Qed.

Lemma averagesOf_nth (pd : list PressureData) (j : nat) :
  eightValues pd -> (j < 8)%nat ->
  nth j (averagesOf pd) 0
  = roundDiv (channelTotal pd j) (Z.of_nat (length pd)).
Proof.
  intros Hpd Hj. rewrite (averagesOf_means pd Hpd).
  rewrite (nth_indep _ 0 (roundDiv (channelTotal pd 0) (Z.of_nat (length pd))))
    by (rewrite length_map, length_seq; exact Hj).
  rewrite (map_nth (fun j => roundDiv (channelTotal pd j)
                               (Z.of_nat (length pd)))).
  rewrite seq_nth by exact Hj. reflexivity.
Qed.

Lemma average_between (pd : list PressureData) (j : nat) (lo hi : Z) :
  pd <> [] -> eightValues pd -> (j < 8)%nat ->
  (forall d, In d pd -> lo <= nth j (values d) 0 <= hi) ->
  lo <= nth j (averagesOf pd) 0 <= hi.
Proof.
  intros Hne Hpd Hj H. rewrite (averagesOf_nth pd j Hpd Hj).
  apply roundDiv_between.
  - destruct pd; [congruence | simpl; lia].
  - apply channelTotal_between, H.
Qed.

Lemma averagesOf_length (pd : list PressureData) :
  length (averagesOf pd) = 8%nat.
Proof. unfold averagesOf. rewrite length_map. apply sumChannels_length. Qed.

Lemma averagesOf_inRange (pd : list PressureData) :
  pd <> [] -> eightValues pd ->
  (forall d, In d pd -> inRange (values d)) -> inRange (averagesOf pd).
Proof.
  intros Hne Hpd Hr x Hx. apply (In_nth _ _ 0) in Hx.
  destruct Hx as (j & Hj & <-). rewrite averagesOf_length in Hj.
  apply average_between; try assumption.
  intros d Hd.
  assert (Hd8 : length (values d) = 8%nat)
    by (unfold eightValues in Hpd; rewrite Forall_forall in Hpd;
        apply Hpd, Hd).
  apply (Hr d Hd), nth_In. lia.
Qed.

(** X16.  The average of a channel lies between the smallest and the
    largest value the samples hold for that channel, so averages of
    samples between 0 and 255 are between 0 and 255; and when all
    samples hold the same eight values, the averages are exactly these
    values. *)
Theorem averages_within_samples :
  forall pd : list PressureData,
    pd <> [] -> eightValues pd ->
    (forall (j : nat) (lo hi : Z),
        (j < 8)%nat ->
        (forall d, In d pd -> lo <= nth j (values d) 0 <= hi) ->
        lo <= nth j (averagesOf pd) 0 <= hi)
    /\ ((forall d, In d pd -> inRange (values d)) ->
        inRange (averagesOf pd))
    /\ (forall v, (forall d, In d pd -> values d = v) -> averagesOf pd = v).
Proof.
  intros pd Hne Hpd.
  pose proof (averagesOf_length pd) as Hlen.
  split; [|split].
  - intros j lo hi Hj H. apply average_between; assumption.
  - apply averagesOf_inRange; assumption.
  - intros v Hv.
    assert (Hv8 : length v = 8%nat).
    { destruct pd as [|d pd]; [congruence|].
      rewrite <- (Hv d (or_introl eq_refl)).
      inversion Hpd; assumption. }
    apply (nth_ext _ _ 0 0); [congruence|].
    intros j Hj. rewrite Hlen in Hj.
    assert (H : nth j v 0 <= nth j (averagesOf pd) 0 <= nth j v 0).
    { apply average_between; try assumption.
      intros d Hd. rewrite (Hv d Hd). lia. }
    lia.
Qed.

Lemma averages_within_samples_witness :
  let pd := [ {| timestamp := noon; values := [5; 5; 5; 5; 5; 5; 5; 255] |};
              {| timestamp := js "12:00:01";
                 values := [5; 5; 5; 5; 5; 5; 5; 255] |} ] in
  pd <> [] /\ eightValues pd
  /\ averagesOf pd = [5; 5; 5; 5; 5; 5; 5; 255].
Proof.
  intros pd.
  assert (Hne : pd <> []) by discriminate.
  assert (Hpd : eightValues pd) by (repeat constructor).
  split; [exact Hne|]. split; [exact Hpd|].
  apply (proj2 (proj2 (averages_within_samples pd Hne Hpd))).
  intros d [<-|[<-|[]]]; reflexivity.
Defined.

End MeanBounds.

(* ================================================================== *)
(** ** A session on the simulator *)

Section DemoSession.

(** A firing of the simulator's interval at clock reading [t]. *)
Definition tick (f : jsstring * (nat -> Z)) : jsstring * Action :=
  (fst f, SimulatorFires (snd f)).

(** The sample the screen stores for it. *)
Definition tickSample (f : jsstring * (nat -> Z)) : PressureData :=
  {| timestamp := fst f; values := simulatedData (snd f) |}.

Lemma step_start (t : jsstring) (w : WriteOutcome) (a : App) :
  bleConnected (screen a) = true -> isRecording (screen a) = false ->
  step a (t, ClickStart w) = startMeasurement t w a.
Proof.
  intros Hb Hr. unfold step. cbn beta iota zeta. rewrite Hb, Hr. reflexivity.
Qed.

Lemma step_tick (f : jsstring * (nat -> Z)) (a : App) :
  collectionInterval (manager a) = true ->
  step a (tick f) = simulate (fst f) (snd f) a.
Proof.
  intros Hc. unfold step, tick. cbn beta iota zeta. rewrite Hc. reflexivity.
Qed.

Lemma step_stop (t : jsstring) (w : WriteOutcome) (a : App) :
  isRecording (screen a) = true ->
  step a (t, ClickStop w) = stopMeasurement t w a.
Proof.
  intros Hr. unfold step. cbn beta iota zeta. rewrite Hr. reflexivity.
Qed.

Lemma start_on_simulator (now : jsstring) (w : WriteOutcome) (a : App) :
  bleConnected (screen a) = true -> deviceIsDemo (manager a) = true ->
  let a1 := startMeasurement now w a in
  manager a1 = setInterval true (setCollecting true (manager a))
  /\ isRecording (screen a1) = true
  /\ pressureData (screen a1) = []
  /\ testCompleted (screen a1) = false.
Proof.
  intros Hb Hd. unfold startMeasurement. rewrite Hb. cbn [negb].
  rewrite (startDataCollection_demo _ w Hd). cbn [manager screen].
  rewrite deliverAll_raw by reflexivity. repeat split.
Qed.

Lemma simulate_once (f : jsstring * (nat -> Z)) (a : App) :
  isCollecting (manager a) = true ->
  let a1 := simulate (fst f) (snd f) a in
  manager a1 = manager a
  /\ pressureData (screen a1) = pressureData (screen a) ++ [tickSample f]
  /\ isRecording (screen a1) = isRecording (screen a)
  /\ testCompleted (screen a1) = testCompleted (screen a).
Proof.
  intros Hc. unfold simulate, simulatorTick. rewrite Hc. repeat split.
Qed.

Lemma simulate_many (fs : list (jsstring * (nat -> Z))) (a : App) :
  collectionInterval (manager a) = true ->
  isCollecting (manager a) = true ->
  let a1 := run a (map tick fs) in
  manager a1 = manager a
  /\ pressureData (screen a1) = pressureData (screen a) ++ map tickSample fs
  /\ isRecording (screen a1) = isRecording (screen a)
  /\ testCompleted (screen a1) = testCompleted (screen a).
Proof.
  revert a. induction fs as [|f fs IH]; intros a Hi Hc.
  - cbn [map]. rewrite run_nil, app_nil_r. repeat split.
  - cbn [map]. rewrite run_cons, (step_tick f a Hi).
    destruct (simulate_once f a Hc) as (M & P & R & T).
    destruct (IH (simulate (fst f) (snd f) a)) as (M' & P' & R' & T');
      [rewrite M; exact Hi | rewrite M; exact Hc |].
    rewrite M', P', R', T', M, P, R, T, <- app_assoc. repeat split.
Qed.

Lemma stop_with_samples (now : jsstring) (w : WriteOutcome) (a : App) :
  pressureData (screen a) <> [] ->
  let a1 := stopMeasurement now w a in
  averagePressures (screen a1) = averagesOf (pressureData (screen a))
  /\ testCompleted (screen a1) = true
  /\ isRecording (screen a1) = false
  /\ pressureData (screen a1) = pressureData (screen a)
  /\ isCollecting (manager a1) = false
  /\ collectionInterval (manager a1) = false
  /\ timerRef a1 = None.
Proof.
  intros Hne. unfold stopMeasurement.
  pose proof (stopDataCollection_raw (manager a) w) as [Hraw _].
  pose proof (stopDataCollection_flag (manager a) w) as [F1 F2].
  destruct (stopDataCollection (manager a) w) as [m [evs later]].
  cbn [fst snd] in Hraw, F1, F2. cbn [manager screen timerRef].
  rewrite (deliverAll_raw _ _ _ _ Hraw).
  destruct (completeTest_samples (pressureData (screen a))
              (setConsoleLog
                 (consoleLog (setIsRecording false (screen a))
                  ++ rawEntries now evs)
                 (setIsRecording false (screen a))) Hne)
    as (A & _ & _ & T & R & P).
  rewrite A, T, R, P. repeat split; assumption.
Qed.

Lemma tickSamples_eight (fs : list (jsstring * (nat -> Z))) :
  eightValues (map tickSample fs).
Proof.
  unfold eightValues. apply Forall_forall. intros d Hd.
  apply in_map_iff in Hd as (f & <- & _). reflexivity.
Qed.

Lemma simulated_near_base (noise : nat -> Z) (j : nat) :
  (j < 8)%nat -> -20 <= noise j <= 19 ->
  nth j baseValues 0 - 20 <= nth j (simulatedData noise) 0
  <= nth j baseValues 0 + 20.
Proof.
  intros Hj Hn. rewrite simulatedData_unfold. unfold baseValues, clamp255.
  do 8 (destruct j as [|j]; [cbn [nth]; lia|]). lia.
Qed.

(** X17.  A session on the simulator.  With a demo link shown as
    connected and no recording under way, a click on [Start], any
    positive number of firings of the simulator and a click on [Stop]
    store exactly one sample per firing, stamped with the clock reading
    of the firing, and complete the session: the averages are those of
    these samples and lie between 0 and 255, collection has stopped and
    the countdown is cleared; when every noise term lies between -20 and
    19, each average is within 20 of the baseline of its channel. *)
Theorem simulator_session_completes :
  forall (a : App) (t0 t1 : jsstring) (w w' : WriteOutcome)
         (fs : list (jsstring * (nat -> Z))),
    bleConnected (screen a) = true ->
    isRecording (screen a) = false ->
    deviceIsDemo (manager a) = true ->
    fs <> [] ->
    let a' := run a ((t0, ClickStart w) :: map tick fs
                     ++ [(t1, ClickStop w')]) in
    pressureData (screen a') = map tickSample fs
    /\ sessionState (screen a') = Completed
    /\ isRecording (screen a') = false
    /\ averagePressures (screen a') = averagesOf (map tickSample fs)
    /\ inRange (averagePressures (screen a'))
    /\ isCollecting (manager a') = false
    /\ collectionInterval (manager a') = false
    /\ timerRef a' = None
    /\ ((forall f i, In f fs -> -20 <= snd f i <= 19) ->
        forall j, (j < 8)%nat ->
          Z.abs (nth j (averagePressures (screen a')) 0
                 - nth j baseValues 0) <= 20).
Proof.
  intros a t0 t1 w w' fs Hb Hr Hd Hfs.
  rewrite run_cons, run_app, run_cons, run_nil, (step_start t0 w a Hb Hr).
  destruct (start_on_simulator t0 w a Hb Hd) as (M1 & R1 & P1 & T1).
  set (a1 := startMeasurement t0 w a) in *.
  destruct (simulate_many fs a1) as (M2 & P2 & R2 & T2);
    [rewrite M1; reflexivity | rewrite M1; reflexivity |].
  set (a2 := run a1 (map tick fs)) in *.
  rewrite P1 in P2. cbn [app] in P2. rewrite R1 in R2.
  rewrite (step_stop t1 w' a2 R2).
  assert (Hne : map tickSample fs <> [])
    by (destruct fs; [congruence | discriminate]).
  assert (Hne2 : pressureData (screen a2) <> []) by (rewrite P2; exact Hne).
  destruct (stop_with_samples t1 w' a2 Hne2) as (A & T & R & P & C & I & Tm).
  cbv zeta. rewrite P2 in A, P.
  assert (Hrange : inRange (averagesOf (map tickSample fs))).
  { apply averagesOf_inRange; [exact Hne | apply tickSamples_eight |].
    intros d Hin. apply in_map_iff in Hin as (f & <- & _).
    apply simulatedData_range. }
  unfold sessionState. rewrite T, A.
  repeat (split; [assumption || reflexivity|]).
  intros Hnoise j Hj.
  assert (H : nth j baseValues 0 - 20
              <= nth j (averagesOf (map tickSample fs)) 0
              <= nth j baseValues 0 + 20).
  { apply average_between;
      [exact Hne | apply tickSamples_eight | exact Hj |].
    intros d Hin. apply in_map_iff in Hin as (f & <- & Hf).
    apply simulated_near_base; [exact Hj | apply Hnoise, Hf]. }
  lia.
Qed.

(** The browser has no Web Bluetooth: the scan offers the mock devices
    and the right one is selected. *)
Definition withoutBluetooth : App :=
  run App.initial
    [(noon, ClickScan {| bluetooth := false;
                         filtered := Refused (newError unsupportedMessage);
                         acceptAll := Refused (newError unsupportedMessage) |});
     (noon, SelectDevice (js "demo-esp32-right") GattOk)].

Lemma simulator_session_completes_witness :
  let fs := [(noon, fun _ : nat => 0); (js "12:00:01", fun _ : nat => 10)] in
  let a' := run withoutBluetooth
              ((noon, ClickStart WriteOk) :: map tick fs
               ++ [(js "12:00:10", ClickStop WriteOk)]) in
  bleConnected (screen withoutBluetooth) = true
  /\ isRecording (screen withoutBluetooth) = false
  /\ deviceIsDemo (manager withoutBluetooth) = true
  /\ fs <> []
  /\ sessionState (screen a') = Completed
  /\ averagePressures (screen a') = [55; 105; 155; 205; 253; 255; 133; 69].
Proof.
  intros fs a'.
  assert (Hb : bleConnected (screen withoutBluetooth) = true)
    by (vm_compute; reflexivity).
  assert (Hr : isRecording (screen withoutBluetooth) = false)
    by (vm_compute; reflexivity).
  assert (Hd : deviceIsDemo (manager withoutBluetooth) = true)
    by (vm_compute; reflexivity).
  assert (Hfs : fs <> []) by discriminate.
  repeat (split; [assumption|]).
  split.
  - exact (proj1 (proj2 (simulator_session_completes withoutBluetooth
                           noon (js "12:00:10") WriteOk WriteOk fs
                           Hb Hr Hd Hfs))).
  - vm_compute. reflexivity.
Defined.

End DemoSession.

(* ================================================================== *)
(** ** Completion when the countdown runs out *)

Section Expiry.

(** A callback that brings data: a notification or a firing of the
    simulator. *)
Definition isData (act : Action) : bool :=
  match act with
  | Notification _ | SimulatorFires _ => true
  | _ => false
  end.

Lemma data_steps_keep (frames : list (jsstring * Action)) :
  forall a : App,
    forallb (fun i => isData (snd i)) frames = true ->
    timerRef (run a frames) = timerRef a
    /\ timeouts (run a frames) = timeouts a
    /\ sameSession (screen a) (screen (run a frames)).
Proof.
  induction frames as [|[now act] frames IH]; intros a H.
  - rewrite run_nil. repeat split.
  - cbn [forallb snd] in H. apply andb_true_iff in H as [Hact Hrest].
    rewrite run_cons.
    destruct (IH (step a (now, act)) Hrest) as (I1 & I2 & I3).
    assert (Hs : timerRef (step a (now, act)) = timerRef a
                 /\ timeouts (step a (now, act)) = timeouts a
                 /\ sameSession (screen a) (screen (step a (now, act)))).
    { unfold step. destruct act; try discriminate.
      - destruct (_ && _); [|repeat split]. unfold notify.
        cbn [timerRef timeouts screen].
        split; [reflexivity|]. split; [reflexivity|].
        apply deliverAll_sameSession.
      - destruct (collectionInterval _); [|repeat split]. unfold simulate.
        cbn [timerRef timeouts screen].
        split; [reflexivity|]. split; [reflexivity|].
        apply deliverAll_sameSession. }
    destruct Hs as (S1 & S2 & S3).
    rewrite I1, I2, S1, S2. split; [reflexivity|]. split; [reflexivity|].
    exact (sameSession_trans _ _ _ S3 I3).
Qed.

(** The countdown touches the time remaining and the pending timeouts
    only. *)
Lemma countdowns_keep_screen (n : nat) :
  forall a : App,
    let a' := run a (repeat (noon, CountdownFires) n) in
    testCompleted (screen a') = testCompleted (screen a)
    /\ averagePressures (screen a') = averagePressures (screen a)
    /\ pressureData (screen a') = pressureData (screen a)
    /\ isRecording (screen a') = isRecording (screen a).
Proof.
  induction n as [|n IH]; intros a; [repeat split|].
  cbv zeta. cbn [repeat]. rewrite run_cons.
  destruct (IH (step a (noon, CountdownFires))) as (I1 & I2 & I3 & I4).
  rewrite I1, I2, I3, I4.
  change (step a (noon, CountdownFires)) with (countdown a).
  unfold countdown. destruct (timerRef a); [|repeat split].
  destruct (_ <=? _); repeat split.
Qed.

Lemma start_arms_countdown (now : jsstring) (w : WriteOutcome) (a : App) :
  bleConnected (screen a) = true ->
  let a1 := startMeasurement now w a in
  timerRef a1 = Some (pressureData (screen a))
  /\ timeouts a1 = timeouts a
  /\ timeRemaining (screen a1) = 20
  /\ testCompleted (screen a1) = false
  /\ averagePressures (screen a1) = zeros8
  /\ isRecording (screen a1) = true.
Proof.
  intros Hb. unfold startMeasurement. rewrite Hb. cbn [negb].
  pose proof (startDataCollection_raw (manager a) w) as Hraw.
  destruct (startDataCollection (manager a) w) as [m evs].
  cbn [snd] in Hraw. cbn [timerRef timeouts screen].
  rewrite (deliverAll_raw _ _ _ _ Hraw). repeat split.
Qed.

(** C2.  The completion that the countdown schedules when it runs out
    does not read the collected samples: it is the [completeTest] of the
    render in which the measurement was started, and completes on the
    samples the screen held then.  From a screen that held none,
    whatever frames arrive during the countdown, the expiry computes no
    averages, logs the no-data warning and leaves the session
    uncompleted, still recording; from a screen that held an earlier
    session's samples it shows the averages of those.  Started on the
    connected sensor and fed the three frames 10..80, 20..90 and
    30..100, the countdown that runs out leaves the averages at 0 and
    the session uncompleted, where the early stop shows 20..90, 55 and
    the maximum 90 at index 7. *)
Theorem expiry_ignores_collected_samples :
  (forall (a : App) (w : WriteOutcome) (frames : list (jsstring * Action)),
      bleConnected (screen a) = true -> isRecording (screen a) = false ->
      timeouts a = [] ->
      forallb (fun i => isData (snd i)) frames = true ->
      let collected := run a ((noon, ClickStart w) :: frames) in
      let a' := run collected
                  (repeat (noon, CountdownFires) 20
                   ++ [(noon, TimeoutFires)]) in
      pressureData (screen a') = pressureData (screen collected)
      /\ isRecording (screen a') = true
      /\ (pressureData (screen a) = [] ->
          testCompleted (screen a') = false
          /\ averagePressures (screen a') = zeros8
          /\ last (consoleLog (screen a')) [] = noDataWarning
          /\ sessionState (screen a') = Recording)
      /\ (pressureData (screen a) <> [] ->
          testCompleted (screen a') = true
          /\ averagePressures (screen a')
             = averagesOf (pressureData (screen a))))
  /\ (let a := run linked
                 ([(noon, ClickStart WriteOk);
                   (noon, frameOf "PRESSURE_RIGHT:10,20,30,40,50,60,70,80");
                   (noon, frameOf "PRESSURE_RIGHT:20,30,40,50,60,70,80,90");
                   (noon, frameOf "PRESSURE_RIGHT:30,40,50,60,70,80,90,100")]
                  ++ repeat (noon, CountdownFires) 20
                  ++ [(noon, TimeoutFires)]) in
      map values (pressureData (screen a))
      = [[10; 20; 30; 40; 50; 60; 70; 80]; [20; 30; 40; 50; 60; 70; 80; 90];
         [30; 40; 50; 60; 70; 80; 90; 100]]
      /\ averagePressures (screen a) = [0; 0; 0; 0; 0; 0; 0; 0]
      /\ averagePressure (screen a) = 0
      /\ maxPressurePoint (screen a) = (0, 0)
      /\ testCompleted (screen a) = false
      /\ sessionState (screen a) = Recording
      /\ last (consoleLog (screen a)) [] = noDataWarning)
  /\ (let a := run linked firstSession in
      averagePressures (screen a) = [20; 30; 40; 50; 60; 70; 80; 90]
      /\ averagePressure (screen a) = 55
      /\ maxPressurePoint (screen a) = (7, 90)
      /\ sessionState (screen a) = Completed).
Proof.
  split; [|split; vm_compute; repeat split].
  intros a w frames Hb Hr Hq Hf collected a'.
  assert (Ec : collected = run (startMeasurement noon w a) frames)
    by (unfold collected; rewrite run_cons, (step_start noon w a Hb Hr);
        reflexivity).
  destruct (start_arms_countdown noon w a Hb) as (T1 & Q1 & R1 & C1 & A1 & I1).
  destruct (data_steps_keep frames (startMeasurement noon w a) Hf)
    as (T2 & Q2 & (I2 & R2 & A2 & C2)).
  rewrite <- Ec in T2, Q2, I2, R2, A2, C2.
  rewrite T1 in T2. rewrite Q1, Hq in Q2. rewrite R1 in R2.
  rewrite I1 in I2. rewrite A1 in A2. rewrite C1 in C2.
  destruct (countdown_run noon (pressureData (screen a)) 20 collected T2)
    as (_ & Q3); [lia|].
  assert (N1 : (20 - (Z.to_nat 20 - 1))%nat = 1%nat) by reflexivity.
  rewrite Q2, R2, N1 in Q3.
  change ([] ++ repeat (pressureData (screen a)) 1)
    with [pressureData (screen a)] in Q3.
  destruct (countdowns_keep_screen 20 collected) as (C3 & A3 & P3 & I3).
  set (expired := run collected (repeat (noon, CountdownFires) 20)) in *.
  assert (Ea : a' = timeout expired)
    by (unfold a'; rewrite run_app, run_cons, run_nil; apply step_timeout).
  assert (Es : screen a' = completeTest (pressureData (screen a))
                             (screen expired))
    by (rewrite Ea; unfold timeout; rewrite Q3; reflexivity).
  rewrite Es, completeTest_samples_kept, P3.
  split; [reflexivity|]. split.
  { destruct (completeTest_keeps (pressureData (screen a)) (screen expired))
      as (K & _). rewrite K, I3. exact I2. }
  split.
  - intros E. rewrite E.
    destruct (complete_without_samples (screen expired))
      as (L & T & A & _ & _ & I).
    unfold sessionState. rewrite L, T, A, I, C3, A3, I3, C2, A2, I2.
    repeat split. apply last_last.
  - intros Hne.
    destruct (completeTest_samples (pressureData (screen a)) (screen expired)
                Hne) as (A & _ & _ & T & _).
    split; assumption.
Qed.

Lemma expiry_ignores_collected_samples_witness :
  let frames := [(noon, frameOf "PRESSURE_RIGHT:10,20,30,40,50,60,70,80")] in
  let a' := run (run linked ((noon, ClickStart WriteOk) :: frames))
              (repeat (noon, CountdownFires) 20 ++ [(noon, TimeoutFires)]) in
  bleConnected (screen linked) = true
  /\ isRecording (screen linked) = false
  /\ timeouts linked = []
  /\ forallb (fun i => isData (snd i)) frames = true
  /\ pressureData (screen linked) = []
  /\ map values (pressureData (screen a'))
     = [[10; 20; 30; 40; 50; 60; 70; 80]]
  /\ testCompleted (screen a') = false
  /\ averagePressures (screen a') = zeros8.
Proof.
  intros frames a'.
  assert (Hb : bleConnected (screen linked) = true) by (vm_compute; reflexivity).
  assert (Hr : isRecording (screen linked) = false) by (vm_compute; reflexivity).
  assert (Hq : timeouts linked = []) by (vm_compute; reflexivity).
  assert (Hf : forallb (fun i => isData (snd i)) frames = true) by reflexivity.
  assert (Hp : pressureData (screen linked) = []) by (vm_compute; reflexivity).
  destruct (proj1 expiry_ignores_collected_samples linked WriteOk frames
              Hb Hr Hq Hf) as (_ & _ & H & _).
  destruct (H Hp) as (T & A & _).
  repeat (split; [assumption|]).
  split; [vm_compute; reflexivity|]. split; [exact T | exact A].
Defined.

End Expiry.

(* ================================================================== *)
(** ** The countdown as the screen prints it *)

Section CountdownDisplay.

Import Display.

Definition twoDigitsOk (n : Z) : bool :=
  let s := padStart 2 48 (numberToString n) in
  (length s =? 2)%nat
  && match parseInt s with
     | Some v => v =? n
     | None => false
     end.

Lemma two_digits (n : Z) :
  0 <= n < 100 ->
  length (padStart 2 48 (numberToString n)) = 2%nat
  /\ parseInt (padStart 2 48 (numberToString n)) = Some n.
Proof.
  intros Hn.
  assert (Hall : forallb twoDigitsOk (map Z.of_nat (seq 0 100)) = true)
    by (vm_compute; reflexivity).
  rewrite forallb_forall in Hall.
  assert (Hc : twoDigitsOk n = true).
  { apply Hall, in_map_iff. exists (Z.to_nat n). split; [lia|].
    apply in_seq. lia. }
  unfold twoDigitsOk in Hc. cbv zeta in Hc.
  apply andb_true_iff in Hc as [Hl Hp]. apply Nat.eqb_eq in Hl.
  split; [exact Hl|].
  destruct (parseInt _) as [v|]; [|discriminate].
  apply Z.eqb_eq in Hp. congruence.
Qed.

Lemma formatTime_parts (seconds : Z) :
  0 <= seconds < 6000 ->
  exists m s : jsstring,
    formatTime seconds = m ++ 58%N :: s
    /\ length m = 2%nat /\ length s = 2%nat
    /\ parseInt m = Some (seconds / 60)
    /\ parseInt s = Some (seconds mod 60).
Proof.
  intros H.
  assert (Hm : 0 <= seconds / 60 < 100)
    by (split; [apply Z.div_pos; lia | apply Z.div_lt_upper_bound; lia]).
  assert (Hs : 0 <= seconds mod 60 < 100)
    by (pose proof (Z.mod_pos_bound seconds 60); lia).
  destruct (two_digits _ Hm) as [Lm Pm].
  destruct (two_digits _ Hs) as [Ls Ps].
  exists (padStart 2 48 (numberToString (seconds / 60))),
         (padStart 2 48 (numberToString (seconds mod 60))).
  unfold formatTime. cbv zeta.
  rewrite Z.rem_mod_nonneg by lia. repeat split; assumption.
Qed.

(** X18.  For 0 to 5999 seconds [formatTime] prints five characters,
    two for the minutes, a colon and two for the seconds, and both
    fields read back as the numbers they stand for; in every state the
    application can reach the countdown is printed with minutes [00] and
    its seconds field reads back as the time remaining. *)
Theorem format_time_reads_back :
  (forall seconds : Z,
      0 <= seconds < 6000 ->
      let text := formatTime seconds in
      length text = 5%nat
      /\ nth 2 text 0%N = 58%N
      /\ parseInt (firstn 2 text) = Some (seconds / 60)
      /\ parseInt (skipn 3 text) = Some (seconds mod 60))
  /\ (forall inputs : list (jsstring * Action),
         let t := timeRemaining (screen (run App.initial inputs)) in
         firstn 3 (formatTime t) = js "00:"
         /\ parseInt (skipn 3 (formatTime t)) = Some t).
Proof.
  assert (Hfirst : forall seconds : Z,
             0 <= seconds < 6000 ->
             let text := formatTime seconds in
             length text = 5%nat
             /\ nth 2 text 0%N = 58%N
             /\ parseInt (firstn 2 text) = Some (seconds / 60)
             /\ parseInt (skipn 3 text) = Some (seconds mod 60)).
  { intros seconds H.
    destruct (formatTime_parts seconds H) as (m & s & -> & Lm & Ls & Pm & Ps).
    destruct m as [|m0 [|m1 [|? ?]]]; try discriminate.
    destruct s as [|s0 [|s1 [|? ?]]]; try discriminate.
    repeat split; assumption. }
  split; [exact Hfirst|].
  intros inputs t.
  assert (Ht : 0 <= t <= 20).
  { destruct (reachable_consistent (run App.initial inputs))
      as (_ & _ & H & _); [exists inputs; reflexivity | exact H]. }
  assert (Ht' : 0 <= t < 6000) by lia.
  destruct (Hfirst t Ht') as (_ & _ & _ & Hs).
  rewrite Z.mod_small in Hs by lia. split; [|exact Hs].
  unfold formatTime. cbv zeta. rewrite Z.div_small by lia. reflexivity.
Qed.

Lemma format_time_reads_back_witness :
  0 <= 754 < 6000
  /\ formatTime 754 = js "12:34"
  /\ parseInt (skipn 3 (formatTime 754)) = Some 34.
Proof.
  assert (H : 0 <= 754 < 6000) by lia.
  split; [exact H|]. split; [reflexivity|].
  exact (proj2 (proj2 (proj2 (proj1 format_time_reads_back 754 H)))).
Defined.

End CountdownDisplay.

(* ================================================================== *)
(** ** The workbook and the results on the screen *)

Section Workbook.

Import ExportManager.

(** What the results panel shows. *)
Definition results (s : State) : Z * (Z * Z) * list Z * bool :=
  (averagePressure s, maxPressurePoint s, averagePressures s, testCompleted s).

(** Once the test is completed, the total average and the maximum shown
    are those of the averages shown. *)
Definition resultsAgree (s : State) : Prop :=
  testCompleted s = true ->
  averagePressure s = totalAverageOf (averagePressures s)
  /\ maxPressurePoint s
     = (indexOf (averagePressures s) (Math_max (averagePressures s)) 0,
        Math_max (averagePressures s)).

Lemma resultsAgree_results (s s' : State) :
  results s' = results s -> resultsAgree s -> resultsAgree s'.
Proof.
  unfold results, resultsAgree. intros H Hs.
  injection H as -> -> -> ->. exact Hs.
Qed.

Lemma deliver_results (now : jsstring) (m : BLEManager) (s : State)
  (e : Event) : results (deliver now m s e) = results s.
Proof.
  destruct e as [data|c|rawData]; cbn [deliver]; try reflexivity.
  unfold handleConnectionChange. destruct c; [|reflexivity].
  destruct (getDeviceInfo m) as [[[dname did] b]|]; reflexivity.
Qed.

Lemma deliverAll_results (now : jsstring) (m : BLEManager)
  (evs : list Event) (s : State) : results (deliverAll now m evs s) = results s.
Proof.
  revert s. induction evs as [|e evs IH]; intros s; [reflexivity|].
  unfold deliverAll in *. cbn [fold_left]. rewrite IH. apply deliver_results.
Qed.

Lemma scan_results (now : jsstring) (p : Platform) (a : App) :
  results (screen (App.scanForDevices now p a)) = results (screen a).
Proof.
  unfold App.scanForDevices. cbn [screen].
  destruct (BLE.scanForDevices p) as [devices|error].
  - destruct (0 <? length devices)%nat; [|reflexivity].
    cbn zeta.
    match goal with
    | |- results (setIsScanning false (fold_left ?f devices ?s0)) = _ =>
        assert (H : results s0 = results (screen a)) by reflexivity;
        revert H; generalize s0
    end.
    induction devices as [|d devices IH]; intros s0 H; [exact H|].
    cbn [fold_left]. apply IH. exact H.
  - destruct (includes _ _); reflexivity.
Qed.

Lemma completeTest_agree (pd : list PressureData) (s : State) :
  resultsAgree s -> resultsAgree (completeTest pd s).
Proof.
  intros Hs. destruct pd as [|d pd]; [exact Hs|].
  intros _.
  destruct (completeTest_samples (d :: pd) s) as (A & T & M & _);
    [discriminate|].
  rewrite A, T, M. split; reflexivity.
Qed.

Lemma step_resultsAgree (a : App) (input : jsstring * Action) :
  resultsAgree (screen a) -> resultsAgree (screen (step a input)).
Proof.
  intros Ha. destruct input as [now act]. unfold step. destruct act.
  - destruct (_ || _); [exact Ha|].
    apply (resultsAgree_results (screen a)); [apply scan_results | exact Ha].
  - destruct (_ && _); [|exact Ha].
    destruct (find _ _) as [d|]; [|exact Ha].
    unfold connectToDevice.
    destruct (connect (manager a) d o) as [[m evs] r]. cbn [screen].
    apply (resultsAgree_results (screen a)); [|exact Ha].
    match goal with
    | |- context [deliverAll now m evs ?s0] =>
        pose proof (deliverAll_results now m evs s0) as Hd
    end.
    destruct r as [u|e]; cbn [results averagePressure maxPressurePoint
      averagePressures testCompleted setBleConnected setSelectedDevice log
      setConsoleLog setConnectionError]; exact Hd.
  - destruct (selectedDevice (screen a)); [|exact Ha].
    destruct (_ && _); [|exact Ha].
    unfold disconnectDevice.
    destruct (disconnect (manager a) w settled) as [m [evs later]].
    cbn [screen].
    apply (resultsAgree_results (screen a));
      [rewrite deliverAll_results; reflexivity | exact Ha].
  - destruct (_ || _) eqn:Hguard; [exact Ha|].
    apply orb_false_iff in Hguard as [Hb _]. apply negb_false_iff in Hb.
    unfold startMeasurement. rewrite Hb. cbn [negb].
    destruct (startDataCollection (manager a) w) as [m evs]. cbn [screen].
    intros Ht.
    match goal with
    | _ : testCompleted (deliverAll now m evs ?s0) = true |- _ =>
        pose proof (deliverAll_results now m evs s0) as Hd
    end.
    unfold results in Hd. injection Hd as _ _ _ Hd.
    rewrite Hd in Ht. discriminate.
  - destruct (negb _); [exact Ha|].
    unfold stopMeasurement.
    destruct (stopDataCollection (manager a) w) as [m [evs later]]. cbn [screen].
    apply completeTest_agree.
    apply (resultsAgree_results (screen a)); [|exact Ha].
    rewrite deliverAll_results. reflexivity.
  - unfold countdown. destruct (timerRef a); [|exact Ha].
    destruct (_ <=? _); exact Ha.
  - unfold timeout. destruct (timeouts a); [exact Ha|].
    cbn [screen]. apply completeTest_agree, Ha.
  - destruct (_ && _); [|exact Ha]. unfold notify. cbn [screen].
    apply (resultsAgree_results (screen a));
      [rewrite deliverAll_results; reflexivity | exact Ha].
  - destruct (collectionInterval _); [|exact Ha]. unfold simulate.
    cbn [screen].
    apply (resultsAgree_results (screen a));
      [rewrite deliverAll_results; reflexivity | exact Ha].
  - destruct (_ && _); [|exact Ha]. unfold linkLost.
    destruct (gattserverdisconnected (manager a)) as [m evs]. cbn [screen].
    apply (resultsAgree_results (screen a));
      [rewrite deliverAll_results; reflexivity | exact Ha].
  - unfold writeSettles. destruct (nth_error _ _); [|exact Ha].
    cbn [screen].
    apply (resultsAgree_results (screen a));
      [apply deliver_results | exact Ha].
Qed.

Lemma reachable_resultsAgree (a : App) :
  reachable a -> resultsAgree (screen a).
Proof.
  intros [inputs ->]. unfold run.
  assert (H0 : resultsAgree (screen App.initial)) by discriminate.
  revert H0. generalize App.initial.
  induction inputs as [|i inputs IH]; intros a Ha; [exact Ha|].
  cbn [fold_left]. apply IH, step_resultsAgree, Ha.
Qed.

Lemma nth_map_within {A B : Type} (f : A -> B) (l : list A) (d : A)
  (d' : B) (n : nat) :
  (n < length l)%nat -> nth n (map f l) d' = f (nth n l d).
Proof.
  revert n. induction l as [|x l IH]; intros n Hn; [simpl in Hn; lia|].
  destruct n as [|n]; [reflexivity|]. cbn [map nth]. apply IH.
  simpl in Hn. lia.
Qed.

Lemma pointRow (averages : list Z) (notes : jsstring) (sole : SoleType)
  (date time : jsstring) (n : nat) :
  (n < length averages)%nat ->
  nth (9 + n) (summaryRows averages notes sole date time) []
  = [Text (js "P" ++ numberToString (Z.of_nat n + 1));
     Num (nth n averages 0)].
Proof.
  intros Hn. unfold summaryRows. cbn [app plus nth].
  rewrite app_nth1
    by (rewrite length_map, length_combine, length_seq; lia).
  rewrite (nth_map_within _ _ (0%nat, 0))
    by (rewrite length_combine, length_seq; lia).
  rewrite combine_nth by apply length_seq.
  rewrite seq_nth by exact Hn. reflexivity.
Qed.

(** X19.  The raw data sheet has the header and one row for each sample,
    in the order of the samples, each row the time stamp followed by the
    values; for the samples of any state the application can reach the
    sheet is rectangular, nine cells in every row. *)
Theorem raw_sheet_is_rectangular :
  (forall pd : list PressureData,
      length (rawDataRows pd) = S (length pd)
      /\ forall i d, nth_error pd i = Some d ->
           nth_error (rawDataRows pd) (S i)
           = Some (Text (timestamp d) :: map Num (values d)))
  /\ (forall inputs : list (jsstring * Action),
         Forall (fun row => length row = 9%nat)
           (rawDataRows (pressureData (screen (run App.initial inputs))))).
Proof.
  split.
  - intros pd. unfold rawDataRows. cbn [length nth_error].
    rewrite length_map. split; [reflexivity|].
    intros i d H. rewrite nth_error_map, H. reflexivity.
  - intros inputs.
    destruct (reachable_wellFormed (run App.initial inputs)) as (H & _);
      [exists inputs; reflexivity|].
    unfold rawDataRows. constructor; [reflexivity|].
    apply Forall_map. revert H. apply Forall_impl.
    intros d Hd. cbn [length]. rewrite length_map, Hd. reflexivity.
Qed.

(** X20.  Whenever the results are shown, in any state the application
    can reach, the summary sheet built from the averages on the screen
    has 25 rows and carries the numbers the screen displays: its total
    average is the displayed average pressure, its maximum is the value
    of the displayed maximum point, and the row of the point the screen
    names as the maximum holds that value. *)
Theorem summary_sheet_matches_screen :
  forall (inputs : list (jsstring * Action)) (notes : jsstring)
         (sole : SoleType) (date time : jsstring),
    let s := screen (run App.initial inputs) in
    testCompleted s = true ->
    let rows := summaryRows (averagePressures s) notes sole date time in
    length rows = 25%nat
    /\ nth 19 rows [] = [Text (js "Total Average:"); Num (averagePressure s)]
    /\ nth 20 rows []
       = [Text (js "Maximum Pressure:"); Num (snd (maxPressurePoint s))]
    /\ 0 <= fst (maxPressurePoint s) < 8
    /\ nth (9 + Z.to_nat (fst (maxPressurePoint s))) rows []
       = [Text (js "P" ++ numberToString (fst (maxPressurePoint s) + 1));
          Num (snd (maxPressurePoint s))].
Proof.
  intros inputs notes sole date time s Ht rows.
  assert (Hr : reachable (run App.initial inputs))
    by (exists inputs; reflexivity).
  destruct (reachable_resultsAgree _ Hr Ht) as [Ha Hm].
  destruct (reachable_consistent _ Hr) as (_ & _ & _ & _ & Hlen & _).
  fold s in Ha, Hm, Hlen.
  assert (Hne : averagePressures s <> [])
    by (intros E; rewrite E in Hlen; discriminate).
  destruct (indexOf_first (averagePressures s)
              (Math_max (averagePressures s)) 0 (Math_max_in _ Hne))
    as (n & Hi & Hn & Hx & _).
  rewrite Hm, Ha. cbn [fst snd]. rewrite Hi. cbn [Z.add].
  rewrite Nat2Z.id.
  split; [|split; [|split; [|split; [lia|]]]].
  - unfold rows, summaryRows.
    rewrite !length_app, length_map, length_combine, length_seq, Hlen.
    reflexivity.
  - unfold rows. clear - Hlen.
    destruct (averagePressures s) as [|a0 [|a1 [|a2 [|a3 [|a4 [|a5 [|a6
      [|a7 [|a8 l]]]]]]]]]; try discriminate.
    reflexivity.
  - unfold rows. clear - Hlen.
    destruct (averagePressures s) as [|a0 [|a1 [|a2 [|a3 [|a4 [|a5 [|a6
      [|a7 [|a8 l]]]]]]]]]; try discriminate.
    reflexivity.
  - unfold rows. rewrite pointRow by exact Hn. rewrite Hx. reflexivity.
Qed.

Lemma raw_sheet_is_rectangular_witness :
  let d := {| timestamp := noon; values := [1; 2; 3; 4; 5; 6; 7; 8] |} in
  nth_error [d] 0 = Some d
  /\ nth_error (rawDataRows [d]) 1
     = Some (Text noon :: map Num [1; 2; 3; 4; 5; 6; 7; 8])
  /\ length (rawDataRows [d]) = 2%nat.
Proof.
  intros d.
  assert (H : nth_error [d] 0 = Some d) by reflexivity.
  split; [exact H|]. split.
  - exact (proj2 (proj1 raw_sheet_is_rectangular [d]) 0%nat d H).
  - exact (proj1 (proj1 raw_sheet_is_rectangular [d])).
Defined.

(** A session of two simulated frames in a browser without Web
    Bluetooth. *)
Definition simulatedSession : list (jsstring * Action) :=
  [(noon, ClickScan {| bluetooth := false;
                       filtered := Refused (newError unsupportedMessage);
                       acceptAll := Refused (newError unsupportedMessage) |});
   (noon, SelectDevice (js "demo-esp32-right") GattOk);
   (noon, ClickStart WriteOk);
   (noon, SimulatorFires (fun _ => 0));
   (js "12:00:01", SimulatorFires (fun _ => 10));
   (js "12:00:10", ClickStop WriteOk)].

Lemma summary_sheet_matches_screen_witness :
  let s := screen (run App.initial simulatedSession) in
  let rows := summaryRows (averagePressures s) [] right
                (js "1/1/2025") noon in
  testCompleted s = true
  /\ averagePressure s = 154
  /\ maxPressurePoint s = (5, 255)
  /\ nth 19 rows [] = [Text (js "Total Average:"); Num (averagePressure s)]
  /\ nth 20 rows []
     = [Text (js "Maximum Pressure:"); Num (snd (maxPressurePoint s))].
Proof.
  intros s rows.
  assert (H : testCompleted s = true) by (vm_compute; reflexivity).
  split; [exact H|].
  split; [vm_compute; reflexivity|].
  split; [vm_compute; reflexivity|].
  pose proof (summary_sheet_matches_screen simulatedSession [] right
                (js "1/1/2025") noon H) as (_ & A & M & _).
  split; [exact A | exact M].
Defined.

End Workbook.

(* ================================================================== *)
(** ** The console's view of the screen's log *)

Section ConsoleTypes.

Lemma includes_start (p s : jsstring) :
  startsWith p s = true -> includes p s = true.
Proof. intros H. destruct s; cbn [includes]; rewrite H; reflexivity. Qed.

Lemma includes_app_r (p pre s : jsstring) :
  includes p s = true -> includes p (pre ++ s) = true.
Proof.
  intros H. induction pre as [|c pre IH]; [exact H|].
  cbn [app includes]. rewrite IH. apply orb_true_r.
Qed.

(** A pattern cannot lie across a character it does not contain. *)
Lemma startsWith_sep (c : N) (p a b : jsstring) :
  ~ In c p -> startsWith p (a ++ c :: b) = startsWith p a.
Proof.
  revert a. induction p as [|x p IH]; intros a Hc; [destruct a; reflexivity|].
  assert (Hx : x <> c) by (intros ->; apply Hc; left; reflexivity).
  assert (Hp : ~ In c p) by (intros H; apply Hc; right; exact H).
  destruct a as [|y a]; cbn [app startsWith].
  - apply N.eqb_neq in Hx. rewrite Hx. reflexivity.
  - rewrite (IH a Hp). reflexivity.
Qed.

Lemma includes_sep (c : N) (p a b : jsstring) :
  ~ In c p -> p <> [] ->
  includes p (a ++ c :: b) = includes p a || includes p b.
Proof.
  intros Hc Hne. induction a as [|y a IH].
  - cbn [app]. cbn [includes].
    rewrite (startsWith_sep c p [] b Hc : startsWith p (c :: b) = _).
    destruct p; [congruence | reflexivity].
  - cbn [app]. cbn [includes].
    rewrite (startsWith_sep c p (y :: a) b Hc
             : startsWith p (y :: a ++ c :: b) = _), IH.
    apply orb_assoc.
Qed.

Lemma includes_first_in (x : N) (p s : jsstring) :
  includes (x :: p) s = true -> In x s.
Proof.
  induction s as [|y s IH]; cbn [includes startsWith]; [discriminate|].
  intros H. apply orb_true_iff in H as [H|H].
  - apply andb_true_iff in H as [H _]. apply N.eqb_eq in H. left. congruence.
  - right. apply IH, H.
Qed.

Lemma numberToString_letterFree (z : Z) : ~ In 80%N (numberToString z).
Proof.
  unfold numberToString. cbv zeta.
  assert (Hd : forall d, forallb isDigit d = true -> ~ In 80%N d).
  { intros d Hd Hin. rewrite forallb_forall in Hd.
    specialize (Hd _ Hin). discriminate. }
  pose proof (Hd _ (digitsOf_digits
                      (N.to_nat (N.log2 (Z.to_N (Z.abs z))))
                      (Z.to_N (Z.abs z)) [] eq_refl)) as H.
  destruct (z <? 0); [|exact H].
  intros [E|Hin]; [discriminate | exact (H Hin)].
Qed.

Lemma join_numbers_letterFree (data : list Z) :
  ~ In 80%N (join_comma (map numberToString data)).
Proof.
  induction data as [|v data IH]; [intros []|].
  destruct data as [|v' data].
  - apply numberToString_letterFree.
  - cbn [map] in *. rewrite join_comma_cons. intros H.
    apply in_app_or in H as [H|[H|H]].
    + exact (numberToString_letterFree v H).
    + discriminate.
    + exact (IH H).
Qed.

(** The line [handleDataReceived] logs for a sample. *)
Definition sampleLine (now : jsstring) (data : list Z) : jsstring :=
  last (consoleLog (handleDataReceived now data mounted)) [].

Lemma sampleLine_unfold (now : jsstring) (data : list Z) :
  sampleLine now data
  = (91%N :: now) ++ 93%N
    :: [] ++ 32%N
    :: tagRight ++ 32%N :: join_comma (map numberToString data).
Proof.
  unfold sampleLine, handleDataReceived, log. cbn [consoleLog setConsoleLog].
  rewrite last_last. reflexivity.
Qed.

(** X21.  How the console viewer types the lines the screen logs for
    its data.  The line of a sample is typed [right], unless the clock
    text itself contains [PRESSURE_LEFT:]; the raw line of a simulator
    frame, which carries the left tag, is typed [left] on this screen
    for the right sole; and the raw line of any text the tagged decoding
    accepts is typed [left] or [right], never as an error or a system
    line. *)
Theorem console_types_of_data_lines :
  (forall (now : jsstring) (data : list Z),
      Console.type (Console.logEntry (sampleLine now data))
      = if includes tagLeft now then Console.left else Console.right)
  /\ (forall (now : jsstring) (data : list Z),
         Console.type (Console.logEntry (stamp now (frameString data)))
         = Console.left)
  /\ (forall (now dataString : jsstring),
         taggedValues dataString <> None ->
         Console.type (Console.logEntry (stamp now dataString)) = Console.left
         \/ Console.type (Console.logEntry (stamp now dataString))
            = Console.right).
Proof.
  assert (Hstamp : forall p now text,
             includes p text = true -> includes p (stamp now text) = true).
  { intros p now text H. unfold stamp.
    rewrite app_assoc. apply includes_app_r.
    apply (includes_app_r p (js "] ")), H. }
  split; [|split].
  - intros now data. rewrite sampleLine_unfold.
    unfold Console.logEntry. cbn [Console.type].
    change (js "PRESSURE_LEFT:") with tagLeft.
    change (js "PRESSURE_RIGHT:") with tagRight.
    assert (HL : includes tagLeft
                   ((91%N :: now) ++ 93%N :: [] ++ 32%N
                    :: tagRight ++ 32%N
                    :: join_comma (map numberToString data))
                 = includes tagLeft now).
    { rewrite (includes_sep 93), (includes_sep 32), (includes_sep 32);
        try discriminate;
        try (intros H; repeat (destruct H as [H|H]; [discriminate|]);
             exact H).
      change (91%N :: now) with ([] ++ 91%N :: now).
      rewrite (includes_sep 91);
        try discriminate;
        try (intros H; repeat (destruct H as [H|H]; [discriminate|]);
             exact H).
      replace (includes tagLeft (join_comma (map numberToString data)))
        with false.
      - replace (includes tagLeft tagRight) with false by reflexivity.
        replace (includes tagLeft []) with false by reflexivity.
        cbn [orb]. rewrite !orb_false_r. reflexivity.
      - symmetry. apply not_true_is_false. intros H.
        apply includes_first_in in H.
        exact (join_numbers_letterFree data H). }
    rewrite HL. destruct (includes tagLeft now); [reflexivity|].
    replace (includes tagRight _) with true; [reflexivity|].
    symmetry. apply (includes_app_r tagRight (91%N :: now)).
    apply (includes_app_r tagRight [93%N; 32%N]).
    apply includes_start, startsWith_app.
  - intros now data. unfold Console.logEntry. cbn [Console.type].
    change (js "PRESSURE_LEFT:") with tagLeft.
    rewrite Hstamp; [reflexivity|].
    apply includes_start. unfold frameString. apply startsWith_app.
  - intros now dataString H. unfold Console.logEntry. cbn [Console.type].
    change (js "PRESSURE_LEFT:") with tagLeft.
    change (js "PRESSURE_RIGHT:") with tagRight.
    unfold taggedValues in H.
    destruct (includes tagLeft dataString) eqn:HL.
    + rewrite (Hstamp _ _ _ HL). left. reflexivity.
    + destruct (includes tagRight dataString) eqn:HR;
        [|cbn [orb] in H; congruence].
      rewrite (Hstamp _ _ _ HR).
      destruct (includes tagLeft (stamp now dataString));
        [left | right]; reflexivity.
Qed.

Lemma console_types_of_data_lines_witness :
  let frame := js "PRESSURE_RIGHT:1,2,3,4,5,6,7,8" in
  taggedValues frame <> None
  /\ Console.type (Console.logEntry (stamp noon frame)) = Console.right
  /\ (Console.type (Console.logEntry (stamp noon frame)) = Console.left
      \/ Console.type (Console.logEntry (stamp noon frame)) = Console.right).
Proof.
  intros frame.
  assert (H : taggedValues frame <> None) by (vm_compute; discriminate).
  split; [exact H|]. split; [vm_compute; reflexivity|].
  exact (proj2 (proj2 console_types_of_data_lines) noon frame H).
Defined.

End ConsoleTypes.
